(** * x402-paywall: the HTTP 402 challenge / proof / retry exchange

    A shallow embedding of the request handlers of the paywall and of the
    page that negotiates with them.

    - [Js], [Eff], [Http]: JavaScript values and the library functions the
      handlers use, computations that may throw, requests and responses.
    - [Server]: what the server-side handlers call (the facilitator SDK,
      [fetch], the file system) and the code both handlers share.
    - [Route]: the resource guard, [GET] of [app/api/premium/route.js], in
      the variant built on [buildPaymentConfig].
    - [RouteSettle]: the variant of the same handler that posts to the
      facilitator's [/settle] endpoint itself (the handler that follows the
      layout component in [app/layout.js]).
    - [Page]: the payment page, [normalizeNetworkForSdk],
      [handleAccessContent] and [handleProcessPayment].
    - [PageFallback]: the network conversion of the fallback path of
      [app/page.js].

    Everything the handlers call but do not define is a field of a world
    record, and every such call is recorded in a trace, in program order.
    Logging ([console.log], [console.error]) has no effect on the results
    and is left out, and so are the pauses ([setTimeout]). *)

From Stdlib Require Import ZArith Ascii String List Lia.
From stdpp Require Import base option list strings pretty gmap.

Set Warnings "-register-all".
Local Open Scope Z_scope.

(** ** JavaScript values and the library functions the handlers use *)

Module Js.

(** Values that flow through the handlers: parsed JSON, object literals and
    [undefined].  Numbers are the integers; the only non-integer number
    the program computes is [PAYMENT_AMOUNT / 1_000_000], which is turned
    into a string at once ([toFixed_micro]).  An object is the list of its
    own properties in enumeration order. *)
Inductive value : Type :=
| VUndef
| VNull
| VBool (b : bool)
| VNum (n : Z)
| VStr (s : string)
| VArr (items : list value)
| VObj (props : list (string * value)).

Abbreviation obj := (list (string * value)).

(** An error object; only its [message] is ever read. *)
Record error := Error { message : string }.

(** The result of an expression that may throw (or of an awaited promise
    that may reject). *)
Inductive outcome (A : Type) : Type :=
| Returns (a : A)
| Throws (e : error).
Arguments Returns {A} a.
Arguments Throws {A} e.

(** *** Strings *)

Definition is_upper (c : ascii) : bool :=
  (65 <=? nat_of_ascii c)%nat && (nat_of_ascii c <=? 90)%nat.

Definition lower_ascii (c : ascii) : ascii :=
  if is_upper c then ascii_of_nat (nat_of_ascii c + 32) else c.

(** [String.prototype.toLowerCase], on the ASCII letters. *)
Fixpoint toLowerCase (s : string) : string :=
  match s with
  | EmptyString => EmptyString
  | String c t => String (lower_ascii c) (toLowerCase t)
  end.

(** [hay.includes(needle)] *)
Fixpoint includes (needle hay : string) : bool :=
  String.prefix needle hay ||
  match hay with
  | EmptyString => false
  | String _ t => includes needle t
  end.

(** [s.startsWith(p)] *)
Definition startsWith (p s : string) : bool := String.prefix p s.

(** [s.replace(/\/$/, '')]: the pattern matches one slash at the very end
    of the input, and that slash is dropped. *)
Fixpoint strip_trailing_slash (s : string) : string :=
  match s with
  | EmptyString => EmptyString
  | String c t =>
      match t with
      | EmptyString => if Ascii.eqb c "/" then EmptyString else s
      | String _ _ => String c (strip_trailing_slash t)
      end
  end.

(** *** Numbers *)

(** A JavaScript number as [parseInt] produces it. *)
Inductive number : Type :=
| NaN
| Int (z : Z).

(** [Number.prototype.toString] (radix 10).  Exact on the safe integers;
    [parseInt] of a longer digit string rounds to a double first. *)
Definition number_toString (n : number) : string :=
  match n with
  | NaN => "NaN"
  | Int z => pretty z
  end.

Definition is_space (c : ascii) : bool :=
  let n := nat_of_ascii c in
  (n =? 32)%nat || ((9 <=? n)%nat && (n <=? 13)%nat).

Fixpoint trim_start (s : string) : string :=
  match s with
  | String c t => if is_space c then trim_start t else s
  | EmptyString => EmptyString
  end.

(** The value of a digit in the given radix (10 or 16), if it is one. *)
Definition digit_value (radix : Z) (c : ascii) : option Z :=
  let n := Z.of_nat (nat_of_ascii c) in
  let v :=
    if (48 <=? n) && (n <=? 57) then Some (n - 48)
    else if (97 <=? n) && (n <=? 102) then Some (n - 87)
    else if (65 <=? n) && (n <=? 70) then Some (n - 55)
    else None in
  match v with
  | Some d => if d <? radix then Some d else None
  | None => None
  end.

(** Reads the longest prefix of digits; [acc] is [None] until a digit has
    been seen. *)
Fixpoint read_digits (radix : Z) (acc : option Z) (s : string) : option Z :=
  match s with
  | EmptyString => acc
  | String c t =>
      match digit_value radix c with
      | Some d => read_digits radix (Some (default 0 acc * radix + d)) t
      | None => acc
      end
  end.

(** [parseInt(s)] without a radix: leading white space (here the ASCII
    one) is skipped, a sign is read, a [0x] / [0X] prefix selects radix 16,
    and the longest prefix of digits is the value; no digit at all gives
    [NaN]. *)
Definition parseInt (s : string) : number :=
  let s1 := trim_start s in
  let '(sign, s2) :=
    match s1 with
    | String "-" t => (-1, t)
    | String "+" t => (1, t)
    | _ => (1, s1)
    end in
  let '(radix, s3) :=
    match s2 with
    | String "0" (String "x" t) => (16, t)
    | String "0" (String "X" t) => (16, t)
    | _ => (10, s2)
    end in
  match read_digits radix None s3 with
  | Some v => Int (sign * v)
  | None => NaN
  end.

Fixpoint zeros (n : nat) : string :=
  match n with
  | O => ""
  | S k => String "0" (zeros k)
  end.

(** [(n / 1_000_000).toFixed(digits)] for [digits <= 6]: the quotient is
    rounded to [digits] decimals, halves upwards in magnitude.  (The
    double nearest to the quotient can fall on the other side of a half;
    the amounts used below are not at a half.) *)
Definition toFixed_micro (n : number) (digits : nat) : string :=
  match n with
  | NaN => "NaN"
  | Int z =>
      let scale := 10 ^ Z.of_nat (6 - digits) in
      let m := (Z.abs z + scale / 2) / scale in
      let unit := 10 ^ Z.of_nat digits in
      let frac := pretty (m mod unit) in
      let body :=
        pretty (m / unit) +:+
        match digits with
        | O => ""
        | _ => "." +:+ zeros (digits - String.length frac) +:+ frac
        end in
      if z <? 0 then "-" +:+ body else body
  end.

(** *** Truthiness and conversions *)

Definition truthy (v : value) : bool :=
  match v with
  | VUndef | VNull => false
  | VBool b => b
  | VNum n => negb (n =? 0)
  | VStr s => negb (String.eqb s "")
  | VArr _ | VObj _ => true
  end.

(** [a || b] *)
Definition or_else (a b : value) : value := if truthy a then a else b.

(** [s || d] on a string that may be missing. *)
Definition str_or (s : option string) (d : string) : string :=
  match s with
  | Some x => if String.eqb x "" then d else x
  | None => d
  end.

Definition join_with (sep : string) (parts : list string) : string :=
  match parts with
  | [] => ""
  | p :: ps => fold_left (fun acc q => acc +:+ sep +:+ q) ps p
  end.

(** [String(v)], which is also [v.toString()] where that exists. *)
Fixpoint to_string (v : value) : string :=
  match v with
  | VUndef => "undefined"
  | VNull => "null"
  | VBool true => "true"
  | VBool false => "false"
  | VNum n => pretty n
  | VStr s => s
  | VArr items =>
      join_with ","
        (map (fun x => match x with
                       | VUndef | VNull => ""
                       | _ => to_string x
                       end) items)
  | VObj _ => "[object Object]"
  end.

(** *** Objects *)

Fixpoint obj_get (k : string) (o : obj) : value :=
  match o with
  | [] => VUndef
  | (k', v) :: rest => if String.eqb k k' then v else obj_get k rest
  end.

(** Assignment to a property: an existing property keeps its place. *)
Fixpoint obj_set (k : string) (v : value) (o : obj) : obj :=
  match o with
  | [] => [(k, v)]
  | (k', v') :: rest =>
      if String.eqb k k' then (k, v) :: rest else (k', v') :: obj_set k v rest
  end.

Definition obj_assign (target source : obj) : obj :=
  fold_left (fun acc kv => obj_set (fst kv) (snd kv) acc) source target.

Fixpoint index_props (i : nat) (items : list value) : obj :=
  match items with
  | [] => []
  | x :: xs => (pretty i, x) :: index_props (S i) xs
  end.

(** The own enumerable properties that a spread [{...v}] copies. *)
Definition own_props (v : value) : obj :=
  match v with
  | VObj props => props
  | VArr items => index_props 0 items
  | VStr s => index_props 0 (map (fun c => VStr (String c "")) (list_ascii_of_string s))
  | _ => []
  end.

(** The members of an object literal, in source order. *)
Inductive member : Type :=
| Prop_ (k : string) (v : value)
| Spread (v : value).

Definition literal (ms : list member) : obj :=
  fold_left (fun acc m =>
               match m with
               | Prop_ k v => obj_set k v acc
               | Spread v => obj_assign acc (own_props v)
               end) ms [].

(** [v.k] for the property names the handlers read; none of them is an
    inherited property, so a value that is not an object yields
    [undefined], and reading from [null] or [undefined] throws. *)
Definition get_prop (v : value) (k : string) : outcome value :=
  match v with
  | VUndef | VNull =>
      Throws (Error ("Cannot read properties of " +:+ to_string v +:+
                     " (reading '" +:+ k +:+ "')"))
  | VObj props => Returns (obj_get k props)
  | _ => Returns VUndef
  end.

(** [v?.k]; also [v.k] where [v] is known to be neither [null] nor
    [undefined] (a literal, or a value a property has been read from
    before). *)
Definition get_prop_opt (v : value) (k : string) : value :=
  match v with
  | VObj props => obj_get k props
  | _ => VUndef
  end.

End Js.

(** ** Computations with a state that may throw *)

Module Eff.

Import Js.

(** A computation over a state [S] (the trace of external calls, and on the
    page also the component's state) that returns or throws. *)
Definition t (S A : Type) : Type := S -> outcome A * S.

Definition ret {S A} (a : A) : t S A := fun s => (Returns a, s).

Definition throw {S A} (e : error) : t S A := fun s => (Throws e, s).

Definition bind {S A B} (m : t S A) (k : A -> t S B) : t S B :=
  fun s =>
    match m s with
    | (Returns a, s') => k a s'
    | (Throws e, s') => (Throws e, s')
    end.

(** [try { m } catch (e) { handler e }]; what [m] did to the state before it
    threw stays done. *)
Definition try_catch {S A} (m : t S A) (handler : error -> t S A) : t S A :=
  fun s =>
    match m s with
    | (Returns a, s') => (Returns a, s')
    | (Throws e, s') => handler e s'
    end.

(** Lifts the outcome of an expression. *)
Definition lift {S A} (o : outcome A) : t S A := fun s => (o, s).

Definition get {S} : t S S := fun s => (Returns s, s).

Definition modify {S} (f : S -> S) : t S unit := fun s => (Returns tt, f s).

End Eff.

Notation "'let*' x ':=' m 'in' k" := (Eff.bind m (fun x => k))
  (at level 10, x pattern, m at level 100, k at level 200).

(** ** The request and the response, as both handlers see them *)

Module Http.

Import Js.

(** The parts of [new URL(request.url)] that the handlers read.  A request
    whose [url] is empty or missing has [None]. *)
Record url := Url { origin : string; pathname : string; search : string }.

(** [headers] maps the lower-cased header names to their values, as the
    [Headers] object does. *)
Record request := Request {
  req_url : option url;
  req_headers : gmap string string
}.

Inductive entity : Type :=
| JsonBody (v : value)
| BytesBody (bytes : list Byte.byte).

(** A response: for [NextResponse.json] the body is the value handed over,
    before serialisation (which drops the properties that are [undefined]);
    [headers] are the ones the handler sets itself. *)
Record response := Response {
  status : Z;
  headers : list (string * string);
  body : entity
}.

(** A header value that is [null] or empty fails the test [!header]. *)
Definition present (h : option string) : option string :=
  match h with
  | Some s => if String.eqb s "" then None else Some s
  | None => None
  end.

(** [NextResponse.json(v, { status, headers })].  The [Response]
    constructor refuses a status outside 200..599 with a [RangeError] and a
    body on a null-body status with a [TypeError]; the wording of the two
    messages is the runtime's. *)
Definition NextResponse_json (v : value) (st : Z) (hs : list (string * string))
  : outcome response :=
  if (st <? 200) || (599 <? st) then
    Throws (Error "init.status must be in the range of 200 to 599, inclusive.")
  else if (st =? 204) || (st =? 205) || (st =? 304) then
    Throws (Error ("Response constructor: Invalid response status code " +:+ pretty st))
  else Returns (Response st hs (JsonBody v)).

(** [response.ok] *)
Definition ok (st : Z) : bool := (200 <=? st) && (st <=? 299).

End Http.

(** ** What the server-side handlers call *)

Module Server.

Import Js Http.

(** [process.env] *)
Abbreviation env := (gmap string string).

(** *** What the handler calls *)

(** A chain object of [thirdweb/chains]. *)
Record chain := Chain { chain_id : Z; chain_name : string }.

Definition base : chain := Chain 8453 "Base".
Definition baseSepolia : chain := Chain 84532 "Base Sepolia".

(** The facilitator built from [createThirdwebClient] and [facilitator];
    both only package their arguments. *)
Record facilitator := Facilitator {
  secretKey : string;
  serverWalletAddress : string;
  vaultAccessToken : string
}.

Record routeConfig := RouteConfig {
  rc_description : string;
  rc_mimeType : string;
  rc_maxTimeoutSeconds : Z
}.

(** The argument of [settlePayment]. *)
Record settleArgs := SettleArgs {
  resourceUrl : string;
  method : string;
  paymentData : string;
  payTo : string;
  network : chain;
  price : string;
  via : facilitator;
  route : routeConfig
}.

(** What [settlePayment] resolves to; [responseHeaders] may be missing. *)
Record settleResult := SettleResult {
  sr_status : Z;
  responseBody : value;
  responseHeaders : option (list (string * string))
}.

(** What [fetch] resolves to, as far as the handlers look at it. *)
Record fetchResponse := FetchResponse {
  fr_status : Z;
  fr_json : outcome value
}.

(** The facilitator SDK, [decodePayment] of [x402/schemes], [fetch] (used as
    [fetch(url, { method: 'POST', body: JSON.stringify(payload) })]), the
    file system and the [path] module. *)
Record world := World {
  settlePayment : settleArgs -> outcome settleResult;
  decodePayment : string -> outcome value;
  fetch : string -> value -> outcome fetchResponse;
  existsSync : string -> bool;
  readFileSync : string -> outcome (list Byte.byte);
  statSync_size : string -> outcome Z;
  path_join : list string -> string;
  path_isAbsolute : string -> bool;
  cwd : string
}.

(** The external calls of one request, in program order. *)
Inductive event : Type :=
| Settle (args : settleArgs)
| Post (url : string) (payload : value)
| ExistsSync (p : string)
| ReadFileSync (p : string)
| StatSync (p : string).

Abbreviation M := (Eff.t (list event)).

Definition emit (ev : event) : M unit := Eff.modify (fun tr => tr ++ [ev]).

Definition call_settlePayment (w : world) (a : settleArgs) : M settleResult :=
  let* _ := emit (Settle a) in Eff.lift (settlePayment w a).

Definition call_fetch (w : world) (url : string) (payload : value) : M fetchResponse :=
  let* _ := emit (Post url payload) in Eff.lift (fetch w url payload).

Definition call_existsSync (w : world) (p : string) : M bool :=
  let* _ := emit (ExistsSync p) in Eff.ret (existsSync w p).

Definition call_readFileSync (w : world) (p : string) : M (list Byte.byte) :=
  let* _ := emit (ReadFileSync p) in Eff.lift (readFileSync w p).

Definition call_statSync (w : world) (p : string) : M Z :=
  let* _ := emit (StatSync p) in Eff.lift (statSync_size w p).

Definition json (v : value) (st : Z) (hs : list (string * string)) : M response :=
  Eff.lift (NextResponse_json v st hs).

(** [videoAbsolutePath]: [VIDEO_PATH] or the default, made absolute. *)
Definition videoPath (e : env) (w : world) : string :=
  let videoRelativePath :=
    str_or (e !! "VIDEO_PATH")
      (path_join w ["resources "; "ssstik.io_@wilcoxxspace_1761512614937.mp4"]) in
  if path_isAbsolute w videoRelativePath then videoRelativePath
  else path_join w [cwd w; videoRelativePath].

(** The last step of both handlers, the file behind the paywall; the two
    copies differ in the value of the [X-Payment-Network] header only. *)
Definition serveVideo (e : env) (w : world) (networkHeader : string) : M response :=
  Eff.try_catch
    (let videoAbsolutePath := videoPath e w in
     let* found := call_existsSync w videoAbsolutePath in
     if negb found then
       json (VObj (literal
               [Prop_ "error" (VStr "Video file not found");
                Prop_ "message" (VStr "The protected video resource is not available.")]))
            500 []
     else
       let* videoBuffer := call_readFileSync w videoAbsolutePath in
       let* size := call_statSync w videoAbsolutePath in
       Eff.ret (Response 200
                  [("Content-Type", "video/mp4");
                   ("Content-Length", pretty size);
                   ("Accept-Ranges", "bytes");
                   ("Cache-Control", "private, no-cache");
                   ("X-Payment-Verified", "true");
                   ("X-Payment-Network", networkHeader)]
                  (BytesBody videoBuffer)))
    (fun fileError =>
       json (VObj (literal
               [Prop_ "error" (VStr "Video file error");
                Prop_ "message" (VStr "Payment verified but video file could not be served.");
                Prop_ "details" (VStr (message fileError))]))
            500 []).

(** One request, from an empty trace: the result and the external calls. *)
Definition run (m : M response) : outcome response * list event := m [].

End Server.

(** ** The resource guard: [app/api/premium/route.js] *)

Module Route.

Import Js Http Server.

(** *** Module constants *)

Definition MERCHANT_ADDRESS (e : env) : string :=
  str_or (e !! "MERCHANT_ADDRESS") "0x0000000000000000000000000000000000000000".

Definition SERVER_WALLET_ADDRESS (e : env) : string :=
  str_or (e !! "SERVER_WALLET_ADDRESS") (MERCHANT_ADDRESS e).

Definition NETWORK (e : env) : string :=
  str_or (e !! "NEXT_PUBLIC_NETWORK") "base".

Definition USDC_ADDRESSES : gmap string string :=
  list_to_map
    [("base-sepolia", "0x036CbD53842c5426634e7929541eC2318f3dCF7e");
     ("base", "0x833589fCD6eDb6E08f4c7C32D4f71b54bdA02913");
     ("base:84532", "0x036CbD53842c5426634e7929541eC2318f3dCF7e");
     ("base:8453", "0x833589fCD6eDb6E08f4c7C32D4f71b54bdA02913")].

Record metadata := Metadata { md_name : string; md_version : string }.

Definition USDC_METADATA : gmap string metadata :=
  list_to_map
    [("base-sepolia", Metadata "USDC" "2");
     ("base", Metadata "USD Coin" "2")].

Definition PAYMENT_AMOUNT (e : env) : number :=
  parseInt (str_or (e !! "PAYMENT_AMOUNT") "100000").

Definition PAYMENT_DESCRIPTION : string := "Access to premium video content".
Definition PAYMENT_MIME_TYPE : string := "video/mp4".
Definition PAYMENT_TIMEOUT_SECONDS : Z := 86400.

Definition MAINNET_ALIASES : list string := ["base"; "base:8453"; "eip155:8453"].

(** A string that may be [undefined], as a value. *)
Definition str_val (o : option string) : value :=
  match o with
  | Some s => VStr s
  | None => VUndef
  end.

Record networkConfig := NetworkConfig {
  isMainnet : bool;
  x402Network : string;
  displayNetwork : string;
  networkName : string;
  usdcAddress : option string
}.

Definition resolveNetworkConfig (networkInput : string) : networkConfig :=
  let normalized := toLowerCase (str_or (Some networkInput) "") in
  let isMainnet := bool_decide (normalized ∈ MAINNET_ALIASES) in
  {| isMainnet := isMainnet;
     x402Network := if isMainnet then "base" else "base-sepolia";
     displayNetwork := if isMainnet then "base:8453" else "base:84532";
     networkName := if isMainnet then "Base" else "Base Sepolia";
     usdcAddress := USDC_ADDRESSES !! (if isMainnet then "base" else "base-sepolia") |}.

Definition buildResourceUrl (e : env) (request : request) : string :=
  match req_url request with
  | Some requestUrlObj =>
      let normalizedPathname := strip_trailing_slash (pathname requestUrlObj) in
      origin requestUrlObj +:+ normalizedPathname
  | None =>
      let fallbackBase := str_or (e !! "NEXT_PUBLIC_APP_URL") "http://localhost:3000" in
      strip_trailing_slash fallbackBase +:+ "/api/premium"
  end.

Record paymentConfig := PaymentConfig {
  pc_resourceUrl : string;
  pc_network : networkConfig;
  pc_payment : value;
  pc_x402Requirements : value
}.

Definition buildPaymentConfig (e : env) (request : request) : paymentConfig :=
  let nc := resolveNetworkConfig (NETWORK e) in
  let usdcMetadata := default (Metadata "USD Coin" "2") (USDC_METADATA !! x402Network nc) in
  let resourceUrl := buildResourceUrl e request in
  let amountString := number_toString (PAYMENT_AMOUNT e) in
  let x402Requirements :=
    VObj (literal
      [Prop_ "scheme" (VStr "exact");
       Prop_ "network" (VStr (x402Network nc));
       Prop_ "maxAmountRequired" (VStr amountString);
       Prop_ "resource" (VStr resourceUrl);
       Prop_ "description" (VStr PAYMENT_DESCRIPTION);
       Prop_ "mimeType" (VStr PAYMENT_MIME_TYPE);
       Prop_ "payTo" (VStr (MERCHANT_ADDRESS e));
       Prop_ "maxTimeoutSeconds" (VNum PAYMENT_TIMEOUT_SECONDS);
       Prop_ "asset" (str_val (usdcAddress nc));
       Prop_ "extra" (VObj (literal
         [Prop_ "name" (VStr (md_name usdcMetadata));
          Prop_ "version" (VStr (md_version usdcMetadata));
          Prop_ "primaryType" (VStr "TransferWithAuthorization");
          Prop_ "recipientAddress" (VStr (MERCHANT_ADDRESS e))]))]) in
  let payment :=
    VObj (literal
      [Prop_ "scheme" (VStr "exact");
       Prop_ "network" (VStr (displayNetwork nc));
       Prop_ "networkName" (VStr (networkName nc));
       Prop_ "token" (str_val (usdcAddress nc));
       Prop_ "recipient" (VStr (MERCHANT_ADDRESS e));
       Prop_ "amount" (VStr amountString);
       Prop_ "displayAmount" (VStr (toFixed_micro (PAYMENT_AMOUNT e) 6 +:+ " USDC"));
       Prop_ "description" (VStr PAYMENT_DESCRIPTION);
       Prop_ "x402Requirements" x402Requirements]) in
  {| pc_resourceUrl := resourceUrl;
     pc_network := nc;
     pc_payment := payment;
     pc_x402Requirements := x402Requirements |}.

(** *** The handler *)

Definition challenge (pc : paymentConfig) : value :=
  VObj (literal
    [Prop_ "x402Version" (VNum 1);
     Spread (pc_x402Requirements pc);
     Prop_ "accepts" (VArr [pc_x402Requirements pc]);
     Prop_ "payment" (pc_payment pc)]).

(** The argument object of the [settlePayment] call, with the facilitator,
    the chain and the price string computed just before it. *)
Definition settlement (e : env) (paymentConfig : paymentConfig)
    (xPaymentHeader thirdwebSecretKey vaultAccessToken : string) : settleArgs :=
  let thirdwebFacilitator :=
    Facilitator thirdwebSecretKey (SERVER_WALLET_ADDRESS e) vaultAccessToken in
  let chain := if isMainnet (pc_network paymentConfig) then base else baseSepolia in
  let priceString := "$" +:+ toFixed_micro (PAYMENT_AMOUNT e) 2 in
  {| resourceUrl := pc_resourceUrl paymentConfig;
     method := "GET";
     paymentData := xPaymentHeader;
     payTo := MERCHANT_ADDRESS e;
     network := chain;
     price := priceString;
     via := thirdwebFacilitator;
     route := RouteConfig PAYMENT_DESCRIPTION PAYMENT_MIME_TYPE PAYMENT_TIMEOUT_SECONDS |}.

Definition GET (e : env) (w : world) (request : request) : M response :=
  let paymentConfig := buildPaymentConfig e request in
  let x402Requirements := pc_x402Requirements paymentConfig in
  let network := pc_network paymentConfig in
  match present (req_headers request !! "x-payment") with
  | None => json (challenge paymentConfig) 402 []
  | Some xPaymentHeader =>
      Eff.try_catch
        (match present (e !! "THIRDWEB_SECRET_KEY") with
         | None =>
             json (VObj (literal
                     [Prop_ "error" (VStr "Server configuration error");
                      Prop_ "message" (VStr "Payment system not configured.")]))
                  500 []
         | Some thirdwebSecretKey =>
             match present (e !! "THIRDWEB_VAULT_ACCESS_TOKEN") with
             | None =>
                 json (VObj (literal
                         [Prop_ "error" (VStr "Server configuration error");
                          Prop_ "message" (VStr "Wallet access credentials not configured.")]))
                      500 []
             | Some vaultAccessToken =>
                 let* result :=
                   Eff.try_catch
                     (call_settlePayment w
                        (settlement e paymentConfig xPaymentHeader
                           thirdwebSecretKey vaultAccessToken))
                     (fun settlementError => Eff.throw settlementError) in
                 if negb (sr_status result =? 200) then
                   json (or_else (responseBody result)
                           (VObj (literal [Prop_ "error" (VStr "Payment verification failed")])))
                        (sr_status result)
                        (default [] (responseHeaders result))
                 else serveVideo e w (x402Network network)
             end
         end)
        (fun error =>
           json (VObj (literal
                   [Prop_ "error" (VStr "Payment verification error");
                    Prop_ "message"
                      (VStr (str_or (Some (message error))
                               "Failed to verify payment. Please try again."));
                    Prop_ "hint"
                      (VStr "The facilitator service may be temporarily unavailable.");
                    Prop_ "accepts" (VArr [x402Requirements])]))
                402 [])
  end.

Definition handle (e : env) (w : world) (request : request)
  : outcome response * list event :=
  run (GET e w request).

End Route.

(** ** The variant that settles through the facilitator's HTTP endpoint

    The handler that follows the layout component in [app/layout.js].  Its
    module constants are those of [Route], word for word. *)

Module RouteSettle.

Import Js Http Server.

Definition MERCHANT_ADDRESS := Route.MERCHANT_ADDRESS.
Definition NETWORK := Route.NETWORK.
Definition USDC_ADDRESSES := Route.USDC_ADDRESSES.
Definition PAYMENT_AMOUNT := Route.PAYMENT_AMOUNT.

Definition isMainnet (e : env) : bool :=
  String.eqb (NETWORK e) "base" || String.eqb (NETWORK e) "base:8453".

Definition usdcAddress (e : env) : value :=
  Route.str_val (USDC_ADDRESSES !! (if isMainnet e then "base" else "base-sepolia")).

(** The resource URL, computed the same way in both branches of [GET]. *)
Definition resourceUrl_of (e : env) (request : request) : string :=
  strip_trailing_slash
    match req_url request with
    | Some requestUrlObj => origin requestUrlObj +:+ pathname requestUrlObj
    | None => str_or (e !! "NEXT_PUBLIC_APP_URL") "http://localhost:3000" +:+ "/api/premium"
    end.

(** The object sent with the 402 challenge. *)
Definition paymentRequirement (e : env) (request : request) : value :=
  let networkChainId := if isMainnet e then "base:8453" else "base:84532" in
  let networkName := if isMainnet e then "Base" else "Base Sepolia" in
  let networkNameForX402 := if isMainnet e then "eip155:8453" else "eip155:84532" in
  VObj (literal
    [Prop_ "scheme" (VStr "exact");
     Prop_ "network" (VStr networkChainId);
     Prop_ "token" (usdcAddress e);
     Prop_ "recipient" (VStr (MERCHANT_ADDRESS e));
     Prop_ "amount" (VStr (number_toString (PAYMENT_AMOUNT e)));
     Prop_ "displayAmount" (VStr (toFixed_micro (PAYMENT_AMOUNT e) 6 +:+ " USDC"));
     Prop_ "networkName" (VStr networkName);
     Prop_ "description" (VStr "Access to premium video content");
     Prop_ "x402Requirements" (VObj (literal
       [Prop_ "scheme" (VStr "exact");
        Prop_ "network" (VStr networkNameForX402);
        Prop_ "maxAmountRequired" (VStr (number_toString (PAYMENT_AMOUNT e)));
        Prop_ "resource" (VStr (resourceUrl_of e request));
        Prop_ "description" (VStr "Access to premium video content");
        Prop_ "mimeType" (VStr "video/mp4");
        Prop_ "payTo" (VStr (MERCHANT_ADDRESS e));
        Prop_ "maxTimeoutSeconds" (VNum 86400);
        Prop_ "asset" (usdcAddress e)]))]).

(** The requirements sent to the facilitator with a proof; [network] is the
    one read from the decoded proof. *)
Definition paymentRequirements (e : env) (request : request) (network : value) : value :=
  VObj (literal
    [Prop_ "scheme" (VStr "exact");
     Prop_ "network" network;
     Prop_ "asset" (usdcAddress e);
     Prop_ "payTo" (VStr (MERCHANT_ADDRESS e));
     Prop_ "maxAmountRequired" (VStr (number_toString (PAYMENT_AMOUNT e)));
     Prop_ "resource" (VStr (resourceUrl_of e request));
     Prop_ "description" (VStr "Access to premium video content");
     Prop_ "mimeType" (VStr "video/mp4");
     Prop_ "maxTimeoutSeconds" (VNum 86400);
     Prop_ "extra" (VObj (literal
       [Prop_ "name" (VStr "USD Coin");
        Prop_ "version" (VStr "2");
        Prop_ "primaryType" (VStr "TransferWithAuthorization");
        Prop_ "recipientAddress" (VStr (MERCHANT_ADDRESS e))]))]).

Definition GET (e : env) (w : world) (request : request) : M response :=
  match present (req_headers request !! "x-payment") with
  | None =>
      let pr := paymentRequirement e request in
      json (VObj (literal
              [Prop_ "x402Version" (VNum 1);
               Spread (get_prop_opt pr "x402Requirements");
               Prop_ "payment" pr]))
           402 []
  | Some xPaymentHeader =>
      Eff.try_catch
        (let* paymentPayload := Eff.lift (decodePayment w xPaymentHeader) in
         let* payloadNetwork := Eff.lift (get_prop paymentPayload "network") in
         if String.eqb (MERCHANT_ADDRESS e) "" ||
            String.eqb (MERCHANT_ADDRESS e) "0x0000000000000000000000000000000000000000"
         then
           json (VObj (literal
                   [Prop_ "error" (VStr "Configuration error");
                    Prop_ "message" (VStr "MERCHANT_ADDRESS must be configured.")]))
                500 []
         else
           let requirements := paymentRequirements e request payloadNetwork in
           let facilitatorUrl := str_or (e !! "FACILITATOR_URL") "https://x402.org/facilitator" in
           let* payloadVersion := Eff.lift (get_prop paymentPayload "x402Version") in
           let* facilitatorResponse :=
             call_fetch w (facilitatorUrl +:+ "/settle")
               (VObj (literal
                  [Prop_ "x402Version" (or_else payloadVersion (VNum 1));
                   Prop_ "paymentPayload" paymentPayload;
                   Prop_ "paymentRequirements" requirements])) in
           let* facilitatorData := Eff.lift (fr_json facilitatorResponse) in
           let* success :=
             if negb (ok (fr_status facilitatorResponse)) then Eff.ret VUndef
             else Eff.lift (get_prop facilitatorData "success") in
           if negb (ok (fr_status facilitatorResponse)) || negb (truthy success) then
             let* errorReason := Eff.lift (get_prop facilitatorData "errorReason") in
             json (VObj (literal
                     [Prop_ "x402Version" (VNum 1);
                      Prop_ "error" (or_else errorReason (VStr "payment_settlement_failed"));
                      Prop_ "errorMessage"
                        (or_else errorReason
                           (VStr "Payment settlement failed. Please try again."));
                      Prop_ "accepts" (VArr [requirements])]))
                  402 []
           else serveVideo e w (NETWORK e))
        (fun error =>
           json (VObj (literal
                   [Prop_ "error" (VStr "Payment verification error");
                    Prop_ "message"
                      (VStr (str_or (Some (message error))
                               "Failed to verify payment. Please try again."));
                    Prop_ "hint"
                      (VStr "The facilitator service may be temporarily unavailable.")]))
                402 [])
  end.

Definition handle (e : env) (w : world) (request : request)
  : outcome response * list event :=
  run (GET e w request).

End RouteSettle.

(** ** The payment page: the client side of the exchange *)

Module Page.

Import Js.

(** [status], the state variable that drives the page. *)
Inductive phase : Type :=
| idle
| loading
| payment_required
| processing
| success
| error.

(** The state of the component ([useState]); [null] is [VNull]. *)
Record state := State {
  status : phase;
  paymentInfo : value;
  content : value;
  error_ : value;
  step : Z
}.

Definition initial : state := State idle VNull VNull VNull 0.

(** A chain object of [wagmi/chains]. *)
Record chain := Chain { id : Z; name : string }.

Definition base : chain := Chain 8453 "Base".
Definition baseSepolia : chain := Chain 84532 "Base Sepolia".

(** What [fetch] resolves to, as far as the page looks at it. *)
Record fetchResponse := FetchResponse {
  res_status : Z;
  res_content_type : option string;
  res_json : outcome value;
  res_blob : outcome (list Byte.byte)
}.

(** The arguments of [createPaymentHeader]; the wallet client is the one of
    the world. *)
Record headerArgs := HeaderArgs {
  x402Version : Z;
  requirements : value;
  facilitatorUrl : string
}.

(** The values of the wagmi hooks at the render that created the handler,
    and the functions the handlers call. *)
Record world := World {
  isConnected : bool;
  connectors : list string;
  chainId : option Z;
  walletClient : bool;
  connect : string -> outcome unit;
  switchChain : Z -> outcome unit;
  createPaymentHeader : headerArgs -> outcome string;
  fetch : string -> option string -> outcome fetchResponse;
  createObjectURL : list Byte.byte -> string;
  now_iso : string
}.

(** The external calls of one handler run, in program order; [Fetch]
    carries the [X-PAYMENT] header, if one is sent. *)
Inductive event : Type :=
| Connect (connector : string)
| SwitchChain (chainId : Z)
| CreatePaymentHeader (args : headerArgs)
| Fetch (url : string) (xPayment : option string).

Abbreviation M := (Eff.t (state * list event)).

Definition emit (ev : event) : M unit :=
  Eff.modify (fun s => (fst s, snd s ++ [ev])).

Definition update (f : state -> state) : M unit :=
  Eff.modify (fun s => (f (fst s), snd s)).

Definition setStatus (p : phase) : M unit :=
  update (fun s => State p (paymentInfo s) (content s) (error_ s) (step s)).
Definition setPaymentInfo (f : value -> value) : M unit :=
  update (fun s => State (status s) (f (paymentInfo s)) (content s) (error_ s) (step s)).
Definition setContent (v : value) : M unit :=
  update (fun s => State (status s) (paymentInfo s) v (error_ s) (step s)).
Definition setError (v : value) : M unit :=
  update (fun s => State (status s) (paymentInfo s) (content s) v (step s)).
Definition setStep (n : Z) : M unit :=
  update (fun s => State (status s) (paymentInfo s) (content s) (error_ s) n).

Definition call_fetch (w : world) (url : string) (xPayment : option string)
  : M fetchResponse :=
  let* _ := emit (Fetch url xPayment) in Eff.lift (fetch w url xPayment).

Definition call_connect (w : world) (c : string) : M unit :=
  let* _ := emit (Connect c) in Eff.lift (connect w c).

Definition call_switchChain (w : world) (n : Z) : M unit :=
  let* _ := emit (SwitchChain n) in Eff.lift (switchChain w n).

Definition call_createPaymentHeader (w : world) (a : headerArgs) : M string :=
  let* _ := emit (CreatePaymentHeader a) in Eff.lift (createPaymentHeader w a).

Definition normalizeNetworkForSdk (network : value) : value :=
  if negb (truthy network) then network
  else
    let value := toLowerCase (to_string network) in
    if String.eqb value "base" || String.eqb value "base-sepolia" then VStr value
    else if includes "8453" value then VStr "base"
    else if includes "84532" value then VStr "base-sepolia"
    else VStr value.

(** [handleAccessContent]: the first request, without a proof. *)
Definition handleAccessContent (w : world) : M unit :=
  let* _ := setStatus loading in
  let* _ := setError VNull in
  let* _ := setStep 1 in
  Eff.try_catch
    (let* response := call_fetch w "/api/premium" None in
     if res_status response =? 402 then
       let* data := Eff.lift (res_json response) in
       let* dataPayment := Eff.lift (get_prop data "payment") in
       let payment := or_else dataPayment (VObj []) in
       if negb (truthy (get_prop_opt payment "x402Requirements")) then
         Eff.throw (Error "Invalid 402 response: x402Requirements missing. This endpoint requires proper x402 payment flow.")
       else
         let normalizedPayment :=
           VObj (literal
             [Spread payment;
              Prop_ "amount"
                (if truthy (get_prop_opt payment "amount")
                 then VStr (to_string (get_prop_opt payment "amount"))
                 else VStr "");
              Prop_ "token" (or_else (get_prop_opt payment "token") (VStr ""));
              Prop_ "recipient" (or_else (get_prop_opt payment "recipient") (VStr ""));
              Prop_ "network" (or_else (get_prop_opt payment "network") (VStr ""));
              Prop_ "scheme" (or_else (get_prop_opt payment "scheme") (VStr "exact"));
              Prop_ "x402Requirements" (get_prop_opt payment "x402Requirements")]) in
         let* _ := setPaymentInfo (fun _ => normalizedPayment) in
         let* _ := setStatus payment_required in
         setStep 2
     else if Http.ok (res_status response) then
       let* data := Eff.lift (res_json response) in
       let* _ := setContent data in
       let* _ := setStatus success in
       setStep 5
     else
       Eff.throw (Error ("Unexpected status: " +:+ pretty (res_status response))))
    (fun err =>
       let* _ := setError (VStr (message err)) in
       setStatus error).

(** [v.includes(needle)] on whatever value the page holds; [callee] is the
    text of the call in the message of the [TypeError]. *)
Definition includes_method (callee : string) (v : value) (needle : string)
  : outcome bool :=
  match v with
  | VStr s => Returns (includes needle s)
  | VArr items =>
      Returns (existsb (fun x => match x with
                                 | VStr t => String.eqb t needle
                                 | _ => false
                                 end) items)
  | _ => Throws (Error (callee +:+ " is not a function"))
  end.

Definition is_str (v : value) (s : string) : bool :=
  match v with
  | VStr t => String.eqb t s
  | _ => false
  end.

(** The updater passed to [setPaymentInfo] when the retry is answered 402. *)
Definition refreshRequirements (data : value) (prev : value) : value :=
  match get_prop_opt data "accepts" with
  | VArr (updatedRequirements :: _) =>
      if negb (truthy prev) then
        VObj (literal
          [Prop_ "amount" (VStr "");
           Prop_ "token" (VStr "");
           Prop_ "recipient" (VStr "");
           Prop_ "network" (VStr "");
           Prop_ "networkName" (VStr "");
           Prop_ "description" (VStr "");
           Prop_ "x402Requirements" updatedRequirements])
      else
        VObj (literal [Spread prev; Prop_ "x402Requirements" updatedRequirements])
  | _ => prev
  end.

(** The branch of [handleProcessPayment] that reads the answer to the retry. *)
Definition readRetryResponse (w : world) (response : fetchResponse) : M unit :=
  if Http.ok (res_status response) then
    let contentType := res_content_type response in
    if match contentType with
       | Some ct => negb (String.eqb ct "") && includes "video/mp4" ct
       | None => false
       end
    then
      let* videoBlob := Eff.lift (res_blob response) in
      let videoUrl := createObjectURL w videoBlob in
      let* _ := setContent (VObj (literal
                  [Prop_ "access" (VStr "granted");
                   Prop_ "videoUrl" (VStr videoUrl);
                   Prop_ "contentType" (VStr "video");
                   Prop_ "message" (VStr "Payment verified! Video access granted.");
                   Prop_ "timestamp" (VStr (now_iso w))])) in
      let* _ := setStatus success in
      setStep 5
    else
      Eff.throw (Error ("Expected video response but received: " +:+
                        match contentType with
                        | Some ct => ct
                        | None => "null"
                        end))
  else if res_status response =? 402 then
    let* data := Eff.lift (res_json response) in
    let* dataError := Eff.lift (get_prop data "error") in
    let errorReason := or_else dataError (get_prop_opt data "errorReason") in
    let errorMessage :=
      or_else (get_prop_opt data "errorMessage")
        (or_else (get_prop_opt data "message") (VStr "Payment verification failed")) in
    let errorMessage :=
      if is_str errorReason "invalid_exact_evm_payload_signature"
      then VStr "Facilitator rejected the payment signature. Refresh the payment request and re-sign in your wallet."
      else errorMessage in
    let* _ := setError errorMessage in
    let* _ := setPaymentInfo (refreshRequirements data) in
    setStatus error
  else
    Eff.throw (Error ("Unexpected status: " +:+ pretty (res_status response))).

(** The steps of [handleProcessPayment] up to the payment header: wallet,
    chain, requirements, [createPaymentHeader].  [paymentInfo] is the value
    the handler closed over, the state at the render that created it. *)
Definition prepareProof (w : world) (paymentInfo : value) : M string :=
  let* _ :=
    if negb (isConnected w) then
      match connectors w with
      | connector :: _ => call_connect w connector
      | [] => Eff.throw (Error "No wallet connectors available. Please install MetaMask or another wallet.")
      end
    else Eff.ret tt in
  let* infoNetwork := Eff.lift (get_prop paymentInfo "network") in
  let networkString := or_else infoNetwork (VStr "base:84532") in
  let* isSepolia :=
    if is_str networkString "base:84532" then Eff.ret true
    else
      let* inc := Eff.lift (includes_method "networkString.includes" networkString "84532") in
      Eff.ret (inc || is_str networkString "base-sepolia") in
  let targetNetwork := if isSepolia then baseSepolia else base in
  let* _ :=
    if negb (bool_decide (chainId w = Some (id targetNetwork))) then
      let* _ := setStatus processing in
      let* _ := setError VNull in
      Eff.try_catch
        (call_switchChain w (id targetNetwork))
        (fun switchError =>
           Eff.throw (Error ("Please switch to " +:+ name targetNetwork +:+
                             " network in your wallet and try again.")))
    else Eff.ret tt in
  if negb (walletClient w) then
    Eff.throw (Error "Wallet client not available. Please try connecting your wallet again.")
  else
    let* _ := setStep 4 in
    if negb (truthy (get_prop_opt paymentInfo "x402Requirements")) then
      Eff.throw (Error "Payment requirements not found in API response.")
    else
      let paymentRequirements :=
        literal [Spread (get_prop_opt paymentInfo "x402Requirements")] in
      if negb (truthy (obj_get "resource" paymentRequirements)) then
        Eff.throw (Error "Payment requirements missing resource field.")
      else
        let normalizedNetworkForCreation :=
          normalizeNetworkForSdk (obj_get "network" paymentRequirements) in
        let requirementsForCreation :=
          VObj (literal
            [Spread (VObj paymentRequirements);
             Prop_ "network" normalizedNetworkForCreation]) in
        call_createPaymentHeader w
          (HeaderArgs 1 requirementsForCreation "https://x402.org/facilitator").

(** [handleProcessPayment]: the proof is built and the request retried. *)
Definition handleProcessPayment (w : world) : M unit :=
  let* s0 := Eff.get in
  let* _ := setStatus processing in
  let* _ := setStep 3 in
  Eff.try_catch
    (let* paymentHeader := prepareProof w (paymentInfo (fst s0)) in
     let* response := call_fetch w "/api/premium" (Some paymentHeader) in
     readRetryResponse w response)
    (fun error =>
       let* _ := setError (VStr (str_or (Some (message error))
                                   "An error occurred during payment processing")) in
       setStatus Page.error).

Definition handleReset : M unit :=
  let* _ := setStatus idle in
  let* _ := setPaymentInfo (fun _ => VNull) in
  let* _ := setContent VNull in
  let* _ := setError VNull in
  setStep 0.

(** A handler run from state [s]: the state it leaves and its external calls. *)
Definition run (m : M unit) (s : state) : state * list event :=
  snd (m (s, [])).

End Page.

(** ** The fallback path of [app/page.js] *)

Module PageFallback.

Import Js.

(** [network?.includes(needle)] *)
Definition includes_opt (network : value) (needle : string) : outcome bool :=
  match network with
  | VUndef | VNull => Returns false
  | _ => Page.includes_method "paymentRequirements.network?.includes" network needle
  end.

(** The conversion applied to the copy [{ ...paymentInfo.x402Requirements }]
    before [createPaymentHeader]. *)
Definition convertNetwork (paymentRequirements : obj) : outcome obj :=
  let network := obj_get "network" paymentRequirements in
  match (if Page.is_str network "eip155:8453" then Returns true
         else includes_opt network "8453") with
  | Throws e => Throws e
  | Returns true => Returns (obj_set "network" (VStr "base") paymentRequirements)
  | Returns false =>
      match (if Page.is_str network "eip155:84532" then Returns true
             else includes_opt network "84532") with
      | Throws e => Throws e
      | Returns true => Returns (obj_set "network" (VStr "base-sepolia") paymentRequirements)
      | Returns false => Returns paymentRequirements
      end
  end.

End PageFallback.
(** ** The proxy to the facilitator's [x402/fetch] endpoint

    [POST] of the third module of [app/api/premium/route.js]: the request
    body names a URL, a method and a wallet address; the handler forwards
    them as query parameters, with the secret key in a header, and relays
    the answer. *)

Module Proxy.

Import Js Http.

Abbreviation env := (gmap string string).

(** *** [URLSearchParams] *)

Definition hex_digit (n : nat) : ascii :=
  match n with
  | 0 => "0" | 1 => "1" | 2 => "2" | 3 => "3" | 4 => "4" | 5 => "5" | 6 => "6"
  | 7 => "7" | 8 => "8" | 9 => "9" | 10 => "A" | 11 => "B" | 12 => "C"
  | 13 => "D" | 14 => "E" | _ => "F"
  end%nat%char.

(** The bytes the [application/x-www-form-urlencoded] serializer leaves as
    they are: the ASCII letters and digits and [* - . _]. *)
Definition form_unreserved (c : ascii) : bool :=
  let n := nat_of_ascii c in
  ((48 <=? n) && (n <=? 57) || (65 <=? n) && (n <=? 90) || (97 <=? n) && (n <=? 122) ||
   (n =? 42) || (n =? 45) || (n =? 46) || (n =? 95))%nat.

Definition form_encode_byte (c : ascii) : string :=
  if Ascii.eqb c " " then "+"
  else if form_unreserved c then String c ""
  else
    let n := nat_of_ascii c in
    String "%" (String (hex_digit (n / 16)) (String (hex_digit (n mod 16)) "")).

(** The serializer on a string, byte by byte (a string is its UTF-8
    encoding). *)
Fixpoint form_urlencode (s : string) : string :=
  match s with
  | EmptyString => EmptyString
  | String c t => form_encode_byte c +:+ form_urlencode t
  end.

(** [new URLSearchParams(record).toString()] *)
Definition URLSearchParams_toString (params : list (string * string)) : string :=
  join_with "&"
    (map (fun kv => form_urlencode (fst kv) +:+ "=" +:+ form_urlencode (snd kv)) params).

(** [ToString] on a value that came out of [JSON.parse]: a primitive has
    its string, an array is joined (its [null] entries as empty strings),
    an object is [[object Object]] unless it has a property [toString] of
    its own, which is not callable and leaves nothing to convert with. *)
Fixpoint ToString (v : value) : outcome string :=
  match v with
  | VObj props =>
      if existsb (fun kv => String.eqb (fst kv) "toString") props
      then Throws (Error "Cannot convert object to primitive value")
      else Returns "[object Object]"
  | VArr items =>
      match
        (fix strings (xs : list value) : outcome (list string) :=
           match xs with
           | [] => Returns []
           | x :: rest =>
               match (match x with
                      | VUndef | VNull => Returns ""
                      | _ => ToString x
                      end) with
               | Throws err => Throws err
               | Returns s =>
                   match strings rest with
                   | Throws err => Throws err
                   | Returns ss => Returns (s :: ss)
                   end
               end
           end) items
      with
      | Throws err => Throws err
      | Returns ss => Returns (join_with "," ss)
      end
  | _ => Returns (to_string v)
  end.

(** *** What the handler is given and what it calls *)

(** The request: [await request.json()]. *)
Record request := Request { req_json : outcome value }.

(** What [fetch] resolves to, as far as the handler looks at it. *)
Record upstream := Upstream { up_status : Z; up_text : outcome string }.

(** [fetch] (here always a POST without a body, with the given headers)
    and [JSON.parse]. *)
Record world := World {
  fetch : string -> list (string * string) -> outcome upstream;
  JSON_parse : string -> outcome value
}.

Inductive event : Type :=
| Post (url : string) (headers : list (string * string)).

Abbreviation M := (Eff.t (list event)).

Definition call_fetch (w : world) (url : string) (headers : list (string * string))
  : M upstream :=
  let* _ := Eff.modify (fun tr => tr ++ [Post url headers]) in
  Eff.lift (fetch w url headers).

Definition json (v : value) (st : Z) (hs : list (string * string)) : M response :=
  Eff.lift (NextResponse_json v st hs).

(** One property of the pattern [const { k, ... } = body]; the wording of
    the [TypeError] is the runtime's. *)
Definition destructure (body : value) (k : string) : outcome value :=
  match body with
  | VUndef | VNull =>
      Throws (Error ("Cannot destructure property '" +:+ k +:+ "' of 'body' as it is " +:+
                     to_string body +:+ "."))
  | _ => Returns (get_prop_opt body k)
  end.

Definition thirdwebApiUrl : string := "https://api.thirdweb.com/v1/payments/x402/fetch".

Definition POST (e : env) (w : world) (request : request) : M response :=
  Eff.try_catch
    (match present (e !! "THIRDWEB_SECRET_KEY") with
     | None =>
         json (VObj (literal
                 [Prop_ "error" (VStr "THIRDWEB_SECRET_KEY not configured");
                  Prop_ "message"
                    (VStr "Thirdweb secret key is required for x402/fetch API")]))
              500 []
     | Some thirdwebSecretKey =>
         let* body := Eff.lift (req_json request) in
         let* url := Eff.lift (destructure body "url") in
         let* method_ := Eff.lift (destructure body "method") in
         let method := match method_ with VUndef => VStr "GET" | _ => method_ end in
         let* from := Eff.lift (destructure body "from") in
         if negb (truthy url) || negb (truthy from) then
           json (VObj (literal
                   [Prop_ "error" (VStr "Missing required parameters");
                    Prop_ "message" (VStr "url and from (wallet address) are required")]))
                400 []
         else
           let* urlString := Eff.lift (ToString url) in
           let* methodString := Eff.lift (ToString method) in
           let* fromString := Eff.lift (ToString from) in
           let queryParams :=
             URLSearchParams_toString
               [("url", urlString); ("method", methodString); ("from", fromString)] in
           let* response :=
             call_fetch w (thirdwebApiUrl +:+ "?" +:+ queryParams)
               [("x-secret-key", thirdwebSecretKey);
                ("Content-Type", "application/json")] in
           let* responseText := Eff.lift (up_text response) in
           let responseData :=
             match JSON_parse w responseText with
             | Returns v => v
             | Throws _ => VObj (literal [Prop_ "message" (VStr responseText)])
             end in
           json responseData (up_status response) [("Content-Type", "application/json")]
     end)
    (fun error =>
       json (VObj (literal
               [Prop_ "error" (VStr "Proxy error");
                Prop_ "message"
                  (VStr (str_or (Some (message error))
                           "Failed to call Thirdweb x402/fetch API"))]))
            500 []).

(** One request, from an empty trace. *)
Definition handle (e : env) (w : world) (request : request)
  : outcome response * list event :=
  POST e w request [].

End Proxy.
(** ** The first variant of the resource guard

    [GET] of the first module of [app/api/premium/route.js]: the challenge
    of the handler in [app/layout.js] under a different envelope, and a
    settlement through [settlePayment] with the secret key alone. *)

Module RouteV1.

Import Js Http.

Abbreviation env := (gmap string string).

Definition MERCHANT_ADDRESS := Route.MERCHANT_ADDRESS.
Definition NETWORK := Route.NETWORK.
Definition USDC_ADDRESSES := Route.USDC_ADDRESSES.
Definition PAYMENT_AMOUNT := Route.PAYMENT_AMOUNT.

(** *** What the handler calls *)

(** The facilitator built from [createThirdwebClient] and [facilitator];
    both only package their arguments. *)
Record facilitator := Facilitator {
  secretKey : string;
  serverWalletAddress : string;
  waitUntil : string
}.

Record routeConfig := RouteConfig {
  rc_description : string;
  rc_mimeType : string;
  rc_outputSchema : value
}.

(** The argument of [settlePayment]. *)
Record settleArgs := SettleArgs {
  resourceUrl : string;
  method : string;
  paymentData : string;
  payTo : string;
  network : Server.chain;
  price : string;
  route : routeConfig;
  via : facilitator
}.

(** [settlePayment] with these arguments, and the file system and [path]
    module of the shared world. *)
Record world := World {
  settlePayment : settleArgs -> outcome Server.settleResult;
  files : Server.world
}.

(** The external calls of one request, in program order. *)
Inductive event : Type :=
| Settle (args : settleArgs)
| File (access : Server.event).

Abbreviation M := (Eff.t (list event)).

Definition call_settlePayment (w : world) (a : settleArgs) : M Server.settleResult :=
  let* _ := Eff.modify (fun tr => tr ++ [Settle a]) in
  Eff.lift (settlePayment w a).

Definition json (v : value) (st : Z) (hs : list (string * string)) : M response :=
  Eff.lift (NextResponse_json v st hs).

(** A step of the shared code, its file accesses recorded in this trace. *)
Definition shared {A : Type} (m : Server.M A) : M A :=
  fun tr => (fst (m []), tr ++ map File (snd (m []))).

(** *** The handler *)

Definition isMainnet (e : env) : bool :=
  String.eqb (NETWORK e) "base" || String.eqb (NETWORK e) "base:8453".

Definition usdcAddress (e : env) : value :=
  Route.str_val (USDC_ADDRESSES !! (if isMainnet e then "base" else "base-sepolia")).

(** The resource URL, computed the same way in both branches of [GET]. *)
Definition resourceUrl_of (e : env) (request : request) : string :=
  strip_trailing_slash
    match req_url request with
    | Some requestUrlObj => origin requestUrlObj +:+ pathname requestUrlObj
    | None => str_or (e !! "NEXT_PUBLIC_APP_URL") "http://localhost:3000" +:+ "/api/premium"
    end.

(** The object sent with the 402 challenge. *)
Definition paymentRequirement (e : env) (request : request) : value :=
  let networkChainId := if isMainnet e then "base:8453" else "base:84532" in
  let networkName := if isMainnet e then "Base" else "Base Sepolia" in
  let networkNameForX402 := if isMainnet e then "eip155:8453" else "eip155:84532" in
  VObj (literal
    [Prop_ "scheme" (VStr "exact");
     Prop_ "network" (VStr networkChainId);
     Prop_ "token" (usdcAddress e);
     Prop_ "recipient" (VStr (MERCHANT_ADDRESS e));
     Prop_ "amount" (VStr (number_toString (PAYMENT_AMOUNT e)));
     Prop_ "displayAmount" (VStr (toFixed_micro (PAYMENT_AMOUNT e) 6 +:+ " USDC"));
     Prop_ "networkName" (VStr networkName);
     Prop_ "description" (VStr "Access to premium video content");
     Prop_ "x402Requirements" (VObj (literal
       [Prop_ "scheme" (VStr "exact");
        Prop_ "network" (VStr networkNameForX402);
        Prop_ "maxAmountRequired" (VStr (number_toString (PAYMENT_AMOUNT e)));
        Prop_ "resource" (VStr (resourceUrl_of e request));
        Prop_ "description" (VStr "Access to premium video content");
        Prop_ "mimeType" (VStr "video/mp4");
        Prop_ "payTo" (VStr (MERCHANT_ADDRESS e));
        Prop_ "maxTimeoutSeconds" (VNum 86400);
        Prop_ "asset" (usdcAddress e)]))]).

Definition challenge (e : env) (request : request) : value :=
  VObj (literal
    [Prop_ "message" (VStr "Payment required to access this resource.");
     Prop_ "payment" (paymentRequirement e request);
     Prop_ "instructions" (VObj (literal
       [Prop_ "step1" (VStr "Connect your wallet to Base Sepolia network");
        Prop_ "step2" (VStr "Ensure you have USDC test tokens");
        Prop_ "step3" (VStr "Approve and send payment transaction");
        Prop_ "step4" (VStr "Get payment proof from facilitator");
        Prop_ "step5" (VStr "Retry request with X-PAYMENT header")]))]).

(** The argument object of the [settlePayment] call, with the facilitator,
    the chain and the price string computed just before it. *)
Definition settlement (e : env) (request : request)
    (xPaymentHeader thirdwebSecretKey : string) : settleArgs :=
  let thirdwebFacilitator :=
    Facilitator thirdwebSecretKey (MERCHANT_ADDRESS e) "confirmed" in
  let thirdwebChain := if isMainnet e then Server.base else Server.baseSepolia in
  let priceString := "$" +:+ toFixed_micro (PAYMENT_AMOUNT e) 2 in
  {| resourceUrl := resourceUrl_of e request;
     method := "GET";
     paymentData := xPaymentHeader;
     payTo := MERCHANT_ADDRESS e;
     network := thirdwebChain;
     price := priceString;
     route :=
       RouteConfig "Access to premium video content" "video/mp4"
         (VObj (literal [Prop_ "contentType" (VStr "video");
                         Prop_ "access" (VStr "granted")]));
     via := thirdwebFacilitator |}.

Definition GET (e : env) (w : world) (request : request) : M response :=
  match present (req_headers request !! "x-payment") with
  | None => json (challenge e request) 402 []
  | Some xPaymentHeader =>
      Eff.try_catch
        (match present (e !! "THIRDWEB_SECRET_KEY") with
         | None =>
             json (VObj (literal
                     [Prop_ "error" (VStr "Facilitator configuration error");
                      Prop_ "message"
                        (VStr "Thirdweb facilitator requires THIRDWEB_SECRET_KEY to be set.")]))
                  500 []
         | Some thirdwebSecretKey =>
             if String.eqb (MERCHANT_ADDRESS e) "" ||
                String.eqb (MERCHANT_ADDRESS e) "0x0000000000000000000000000000000000000000"
             then
               json (VObj (literal
                       [Prop_ "error" (VStr "Facilitator configuration error");
                        Prop_ "message"
                          (VStr "MERCHANT_ADDRESS (server wallet address) must be set for Thirdweb facilitator.")]))
                    500 []
             else
               let* settled :=
                 Eff.try_catch
                   (let* settlementResult :=
                      call_settlePayment w
                        (settlement e request xPaymentHeader thirdwebSecretKey) in
                    Eff.ret (inl settlementResult))
                   (fun settleError =>
                      let* refused :=
                        json (VObj (literal
                                [Prop_ "error" (VStr "Payment settlement error");
                                 Prop_ "message"
                                   (VStr (str_or (Some (message settleError))
                                            "Failed to settle payment with Thirdweb facilitator."));
                                 Prop_ "hint"
                                   (VStr "The payment may be invalid or the facilitator service may be unavailable.")]))
                             402 [] in
                      Eff.ret (inr refused)) in
               match settled with
               | inr refused => Eff.ret refused
               | inl settlementResult =>
                   if negb (Server.sr_status settlementResult =? 200) then
                     json (or_else (Server.responseBody settlementResult)
                             (VObj (literal
                                [Prop_ "error" (VStr "Payment verification failed");
                                 Prop_ "message"
                                   (VStr "The payment proof is invalid or does not match the requirements.")])))
                          (Server.sr_status settlementResult)
                          (default [] (Server.responseHeaders settlementResult))
                   else
                     shared (Server.serveVideo e (files w) (NETWORK e))
               end
         end)
        (fun error =>
           json (VObj (literal
                   [Prop_ "error" (VStr "Payment verification error");
                    Prop_ "message"
                      (VStr (str_or (Some (message error))
                               "Failed to verify payment. Please try again."));
                    Prop_ "hint"
                      (VStr "The facilitator service may be temporarily unavailable.")]))
                402 [])
  end.

(** One request, from an empty trace. *)
Definition handle (e : env) (w : world) (request : request)
  : outcome response * list event :=
  GET e w request [].

End RouteV1.
(** ** The payment page of [app/page.js]

    [handleProcessPayment] in the variant that first asks the proxy (and
    through it the facilitator's [x402/fetch] endpoint) to pay, and falls
    back to [createPaymentHeader] when that fails.  [handleAccessContent]
    and [handleReset] are those of [Page]. *)

Module PageJs.

Import Js.

(** The hooks and functions of [Page.world], the wallet address of
    [useAccount] ([undefined] without a wallet), [window.location.origin],
    and the POST to [/api/x402-fetch] with the given JSON body. *)
Record world := World {
  wallet : Page.world;
  address : option string;
  origin : string;
  postProxy : value -> outcome Page.fetchResponse
}.

(** The external calls of one handler run, in program order. *)
Inductive event : Type :=
| Base (ev : Page.event)
| PostProxy (body : value).

Abbreviation M := (Eff.t (Page.state * list event)).

(** A step written for [Page], its calls recorded in this trace. *)
Definition base {A : Type} (m : Page.M A) : M A :=
  fun st =>
    let r := m (fst st, []) in
    (fst r, (fst (snd r), snd st ++ map Base (snd (snd r)))).

Definition call_postProxy (w : world) (body : value) : M Page.fetchResponse :=
  let* _ := Eff.modify (fun st => (fst st, snd st ++ [PostProxy body])) in
  Eff.lift (postProxy w body).

(** [v.startsWith(p)] on whatever value the page holds. *)
Definition startsWith_method (callee : string) (v : value) (p : string) : outcome bool :=
  match v with
  | VStr s => Returns (startsWith p s)
  | _ => Throws (Error (callee +:+ " is not a function"))
  end.

(** [acc += text], where [acc] is a value and [text] a string. *)
Definition append_text (acc : value) (text : string) : outcome value :=
  match Proxy.ToString acc with
  | Returns s => Returns (VStr (s +:+ text))
  | Throws err => Throws err
  end.

(** The line feed of the template literals. *)
Definition nl : string := String (ascii_of_nat 10) "".

(** [JSON.stringify({ url, method: 'GET', from: address })]: a property
    that is [undefined] is left out. *)
Definition proxyBody (fullResourceUrl : string) (address : option string) : value :=
  VObj ([("url", VStr fullResourceUrl); ("method", VStr "GET")] ++
        match address with
        | Some a => [("from", VStr a)]
        | None => []
        end).

(** The content shown for a video. *)
Definition videoContent (w : world) (videoBlob : list Byte.byte)
    (extra : list member) : value :=
  VObj (literal
    ([Prop_ "access" (VStr "granted");
      Prop_ "videoUrl" (VStr (Page.createObjectURL (wallet w) videoBlob));
      Prop_ "contentType" (VStr "video");
      Prop_ "message" (VStr "Payment verified! Video access granted.")] ++
     extra ++
     [Prop_ "timestamp" (VStr (Page.now_iso (wallet w)))])).

(** The branch of the first [try] block that reads a 2xx answer of the
    proxy; the result tells whether the video was shown (the [return] after
    it) or the code fell through to the plain confirmation. *)
Definition showPurchasedVideo (w : world) (purchaseData : value) : M bool :=
  let* purchaseDetails := Eff.lift (get_prop purchaseData "purchaseDetails") in
  if truthy (or_else purchaseDetails (get_prop_opt purchaseData "data")) then
    let paymentHeader :=
      or_else (get_prop_opt purchaseData "paymentHeader")
              (get_prop_opt purchaseData "xPayment") in
    if truthy paymentHeader then
      let* headerValue := Eff.lift (Proxy.ToString paymentHeader) in
      let* videoResponse :=
        base (Page.call_fetch (wallet w) "/api/premium" (Some headerValue)) in
      if Http.ok (Page.res_status videoResponse) then
        if match Page.res_content_type videoResponse with
           | Some ct => negb (String.eqb ct "") && includes "video/mp4" ct
           | None => false
           end
        then
          let* videoBlob := Eff.lift (Page.res_blob videoResponse) in
          let* _ :=
            base (Page.setContent
                    (videoContent w videoBlob
                       [Prop_ "transactionId"
                          (or_else (get_prop_opt purchaseData "transactionId")
                             (get_prop_opt (get_prop_opt purchaseData "purchaseDetails")
                                "transactionId"))])) in
          let* _ := base (Page.setStatus Page.success) in
          let* _ := base (Page.setStep 5) in
          Eff.ret true
        else Eff.ret false
      else Eff.ret false
    else Eff.ret false
  else Eff.ret false.

(** The first [try] block: wallet, chain, and the purchase through the
    proxy.  [paymentInfo] is the value the handler closed over. *)
Definition payThroughProxy (w : world) (paymentInfo : value) : M unit :=
  let* _ :=
    if negb (Page.isConnected (wallet w)) then
      match Page.connectors (wallet w) with
      | connector :: _ => base (Page.call_connect (wallet w) connector)
      | [] => Eff.throw (Error "No wallet connectors available. Please install MetaMask or another wallet.")
      end
    else Eff.ret tt in
  let* infoNetwork := Eff.lift (get_prop paymentInfo "network") in
  let networkString := or_else infoNetwork (VStr "base:84532") in
  let* isSepolia :=
    if Page.is_str networkString "base:84532" then Eff.ret true
    else
      let* inc := Eff.lift (Page.includes_method "networkString.includes" networkString "84532") in
      Eff.ret (inc || Page.is_str networkString "base-sepolia") in
  let targetNetwork := if isSepolia then Page.baseSepolia else Page.base in
  let* _ :=
    if negb (bool_decide (Page.chainId (wallet w) = Some (Page.id targetNetwork))) then
      let* _ := base (Page.setStatus Page.processing) in
      let* _ := base (Page.setError VNull) in
      Eff.try_catch
        (base (Page.call_switchChain (wallet w) (Page.id targetNetwork)))
        (fun switchError =>
           Eff.throw (Error ("Please switch to " +:+ Page.name targetNetwork +:+
                             " network in your wallet and try again.")))
    else Eff.ret tt in
  if negb (Page.walletClient (wallet w)) then
    Eff.throw (Error "Wallet client not available. Please try connecting your wallet again.")
  else
    let* _ := base (Page.setStep 4) in
    let resourceUrl :=
      or_else (get_prop_opt (get_prop_opt paymentInfo "x402Requirements") "resource")
              (VStr "/api/premium") in
    let* absolute := Eff.lift (startsWith_method "resourceUrl.startsWith" resourceUrl "http") in
    let fullResourceUrl :=
      if absolute then to_string resourceUrl else origin w +:+ to_string resourceUrl in
    let isLocalhost :=
      includes "localhost" fullResourceUrl || includes "127.0.0.1" fullResourceUrl in
    if isLocalhost then
      Eff.throw (Error "Localhost not supported by Thirdweb API - using fallback")
    else
      let* thirdwebProxyResponse :=
        call_postProxy w (proxyBody fullResourceUrl (address w)) in
      if Http.ok (Page.res_status thirdwebProxyResponse) then
        let* purchaseData := Eff.lift (Page.res_json thirdwebProxyResponse) in
        let* shown := showPurchasedVideo w purchaseData in
        if shown then Eff.ret tt
        else
          let* transactionId :=
            Eff.lift (Proxy.ToString (or_else (get_prop_opt purchaseData "transactionId")
                                        (VStr "N/A"))) in
          let* _ :=
            base (Page.setContent (VObj (literal
                    [Prop_ "access" (VStr "granted");
                     Prop_ "message"
                       (VStr ("Payment successful! Transaction ID: " +:+ transactionId));
                     Prop_ "transactionId" (get_prop_opt purchaseData "transactionId");
                     Prop_ "timestamp" (VStr (Page.now_iso (wallet w)))]))) in
          let* _ := base (Page.setStatus Page.success) in
          base (Page.setStep 5)
      else if Page.res_status thirdwebProxyResponse =? 402 then
        let* fundingData := Eff.lift (Page.res_json thirdwebProxyResponse) in
        let* fundingLink := Eff.lift (get_prop fundingData "fundingLink") in
        let link := or_else fundingLink (get_prop_opt fundingData "link") in
        let* _ :=
          if truthy link then
            let* linkText := Eff.lift (Proxy.ToString link) in
            base (Page.setError
                    (VStr ("Insufficient balance. Please fund your wallet: " +:+ linkText)))
          else
            base (Page.setError
                    (VStr "Payment required. Please ensure your wallet has sufficient USDC balance.")) in
        base (Page.setStatus Page.error)
      else
        let errorData :=
          match Page.res_json thirdwebProxyResponse with
          | Returns v => v
          | Throws _ => VObj []
          end in
        let* errorMessage := Eff.lift (get_prop errorData "message") in
        let* text :=
          Eff.lift (Proxy.ToString (or_else errorMessage (VStr "Thirdweb API error"))) in
        Eff.throw (Error text).

(** The message shown for a retry answered 402, built up from the body. *)
Definition verificationFailure (data : value) : outcome value :=
  match get_prop data "message" with
  | Throws err => Throws err
  | Returns dataMessage =>
      let errorMessage := Returns (or_else dataMessage (VStr "Payment verification failed")) in
      let add (acc : outcome value) (piece : outcome string) : outcome value :=
        match acc with
        | Throws err => Throws err
        | Returns v =>
            match piece with
            | Throws err => Throws err
            | Returns text => append_text v text
            end
        end in
      let line (label : string) (v : value) : outcome string :=
        match Proxy.ToString v with
        | Returns s => Returns (nl +:+ label +:+ s)
        | Throws err => Throws err
        end in
      let errorMessage :=
        if truthy (get_prop_opt data "invalidReason") then
          add errorMessage
            match Proxy.ToString (get_prop_opt data "invalidReason") with
            | Returns s => Returns (nl +:+ nl +:+ "Reason: " +:+ s)
            | Throws err => Throws err
            end
        else errorMessage in
      let errorMessage :=
        let serverDiagnostics := get_prop_opt data "serverDiagnostics" in
        if truthy serverDiagnostics then
          add (add (add (add errorMessage
                           (Returns (nl +:+ nl +:+ "Server Diagnostics:")))
                      (line "- Settlement attempted: "
                         (get_prop_opt serverDiagnostics "settlementAttempted")))
                 (line "- Was settled: " (get_prop_opt serverDiagnostics "wasSettled")))
            (line "- Facilitator: " (get_prop_opt serverDiagnostics "facilitatorUsed"))
        else errorMessage in
      let debug := get_prop_opt data "debug" in
      if truthy debug then
        add (add (add (add errorMessage (Returns (nl +:+ nl +:+ "Debug Info:")))
                    (line "- Payment network: " (get_prop_opt debug "paymentNetwork")))
               (line "- Expected network: " (get_prop_opt debug "requirementsNetwork")))
          (line "- Resource: " (get_prop_opt debug "expectedResource"))
      else errorMessage
  end.

(** The [try] block of the fallback: [createPaymentHeader] and the retry. *)
Definition payWithHeader (w : world) (paymentInfo : value) : M unit :=
  let* x402Requirements := Eff.lift (get_prop paymentInfo "x402Requirements") in
  if negb (truthy x402Requirements) then
    Eff.throw (Error "Payment requirements not found in API response.")
  else
    let* paymentRequirements :=
      Eff.lift (PageFallback.convertNetwork (literal [Spread x402Requirements])) in
    let* _ := base (Page.setStep 4) in
    if negb (truthy (obj_get "resource" paymentRequirements)) then
      Eff.throw (Error "Payment requirements missing resource field.")
    else
      let* paymentHeader :=
        base (Page.call_createPaymentHeader (wallet w)
                (Page.HeaderArgs 1 (VObj paymentRequirements)
                   "https://x402.org/facilitator")) in
      let* response :=
        base (Page.call_fetch (wallet w) "/api/premium" (Some paymentHeader)) in
      if Http.ok (Page.res_status response) then
        let contentType := Page.res_content_type response in
        if match contentType with
           | Some ct => negb (String.eqb ct "") && includes "video/mp4" ct
           | None => false
           end
        then
          let* videoBlob := Eff.lift (Page.res_blob response) in
          let* _ := base (Page.setContent (videoContent w videoBlob [])) in
          let* _ := base (Page.setStatus Page.success) in
          base (Page.setStep 5)
        else
          Eff.throw (Error ("Expected video response but received: " +:+
                            match contentType with
                            | Some ct => ct
                            | None => "null"
                            end))
      else if Page.res_status response =? 402 then
        let* data := Eff.lift (Page.res_json response) in
        let* errorMessage := Eff.lift (verificationFailure data) in
        let* _ := base (Page.setError errorMessage) in
        base (Page.setStatus Page.error)
      else
        Eff.throw (Error ("Unexpected status: " +:+ pretty (Page.res_status response))).

(** [handleProcessPayment]: the purchase through the proxy, and on any
    exception of it the fallback; when the fallback throws too, the message
    shown is the one of the first exception, if it has one. *)
Definition handleProcessPayment (w : world) : M unit :=
  let* s0 := Eff.get in
  let paymentInfo := Page.paymentInfo (fst s0) in
  let* _ := base (Page.setStatus Page.processing) in
  let* _ := base (Page.setStep 3) in
  Eff.try_catch
    (payThroughProxy w paymentInfo)
    (fun apiError =>
       Eff.try_catch
         (payWithHeader w paymentInfo)
         (fun fallbackError =>
            let* _ :=
              base (Page.setError
                      (VStr (str_or (Some (message apiError))
                               (str_or (Some (message fallbackError))
                                  "An error occurred during payment processing")))) in
            base (Page.setStatus Page.error))).

(** A handler run from state [s]: the state it leaves and its external calls. *)
Definition run (m : M unit) (s : Page.state) : Page.state * list event :=
  snd (m (s, [])).

End PageJs.

(** ** Concrete worlds and requests *)

Module Sample.

Import Js Http.

(** A POSIX file system without the video; the facilitator call times out. *)
Definition timeout_world : Server.world :=
  {| Server.settlePayment :=
       fun _ => Throws (Error "The operation was aborted due to timeout");
     Server.decodePayment := fun _ => Throws (Error "Invalid payment");
     Server.fetch := fun _ _ => Throws (Error "fetch failed");
     Server.existsSync := fun _ => false;
     Server.readFileSync := fun _ => Throws (Error "ENOENT: no such file or directory");
     Server.statSync_size := fun _ => Throws (Error "ENOENT: no such file or directory");
     Server.path_join := join_with "/";
     Server.path_isAbsolute := String.prefix "/";
     Server.cwd := "/srv/app" |}.

(** The same file system; the facilitator settles every proof. *)
Definition settled_world : Server.world :=
  {| Server.settlePayment := fun _ => Returns (Server.SettleResult 200 VUndef None);
     Server.decodePayment := Server.decodePayment timeout_world;
     Server.fetch := Server.fetch timeout_world;
     Server.existsSync := Server.existsSync timeout_world;
     Server.readFileSync := Server.readFileSync timeout_world;
     Server.statSync_size := Server.statSync_size timeout_world;
     Server.path_join := Server.path_join timeout_world;
     Server.path_isAbsolute := Server.path_isAbsolute timeout_world;
     Server.cwd := Server.cwd timeout_world |}.

(** The proof below, decoded: an authorization for Base Sepolia. *)
Definition decoded_proof : value :=
  VObj [("x402Version", VNum 1);
        ("scheme", VStr "exact");
        ("network", VStr "base-sepolia");
        ("payload", VObj [("signature", VStr "0x5e1f");
                          ("authorization", VObj [("value", VStr "100000")])])].

(** The video is on disk; [decodePayment] decodes, and the facilitator's
    [/settle] endpoint reports success. *)
Definition settle_endpoint_world : Server.world :=
  {| Server.settlePayment := Server.settlePayment timeout_world;
     Server.decodePayment := fun _ => Returns decoded_proof;
     Server.fetch :=
       fun _ _ => Returns (Server.FetchResponse 200
                             (Returns (VObj [("success", VBool true)])));
     Server.existsSync := fun _ => true;
     Server.readFileSync := fun _ => Returns [Byte.x00; Byte.x01];
     Server.statSync_size := fun _ => Returns 2;
     Server.path_join := join_with "/";
     Server.path_isAbsolute := String.prefix "/";
     Server.cwd := "/srv/app" |}.

Definition proof_header : string := "eyJ4NDAyVmVyc2lvbiI6MX0=".

Definition bare_request : request :=
  Request (Some (Url "https://paywall.example" "/api/premium/" "")) ∅.

Definition paid_request : request :=
  Request (Some (Url "https://paywall.example" "/api/premium" ""))
    {[ "x-payment" := proof_header ]}.

(** A mainnet configuration ([NEXT_PUBLIC_NETWORK] unset) with credentials. *)
Definition credentials : Server.env :=
  {[ "MERCHANT_ADDRESS" := "0x1111111111111111111111111111111111111111";
     "THIRDWEB_SECRET_KEY" := "sk_live";
     "THIRDWEB_VAULT_ACCESS_TOKEN" := "vt_live" ]}.


End Sample.

(** ** Concrete states and worlds of the page *)

Module PageSample.

Import Js Page.

(** What the page holds after a challenge for Base Sepolia. *)
Definition held_info : value :=
  VObj [("scheme", VStr "exact");
        ("network", VStr "base:84532");
        ("amount", VStr "100000");
        ("x402Requirements",
         VObj [("scheme", VStr "exact");
               ("network", VStr "eip155:84532");
               ("maxAmountRequired", VStr "100000");
               ("resource", VStr "https://paywall.example/api/premium")])].

Definition refreshed : value :=
  VObj [("scheme", VStr "exact");
        ("network", VStr "base-sepolia");
        ("maxAmountRequired", VStr "100000");
        ("resource", VStr "https://paywall.example/api/premium")].

Definition rejected : fetchResponse :=
  {| res_status := 402;
     res_content_type := Some "application/json";
     res_json := Returns (VObj [("error", VStr "Payment verification error");
                                ("accepts", VArr [refreshed])]);
     res_blob := Returns [] |}.

Definition unavailable : fetchResponse :=
  {| res_status := 503;
     res_content_type := None;
     res_json := Throws (Error "Unexpected end of JSON input");
     res_blob := Returns [] |}.

(** A connected wallet on Base Sepolia; every request gets [answer]. *)
Definition page_world (answer : fetchResponse) : world :=
  {| isConnected := true;
     connectors := ["metaMask"];
     chainId := Some 84532;
     walletClient := true;
     connect := fun _ => Returns tt;
     switchChain := fun _ => Returns tt;
     createPaymentHeader := fun _ => Returns Sample.proof_header;
     fetch := fun _ _ => Returns answer;
     createObjectURL := fun _ => "blob:https://paywall.example/1";
     now_iso := "2025-01-01T00:00:00.000Z" |}.

Definition awaiting_payment : state :=
  State payment_required held_info VNull VNull 2.

End PageSample.

(** ** Vocabulary for the properties of the page *)

Module PageSpec.

Import Js Page.

Definition is_fetch (ev : event) : bool :=
  match ev with
  | Fetch _ _ => true
  | _ => false
  end.

(** The number of requests in a trace. *)
Definition fetches (tr : list event) : nat := length (filter (fun ev => is_fetch ev = true) tr).

(** A step of a handler that sends no request and leaves the held payment
    information alone: it may call the wallet and change the rest of the
    state. *)
Definition quiet {A : Type} (m : M A) : Prop :=
  forall (s : state) (tr : list event),
    paymentInfo (fst (snd (m (s, tr)))) = paymentInfo s /\
    exists added,
      snd (snd (m (s, tr))) = tr ++ added /\ fetches added = 0%nat.

(** An object has each of its properties once. *)
Definition distinct_keys (o : obj) : Prop := NoDup (o.*1).

(** The payment information a page can hold: [null], or an object. *)
Definition well_formed (info : value) : Prop :=
  info = VNull \/ exists o, info = VObj o /\ distinct_keys o.

End PageSpec.

(** ** Vocabulary for the properties of the handlers *)

Module ServerSpec.

Import Js Http Server.

Definition is_settle (ev : event) : bool :=
  match ev with
  | Settle _ => true
  | _ => false
  end.

Definition is_post (ev : event) : bool :=
  match ev with
  | Post _ _ => true
  | _ => false
  end.

Definition is_file_access (ev : event) : bool :=
  match ev with
  | ExistsSync _ | ReadFileSync _ | StatSync _ => true
  | _ => false
  end.

(** The number of events of a kind in a trace. *)
Definition count (kind : event -> bool) (tr : list event) : nat :=
  length (filter (fun ev => kind ev = true) tr).

(** The headers of a served video. *)
Definition video_headers (size : Z) (network : string) : list (string * string) :=
  [("Content-Type", "video/mp4");
   ("Content-Length", pretty size);
   ("Accept-Ranges", "bytes");
   ("Cache-Control", "private, no-cache");
   ("X-Payment-Verified", "true");
   ("X-Payment-Network", network)].

(** A status that [NextResponse.json] accepts. *)
Definition json_status (st : Z) : bool :=
  (200 <=? st) && (st <=? 599) &&
  negb ((st =? 204) || (st =? 205) || (st =? 304)).

(** A response as the page's [fetch] sees it; a JSON body arrives as the
    value that was serialised. *)
Definition deliver (resp : response) : Page.fetchResponse :=
  match body resp with
  | JsonBody v =>
      {| Page.res_status := status resp;
         Page.res_content_type := Some "application/json";
         Page.res_json := Returns v;
         Page.res_blob := Throws (Error "not a video") |}
  | BytesBody bytes =>
      {| Page.res_status := status resp;
         Page.res_content_type :=
           snd <$> head (filter (fun h => fst h = "Content-Type") (headers resp));
         Page.res_json := Throws (Error "Unexpected token in JSON");
         Page.res_blob := Returns bytes |}
  end.

End ServerSpec.

(** ** Vocabulary for the properties of [parseInt] *)

Module JsSpec.

Import Js.

(** What may follow a decimal number without becoming part of it: nothing,
    or a character that is neither a decimal digit nor the [x] of a
    hexadecimal prefix. *)
Definition ends_number (rest : string) : Prop :=
  match rest with
  | EmptyString => True
  | String c _ => digit_value 10 c = None /\ c ≠ "x"%char /\ c ≠ "X"%char
  end.

End JsSpec.

(** ** Vocabulary for the exchange between the page and the server *)

Module FlowSpec.

Import Js Page.

Definition is_signing (ev : event) : bool :=
  match ev with
  | CreatePaymentHeader _ => true
  | _ => false
  end.

(** A trace in which the wallet is neither asked to sign nor a request sent. *)
Definition wallet_setup (tr : list event) : bool :=
  forallb (fun ev => negb (PageSpec.is_fetch ev || is_signing ev)) tr.

(** The arguments [handleProcessPayment] hands to [createPaymentHeader] when
    it holds the payment information [info]: version 1, a copy of
    [info.x402Requirements] with the network tag normalised, and the
    facilitator of x402.org. *)
Definition creation_args (info : value) : headerArgs :=
  let copy := literal [Spread (get_prop_opt info "x402Requirements")] in
  HeaderArgs 1
    (VObj (literal [Spread (VObj copy);
                    Prop_ "network" (normalizeNetworkForSdk (obj_get "network" copy))]))
    "https://x402.org/facilitator".

(** The browser's [fetch] when the other end is the handler of [route.js]
    with environment [e] in world [sw], reached under the URL [u]. *)
Definition served_by (e : Server.env) (sw : Server.world) (u : Http.url)
  : string -> option string -> outcome fetchResponse :=
  fun _ xPayment =>
    let headers : gmap string string :=
      match xPayment with
      | Some h => {[ "x-payment" := h ]}
      | None => ∅
      end in
    match fst (Route.handle e sw (Http.Request (Some u) headers)) with
    | Returns resp => Returns (ServerSpec.deliver resp)
    | Throws err => Throws err
    end.

(** The same when the other end is the handler of [layout.js]. *)
Definition served_by_layout (e : Server.env) (sw : Server.world) (u : Http.url)
  : string -> option string -> outcome fetchResponse :=
  fun _ xPayment =>
    let headers : gmap string string :=
      match xPayment with
      | Some h => {[ "x-payment" := h ]}
      | None => ∅
      end in
    match fst (RouteSettle.handle e sw (Http.Request (Some u) headers)) with
    | Returns resp => Returns (ServerSpec.deliver resp)
    | Throws err => Throws err
    end.

End FlowSpec.

(** ** Vocabulary for the properties of the proxy *)

Module ProxySpec.

(** How often a character occurs in a string. *)
Fixpoint occurrences (c : ascii) (s : string) : nat :=
  match s with
  | EmptyString => 0
  | String d t => (if Ascii.eqb c d then 1 else 0) + occurrences c t
  end.

End ProxySpec.
(** ** More worlds: a paying customer, a declined payment *)

Module Scenario.

Import Js Http.

(** The video is on disk and the facilitator settles every proof. *)
Definition paid_world : Server.world :=
  {| Server.settlePayment := fun _ => Returns (Server.SettleResult 200 VUndef None);
     Server.decodePayment := fun _ => Returns Sample.decoded_proof;
     Server.fetch := Server.fetch Sample.settle_endpoint_world;
     Server.existsSync := fun _ => true;
     Server.readFileSync := fun _ => Returns [Byte.x00; Byte.x01];
     Server.statSync_size := fun _ => Returns 2;
     Server.path_join := join_with "/";
     Server.path_isAbsolute := String.prefix "/";
     Server.cwd := "/srv/app" |}.

(** The facilitator declines: [settlePayment] answers 402 with a body, and
    the [/settle] endpoint reports a failure. *)
Definition declined_world : Server.world :=
  {| Server.settlePayment :=
       fun _ => Returns (Server.SettleResult 402
                           (VObj [("error", VStr "insufficient_funds")]) None);
     Server.decodePayment := fun _ => Returns Sample.decoded_proof;
     Server.fetch :=
       fun _ _ => Returns (Server.FetchResponse 200
                             (Returns (VObj [("success", VBool false);
                                             ("errorReason", VStr "insufficient_funds")])));
     Server.existsSync := fun _ => true;
     Server.readFileSync := fun _ => Returns [Byte.x00; Byte.x01];
     Server.statSync_size := fun _ => Returns 2;
     Server.path_join := join_with "/";
     Server.path_isAbsolute := String.prefix "/";
     Server.cwd := "/srv/app" |}.

(** Just under half a cent, and an amount written with a decimal point. *)
Definition half_cent : Server.env := {[ "PAYMENT_AMOUNT" := "4999" ]}.
Definition decimal_amount : Server.env := {[ "PAYMENT_AMOUNT" := "0.5" ]}.

Definition premium : url := Url "https://paywall.example" "/api/premium" "".

(** A browser with a connected wallet on Base whose requests reach the
    handler of [route.js], configured as [Sample.credentials]. *)
Definition browser (sw : Server.world) : Page.world :=
  {| Page.isConnected := true;
     Page.connectors := ["metaMask"];
     Page.chainId := Some 8453;
     Page.walletClient := true;
     Page.connect := fun _ => Returns tt;
     Page.switchChain := fun _ => Returns tt;
     Page.createPaymentHeader := fun _ => Returns Sample.proof_header;
     Page.fetch := FlowSpec.served_by Sample.credentials sw premium;
     Page.createObjectURL := fun _ => "blob:https://paywall.example/1";
     Page.now_iso := "2025-01-01T00:00:00.000Z" |}.

(** The same browser with the wallet on Ethereum mainnet; the user refuses
    to switch. *)
Definition wrong_chain (sw : Server.world) : Page.world :=
  {| Page.isConnected := true;
     Page.connectors := ["metaMask"];
     Page.chainId := Some 1;
     Page.walletClient := true;
     Page.connect := fun _ => Returns tt;
     Page.switchChain := fun _ => Throws (Error "User rejected the request.");
     Page.createPaymentHeader := fun _ => Returns Sample.proof_header;
     Page.fetch := FlowSpec.served_by Sample.credentials sw premium;
     Page.createObjectURL := fun _ => "blob:https://paywall.example/1";
     Page.now_iso := "2025-01-01T00:00:00.000Z" |}.

(** The page after the challenge of that server. *)
Definition challenged : Page.state :=
  Page.State Page.payment_required
    (Route.pc_payment (Route.buildPaymentConfig Sample.credentials Sample.paid_request))
    VNull VNull 2.

(** The facilitator's gateway is down: every request to it is answered 502
    with a text that is not JSON. *)
Definition bad_gateway : Proxy.world :=
  {| Proxy.fetch := fun _ _ => Returns (Proxy.Upstream 502 (Returns "Bad Gateway"));
     Proxy.JSON_parse := fun _ => Throws (Error "Unexpected token B in JSON at position 0") |}.

(** A purchase of the premium resource, and one without a wallet address. *)
Definition purchase : Proxy.request :=
  Proxy.Request (Returns (VObj [("url", VStr "https://paywall.example/api/premium");
                                ("method", VStr "GET");
                                ("from", VStr "0x2222222222222222222222222222222222222222")])).

Definition anonymous_purchase : Proxy.request :=
  Proxy.Request (Returns (VObj [("url", VStr "https://paywall.example/api/premium");
                                ("method", VStr "GET")])).

(** The first variant of the guard, with a facilitator that settles and
    with one that times out. *)
Definition v1_paid : RouteV1.world :=
  {| RouteV1.settlePayment := fun _ => Returns (Server.SettleResult 200 VUndef None);
     RouteV1.files := paid_world |}.

Definition v1_timeout : RouteV1.world :=
  {| RouteV1.settlePayment :=
       fun _ => Throws (Error "The operation was aborted due to timeout");
     RouteV1.files := Sample.timeout_world |}.

(** A deployment on Base Sepolia. *)
Definition sepolia : Server.env :=
  {[ "NEXT_PUBLIC_NETWORK" := "base-sepolia";
     "MERCHANT_ADDRESS" := "0x1111111111111111111111111111111111111111";
     "THIRDWEB_SECRET_KEY" := "sk_live" ]}.

(** A browser with the wallet on Base Sepolia whose requests reach the
    handler of [layout.js] of that deployment. *)
Definition sepolia_browser : Page.world :=
  {| Page.isConnected := true;
     Page.connectors := ["metaMask"];
     Page.chainId := Some 84532;
     Page.walletClient := true;
     Page.connect := fun _ => Returns tt;
     Page.switchChain := fun _ => Returns tt;
     Page.createPaymentHeader := fun _ => Returns Sample.proof_header;
     Page.fetch := FlowSpec.served_by_layout sepolia Sample.settle_endpoint_world premium;
     Page.createObjectURL := fun _ => "blob:https://paywall.example/1";
     Page.now_iso := "2025-01-01T00:00:00.000Z" |}.

(** Development on [localhost]: the challenge held there, and a wallet
    whose user declines to sign. *)
Definition local_request : request :=
  Request (Some (Url "http://localhost:3000" "/api/premium" "")) ∅.

Definition local_challenged : Page.state :=
  Page.State Page.payment_required
    (Route.pc_payment (Route.buildPaymentConfig Sample.credentials local_request))
    VNull VNull 2.

Definition declining_wallet : Page.world :=
  {| Page.isConnected := true;
     Page.connectors := ["metaMask"];
     Page.chainId := Some 8453;
     Page.walletClient := true;
     Page.connect := fun _ => Returns tt;
     Page.switchChain := fun _ => Returns tt;
     Page.createPaymentHeader := fun _ => Throws (Error "User rejected the request.");
     Page.fetch := fun _ _ => Throws (Error "Failed to fetch");
     Page.createObjectURL := fun _ => "blob:http://localhost:3000/1";
     Page.now_iso := "2025-01-01T00:00:00.000Z" |}.

Definition local_page : PageJs.world :=
  {| PageJs.wallet := declining_wallet;
     PageJs.address := Some "0x2222222222222222222222222222222222222222";
     PageJs.origin := "http://localhost:3000";
     PageJs.postProxy := fun _ => Throws (Error "Failed to fetch") |}.

(** The page of [page.js] with the wallet on another chain and a user who
    refuses to switch, and with a proxy that answers with a receipt. *)
Definition stubborn_page : PageJs.world :=
  {| PageJs.wallet := wrong_chain paid_world;
     PageJs.address := Some "0x2222222222222222222222222222222222222222";
     PageJs.origin := "https://paywall.example";
     PageJs.postProxy := fun _ => Throws (Error "Failed to fetch") |}.

Definition receipt : Page.fetchResponse :=
  {| Page.res_status := 200;
     Page.res_content_type := Some "application/json";
     Page.res_json := Returns (VObj [("transactionId", VStr "0xabc")]);
     Page.res_blob := Throws (Error "not a video") |}.

Definition receipt_page : PageJs.world :=
  {| PageJs.wallet := browser paid_world;
     PageJs.address := Some "0x2222222222222222222222222222222222222222";
     PageJs.origin := "https://paywall.example";
     PageJs.postProxy := fun _ => Returns receipt |}.

End Scenario.

(** * Properties *)

(** ** Objects *)

Section ObjectFacts.

Import Js.

Lemma eqb_ne (a b : string) : a ≠ b -> String.eqb a b = false.
Proof. intros H. by apply String.eqb_neq. Qed.

Lemma obj_get_set_eq (k : string) (v : value) (o : obj) :
  obj_get k (obj_set k v o) = v.
Proof.
  induction o as [|[k' v'] o IH]; cbn.
  - by rewrite String.eqb_refl.
  - destruct (String.eqb_spec k k') as [->|Hne]; cbn.
    + by rewrite String.eqb_refl.
    + by rewrite (eqb_ne _ _ Hne).
Qed.

Lemma obj_get_set_ne (k k' : string) (v : value) (o : obj) :
  k ≠ k' -> obj_get k (obj_set k' v o) = obj_get k o.
Proof.
  intros Hne. induction o as [|[k1 v1] o IH]; cbn.
  - by rewrite (eqb_ne _ _ Hne).
  - destruct (String.eqb_spec k' k1) as [->|Hne1]; cbn.
    + by rewrite (eqb_ne _ _ Hne).
    + by rewrite IH.
Qed.

(** Assigning to a property that the object does not have appends it. *)
Lemma obj_set_fresh (k : string) (v : value) (o : obj) :
  k ∉ o.*1 -> obj_set k v o = o ++ [(k, v)].
Proof.
  induction o as [|[k' v'] o IH]; cbn; [done|].
  intros Hk. apply not_elem_of_cons in Hk as [Hne Hk].
  by rewrite (eqb_ne _ _ Hne), IH.
Qed.

(** Copying the properties of an object whose keys are distinct, one by
    one, rebuilds that object. *)
Lemma obj_assign_distinct (acc o : obj) :
  NoDup ((acc ++ o).*1) -> obj_assign acc o = acc ++ o.
Proof.
  revert acc. induction o as [|[k v] o IH]; intros acc Hnd; cbn.
  - by rewrite app_nil_r.
  - unfold obj_assign in *. cbn.
    rewrite obj_set_fresh.
    + rewrite IH; rewrite <- app_assoc; [done|]. exact Hnd.
    + rewrite fmap_app in Hnd. apply NoDup_app in Hnd as (_ & Hdisj & _).
      intros Hin. apply (Hdisj k Hin). cbn. apply elem_of_cons. by left.
Qed.

Lemma spread_distinct (o : obj) :
  NoDup (o.*1) -> literal [Spread (VObj o)] = o.
Proof. intros Hnd. cbn. by apply (obj_assign_distinct [] o). Qed.

End ObjectFacts.

(** ** The resource guard *)

Section RouteFacts.

Import Js Http Server Route.

(** Evaluates object literals and property reads on literal keys. *)
Ltac obj_compute :=
  cbn [literal fold_left obj_set obj_assign own_props fst snd obj_get
       get_prop_opt String.eqb Ascii.eqb Bool.eqb andb].

Lemma present_Some (h : option string) (s : string) :
  present h = Some s -> h = Some s /\ s ≠ "".
Proof.
  destruct h as [x|]; cbn; [|discriminate].
  destruct (String.eqb_spec x ""); [discriminate|]. by intros [= ->].
Qed.

(** The requirements object, property by property. *)
Lemma requirements_props (e : env) (request : request) :
  let nc := resolveNetworkConfig (NETWORK e) in
  let md := default (Metadata "USD Coin" "2") (USDC_METADATA !! x402Network nc) in
  pc_x402Requirements (buildPaymentConfig e request) =
  VObj [("scheme", VStr "exact");
        ("network", VStr (x402Network nc));
        ("maxAmountRequired", VStr (number_toString (PAYMENT_AMOUNT e)));
        ("resource", VStr (buildResourceUrl e request));
        ("description", VStr PAYMENT_DESCRIPTION);
        ("mimeType", VStr PAYMENT_MIME_TYPE);
        ("payTo", VStr (MERCHANT_ADDRESS e));
        ("maxTimeoutSeconds", VNum PAYMENT_TIMEOUT_SECONDS);
        ("asset", str_val (usdcAddress nc));
        ("extra", VObj [("name", VStr (md_name md));
                        ("version", VStr (md_version md));
                        ("primaryType", VStr "TransferWithAuthorization");
                        ("recipientAddress", VStr (MERCHANT_ADDRESS e))])].
Proof. reflexivity. Qed.

(** Whatever the configured network, the token address is one of the two
    in the table. *)
Lemma asset_defined (e : env) :
  exists a, usdcAddress (resolveNetworkConfig (NETWORK e)) = Some a.
Proof.
  unfold resolveNetworkConfig. cbn [usdcAddress].
  destruct (bool_decide _); eexists; reflexivity.
Qed.

(** The requirements depend on the request through its URL only. *)
Lemma buildPaymentConfig_url (e : env) (r1 r2 : request) :
  req_url r1 = req_url r2 -> buildPaymentConfig e r1 = buildPaymentConfig e r2.
Proof. intros H. unfold buildPaymentConfig, buildResourceUrl. by rewrite H. Qed.

(** C1. A GET without an [X-PAYMENT] header is answered 402; the body has
    [x402Version = 1], every property of the requirements at its root (all
    ten of them defined), and [accepts = [requirements]]; the [resource] of
    the requirements is the origin of the request URL followed by its
    pathname without the trailing slash; no external call is made (the
    trace is empty, so nothing is settled); and any other such request for
    the same URL gets the same answer. *)
Theorem challenge_without_proof (e : env) (w : world) (request : request) (u : url) :
  req_url request = Some u ->
  req_headers request !! "x-payment" = None ->
  let requirements := pc_x402Requirements (buildPaymentConfig e request) in
  exists root,
    handle e w request = (Returns (Response 402 [] (JsonBody (VObj root))), []) /\
    obj_get "x402Version" root = VNum 1 /\
    (forall k, k ∉ ["x402Version"; "accepts"; "payment"] ->
               obj_get k root = get_prop_opt requirements k) /\
    (forall k, k ∈ ["scheme"; "network"; "maxAmountRequired"; "resource";
                    "description"; "mimeType"; "payTo"; "maxTimeoutSeconds";
                    "asset"; "extra"] -> obj_get k root ≠ VUndef) /\
    obj_get "accepts" root = VArr [requirements] /\
    get_prop_opt requirements "resource" =
      VStr (origin u +:+ strip_trailing_slash (pathname u)) /\
    (forall w' request',
        req_url request' = Some u ->
        req_headers request' !! "x-payment" = None ->
        handle e w' request' = handle e w request).
Proof.
  intros Hurl Hhdr requirements.
  assert (Hrun : forall w1 r1,
             req_url r1 = Some u -> req_headers r1 !! "x-payment" = None ->
             handle e w1 r1 =
               (Returns (Response 402 []
                  (JsonBody (challenge (buildPaymentConfig e request)))), [])).
  { intros w1 r1 H1 H2. unfold handle, run, GET. rewrite H2. cbn [present].
    rewrite (buildPaymentConfig_url e r1 request) by congruence. reflexivity. }
  destruct (asset_defined e) as [a Ha].
  pose proof (requirements_props e request) as Hreq.
  cbv zeta in Hreq. fold requirements in Hreq.
  rewrite Ha in Hreq. cbn [str_val] in Hreq.
  eexists. split; [|split; [|split; [|split; [|split; [|split]]]]].
  - rewrite (Hrun w request Hurl Hhdr). unfold challenge. fold requirements.
    rewrite Hreq. reflexivity.
  - reflexivity.
  - intros k Hk. rewrite Hreq.
    apply not_elem_of_cons in Hk as [H1 Hk].
    apply not_elem_of_cons in Hk as [H2 Hk].
    apply not_elem_of_cons in Hk as [H3 _].
    obj_compute.
    by rewrite (eqb_ne _ _ H1), (eqb_ne _ _ H2), (eqb_ne _ _ H3).
  - intros k Hk.
    repeat (apply elem_of_cons in Hk as [-> | Hk]; [discriminate|]).
    by apply elem_of_nil in Hk.
  - rewrite Hreq. reflexivity.
  - rewrite Hreq. cbn [get_prop_opt obj_get String.eqb Ascii.eqb Bool.eqb].
    unfold buildResourceUrl. by rewrite Hurl.
  - intros w' r' H1 H2. by rewrite (Hrun w' r' H1 H2), (Hrun w request Hurl Hhdr).
Qed.

Lemma challenge_without_proof_witness :
  exists root,
    handle ∅ Sample.timeout_world Sample.bare_request =
      (Returns (Response 402 [] (JsonBody (VObj root))), []) /\
    obj_get "resource" root = VStr "https://paywall.example/api/premium".
Proof.
  destruct (challenge_without_proof ∅ Sample.timeout_world Sample.bare_request
              (Url "https://paywall.example" "/api/premium/" "")
              eq_refl eq_refl)
    as (root & Hrun & _ & Hroot & _ & _ & Hres & _).
  exists root. split; [exact Hrun|].
  rewrite Hroot, Hres; [reflexivity|].
  intros Hin. repeat (apply elem_of_cons in Hin as [Hin | Hin]; [discriminate|]).
  by apply elem_of_nil in Hin.
Defined.

(** C2, as stated, fails: with neither a merchant address nor a facilitator
    credential configured, a request without a proof is answered 402, not
    500. *)
Lemma unconfigured_server_still_challenges :
  (∅ : env) !! "MERCHANT_ADDRESS" = None /\
  (∅ : env) !! "THIRDWEB_SECRET_KEY" = None /\
  (∅ : env) !! "THIRDWEB_VAULT_ACCESS_TOKEN" = None /\
  exists resp,
    handle ∅ Sample.timeout_world Sample.bare_request = (Returns resp, []) /\
    status resp = 402 /\ status resp ≠ 500.
Proof.
  do 3 (split; [reflexivity|]).
  eexists. split; [vm_compute; reflexivity|]. cbn. split; [reflexivity | discriminate].
Qed.

(** C2, amended.  A request that carries a non-empty [X-PAYMENT] header,
    when [THIRDWEB_SECRET_KEY] or [THIRDWEB_VAULT_ACCESS_TOKEN] is missing
    or empty, is answered 500 with the error [Server configuration error],
    and nothing has been called by then: no settlement, no 402. *)
Theorem missing_credentials_answered_500 (e : env) (w : world) (request : request)
    (xPaymentHeader : string) :
  present (req_headers request !! "x-payment") = Some xPaymentHeader ->
  present (e !! "THIRDWEB_SECRET_KEY") = None \/
  present (e !! "THIRDWEB_VAULT_ACCESS_TOKEN") = None ->
  exists b,
    handle e w request = (Returns (Response 500 [] (JsonBody (VObj b))), []) /\
    obj_get "error" b = VStr "Server configuration error".
Proof.
  intros Hhdr Hmiss. unfold handle, run, GET. rewrite Hhdr.
  destruct (present (e !! "THIRDWEB_SECRET_KEY")) as [key|] eqn:Hkey.
  - destruct Hmiss as [|Htok]; [discriminate|]. rewrite Htok.
    eexists. split; reflexivity.
  - eexists. split; reflexivity.
Qed.

Lemma missing_credentials_answered_500_witness :
  exists b,
    handle ∅ Sample.timeout_world Sample.paid_request =
      (Returns (Response 500 [] (JsonBody (VObj b))), []) /\
    obj_get "error" b = VStr "Server configuration error".
Proof.
  apply (missing_credentials_answered_500 ∅ Sample.timeout_world Sample.paid_request
           Sample.proof_header); [reflexivity | left; reflexivity].
Defined.

(** C3, as stated, fails: when the call to the facilitator times out, the
    402 carries the error [Payment verification error]; the code
    [verification_unavailable] is not in the response. *)
Lemma facilitator_timeout_has_no_code_of_its_own :
  exists args b,
    settlePayment Sample.timeout_world args =
      Throws (Error "The operation was aborted due to timeout") /\
    handle Sample.credentials Sample.timeout_world Sample.paid_request =
      (Returns (Response 402 [] (JsonBody (VObj b))), [Settle args]) /\
    obj_get "error" b = VStr "Payment verification error" /\
    obj_get "error" b ≠ VStr "verification_unavailable".
Proof.
  eexists _, _. split; [|split; [vm_compute; reflexivity|]].
  - reflexivity.
  - split; [reflexivity | discriminate].
Qed.

(** C3, amended.  When [settlePayment] throws (a timeout, or anything else
    it throws), the request is answered 402 with the error
    [Payment verification error], the message of the exception (or
    [Failed to verify payment. Please try again.] when it has none), the
    hint that the facilitator may be unavailable, and
    [accepts = [requirements]]; settlement was attempted once. *)
Theorem settlement_exception_answered_402 (e : env) (w : world) (request : request)
    (xPaymentHeader key token : string) (err : error) :
  present (req_headers request !! "x-payment") = Some xPaymentHeader ->
  present (e !! "THIRDWEB_SECRET_KEY") = Some key ->
  present (e !! "THIRDWEB_VAULT_ACCESS_TOKEN") = Some token ->
  let args := settlement e (buildPaymentConfig e request) xPaymentHeader key token in
  settlePayment w args = Throws err ->
  handle e w request =
    (Returns (Response 402 []
       (JsonBody (VObj
          [("error", VStr "Payment verification error");
           ("message", VStr (str_or (Some (message err))
                               "Failed to verify payment. Please try again."));
           ("hint", VStr "The facilitator service may be temporarily unavailable.");
           ("accepts", VArr [pc_x402Requirements (buildPaymentConfig e request)])]))),
     [Settle args]).
Proof.
  intros Hhdr Hkey Htok args Hthrow. unfold handle, run, GET.
  rewrite Hhdr, Hkey, Htok.
  unfold Eff.try_catch, Eff.bind, call_settlePayment, emit, Eff.modify, Eff.bind, Eff.lift.
  fold args. rewrite Hthrow. reflexivity.
Qed.

Lemma settlement_exception_answered_402_witness :
  exists b,
    handle Sample.credentials Sample.timeout_world Sample.paid_request =
      (Returns (Response 402 [] (JsonBody (VObj b))),
       [Settle (settlement Sample.credentials
                  (buildPaymentConfig Sample.credentials Sample.paid_request)
                  Sample.proof_header "sk_live" "vt_live")]) /\
    obj_get "message" b = VStr "The operation was aborted due to timeout".
Proof.
  eexists. split.
  - apply (settlement_exception_answered_402 Sample.credentials Sample.timeout_world
             Sample.paid_request Sample.proof_header "sk_live" "vt_live"
             (Error "The operation was aborted due to timeout")); reflexivity.
  - reflexivity.
Defined.

(** With credentials configured and a proof in the header, the first thing
    the handler does is the settlement call, whatever happens next. *)
Lemma settlement_comes_first (e : env) (w : world) (request : request)
    (xPaymentHeader key token : string) :
  present (req_headers request !! "x-payment") = Some xPaymentHeader ->
  present (e !! "THIRDWEB_SECRET_KEY") = Some key ->
  present (e !! "THIRDWEB_VAULT_ACCESS_TOKEN") = Some token ->
  exists tr,
    snd (handle e w request) =
      Settle (settlement e (buildPaymentConfig e request) xPaymentHeader key token) :: tr.
Proof.
  intros Hhdr Hkey Htok. unfold handle, run, GET. rewrite Hhdr, Hkey, Htok.
  unfold Eff.try_catch, Eff.bind, call_settlePayment, emit, Eff.modify, Eff.bind,
    Eff.lift, Eff.throw.
  cbn [app fst snd].
  destruct (settlePayment w _) as [result|err]; [|eexists; reflexivity].
  destruct (negb (sr_status result =? 200)).
  - unfold json, Eff.lift.
    destruct (NextResponse_json _ _ _); eexists; reflexivity.
  - unfold serveVideo, Eff.try_catch, Eff.bind, call_existsSync, call_readFileSync,
      call_statSync, emit, Eff.modify, Eff.bind, Eff.lift, Eff.ret, json, Eff.lift.
    destruct (existsSync w _); cbn [negb app]; [|eexists; reflexivity].
    destruct (readFileSync w _); [|eexists; reflexivity].
    destruct (statSync_size w _); eexists; reflexivity.
Qed.

(** What is handed to [settlePayment] as [paymentData] is the header value
    as received; every other field of the argument comes from the
    environment and the request URL. *)
Lemma settlement_paymentData (e : env) (request : request)
    (xPaymentHeader key token : string) :
  paymentData (settlement e (buildPaymentConfig e request) xPaymentHeader key token)
  = xPaymentHeader.
Proof. reflexivity. Qed.

Lemma settlement_ignores_proof (e : env) (r1 r2 : request) (h1 h2 key token : string) :
  req_url r1 = req_url r2 ->
  let a1 := settlement e (buildPaymentConfig e r1) h1 key token in
  let a2 := settlement e (buildPaymentConfig e r2) h2 key token in
  (resourceUrl a1, method a1, payTo a1, network a1, price a1, via a1, route a1) =
  (resourceUrl a2, method a2, payTo a2, network a2, price a2, via a2, route a2) /\
  pc_x402Requirements (buildPaymentConfig e r1) =
  pc_x402Requirements (buildPaymentConfig e r2).
Proof.
  intros Hurl a1 a2. unfold a1, a2.
  by rewrite (buildPaymentConfig_url e r1 r2 Hurl).
Qed.

(** C9. With a proof that the facilitator settles (status 200), settlement
    is called before the file is looked for: when the video is missing the
    answer is 500 [Video file not found], and when it exists but cannot be
    read the answer is 500 [Video file error]; in both traces the
    settlement call has already been made. *)
Theorem settlement_precedes_file_check (e : env) (w : world) (request : request)
    (xPaymentHeader key token : string) (result : settleResult) :
  present (req_headers request !! "x-payment") = Some xPaymentHeader ->
  present (e !! "THIRDWEB_SECRET_KEY") = Some key ->
  present (e !! "THIRDWEB_VAULT_ACCESS_TOKEN") = Some token ->
  let args := settlement e (buildPaymentConfig e request) xPaymentHeader key token in
  let file := videoPath e w in
  settlePayment w args = Returns result ->
  sr_status result = 200 ->
  (existsSync w file = false ->
   handle e w request =
     (Returns (Response 500 []
        (JsonBody (VObj
           [("error", VStr "Video file not found");
            ("message", VStr "The protected video resource is not available.")]))),
      [Settle args; ExistsSync file])) /\
  (forall err, existsSync w file = true -> readFileSync w file = Throws err ->
   handle e w request =
     (Returns (Response 500 []
        (JsonBody (VObj
           [("error", VStr "Video file error");
            ("message", VStr "Payment verified but video file could not be served.");
            ("details", VStr (message err))]))),
      [Settle args; ExistsSync file; ReadFileSync file])).
Proof.
  intros Hhdr Hkey Htok args file Hsettle Hok.
  assert (Hrun : handle e w request =
            Eff.try_catch
              (serveVideo e w (x402Network (pc_network (buildPaymentConfig e request))))
              (fun error =>
                 json (VObj (literal
                   [Prop_ "error" (VStr "Payment verification error");
                    Prop_ "message"
                      (VStr (str_or (Some (message error))
                               "Failed to verify payment. Please try again."));
                    Prop_ "hint"
                      (VStr "The facilitator service may be temporarily unavailable.");
                    Prop_ "accepts"
                      (VArr [pc_x402Requirements (buildPaymentConfig e request)])]))
                   402 [])
              [Settle args]).
  { unfold handle, run, GET. rewrite Hhdr, Hkey, Htok.
    unfold Eff.try_catch, Eff.bind, call_settlePayment, emit, Eff.modify, Eff.bind,
      Eff.lift.
    fold args. rewrite Hsettle, Hok. reflexivity. }
  rewrite Hrun.
  unfold serveVideo, Eff.try_catch, Eff.bind, call_existsSync, call_readFileSync,
    emit, Eff.modify, Eff.bind, Eff.lift, Eff.ret.
  fold file. split.
  - intros Hmissing. rewrite Hmissing. reflexivity.
  - intros err Hthere Hread. rewrite Hthere, Hread. reflexivity.
Qed.

Lemma settlement_precedes_file_check_witness :
  exists resp,
    handle Sample.credentials Sample.settled_world Sample.paid_request =
      (Returns resp,
       [Settle (settlement Sample.credentials
                  (buildPaymentConfig Sample.credentials Sample.paid_request)
                  Sample.proof_header "sk_live" "vt_live");
        ExistsSync "/srv/app/resources /ssstik.io_@wilcoxxspace_1761512614937.mp4"]) /\
    status resp = 500.
Proof.
  eexists. split.
  - apply (settlement_precedes_file_check Sample.credentials Sample.settled_world
             Sample.paid_request Sample.proof_header "sk_live" "vt_live"
             (SettleResult 200 VUndef None)); reflexivity.
  - reflexivity.
Defined.



End RouteFacts.

(** ** The handler that posts to the facilitator's settle endpoint *)

Section RouteSettleFacts.

Import Js Http Server.

(** With a merchant address configured, a proof that [decodePayment]
    accepts is forwarded in its decoded form, together with requirements
    whose [network] is the one found in the proof. *)
Lemma settle_endpoint_payload (e : env) (w : world) (request : request)
    (xPaymentHeader : string) (paymentPayload : obj) :
  present (req_headers request !! "x-payment") = Some xPaymentHeader ->
  decodePayment w xPaymentHeader = Returns (VObj paymentPayload) ->
  RouteSettle.MERCHANT_ADDRESS e ≠ "0x0000000000000000000000000000000000000000" ->
  exists sent tr,
    snd (RouteSettle.handle e w request) =
      Post (str_or (e !! "FACILITATOR_URL") "https://x402.org/facilitator" +:+ "/settle")
           (VObj sent) :: tr /\
    obj_get "paymentPayload" sent = VObj paymentPayload /\
    get_prop_opt (obj_get "paymentRequirements" sent) "network" =
      obj_get "network" paymentPayload.
Proof.
  intros Hhdr Hdec Hmerchant.
  unfold RouteSettle.handle, run, RouteSettle.GET. rewrite Hhdr.
  unfold Eff.try_catch, Eff.bind at 1, Eff.lift at 1. rewrite Hdec.
  unfold Eff.bind at 1, Eff.lift at 1. cbn [get_prop].
  assert (Hne : String.eqb (RouteSettle.MERCHANT_ADDRESS e) "" ||
                String.eqb (RouteSettle.MERCHANT_ADDRESS e)
                  "0x0000000000000000000000000000000000000000" = false).
  { apply orb_false_iff. split; [|by apply String.eqb_neq].
    unfold RouteSettle.MERCHANT_ADDRESS, Route.MERCHANT_ADDRESS, str_or.
    destruct (e !! "MERCHANT_ADDRESS") as [s|]; [|reflexivity].
    destruct (String.eqb_spec s ""); [reflexivity | by apply String.eqb_neq]. }
  rewrite Hne.
  unfold Eff.bind at 1, Eff.lift at 1. cbn [get_prop].
  unfold Eff.bind at 1, call_fetch, emit, Eff.modify, Eff.bind at 1 2. cbn [app].
  set (sent := literal _).
  exists sent.
  assert (Hsent : obj_get "paymentPayload" sent = VObj paymentPayload /\
                  get_prop_opt (obj_get "paymentRequirements" sent) "network" =
                    obj_get "network" paymentPayload) by (split; reflexivity).
  match goal with
  | |- context [snd ?run] =>
      assert (Htr : exists tr, snd run = Post
                (str_or (e !! "FACILITATOR_URL") "https://x402.org/facilitator" +:+ "/settle")
                (VObj sent) :: tr)
  end.
  { unfold Eff.lift at 1.
    destruct (fetch w _ _) as [facilitatorResponse|err]; [|eexists; reflexivity].
    unfold Eff.bind at 1, Eff.lift at 1.
    destruct (fr_json facilitatorResponse) as [facilitatorData|err];
      [|eexists; reflexivity].
    unfold Eff.bind, Eff.lift, Eff.ret, json, Eff.lift.
    destruct (negb (ok (fr_status facilitatorResponse))).
    - destruct (get_prop facilitatorData "errorReason"); eexists; reflexivity.
    - destruct (get_prop facilitatorData "success") as [success|err];
        [|eexists; reflexivity].
      cbn [orb]. destruct (negb (truthy success)).
      + destruct (get_prop facilitatorData "errorReason"); eexists; reflexivity.
      + unfold serveVideo, Eff.try_catch, Eff.bind, call_existsSync, call_readFileSync,
          call_statSync, emit, Eff.modify, Eff.bind, Eff.lift, Eff.ret, json, Eff.lift.
        destruct (existsSync w _); cbn [negb app]; [|eexists; reflexivity].
        destruct (readFileSync w _); [|eexists; reflexivity].
        destruct (statSync_size w _); eexists; reflexivity. }
  destruct Htr as [tr Htr]. exists tr. by split.
Qed.


(** C5, at a failing input.  The server is configured for Base mainnet
    ([NETWORK] is [base]) and the proof names [base-sepolia]: the
    requirements sent to the facilitator for the authorization decision
    carry the [network] of the proof, [base-sepolia], and the request is
    served (200). *)
Theorem settle_endpoint_trusts_proof_network :
  exists sent resp tr,
    RouteSettle.handle Sample.credentials Sample.settle_endpoint_world Sample.paid_request =
      (Returns resp, Post "https://x402.org/facilitator/settle" (VObj sent) :: tr) /\
    status resp = 200 /\
    RouteSettle.NETWORK Sample.credentials = "base" /\
    get_prop_opt Sample.decoded_proof "network" = VStr "base-sepolia" /\
    get_prop_opt (obj_get "paymentRequirements" sent) "network" = VStr "base-sepolia".
Proof.
  eexists _, _, _. split; [vm_compute; reflexivity|].
  repeat split; reflexivity.
Qed.

End RouteSettleFacts.

(** ** The payment page *)

Section PageFacts.

Import Js Page PageSpec.

(** *** Well-formed payment information *)

Lemma obj_set_keys (k : string) (v : value) (o : obj) :
  k ∈ o.*1 -> (obj_set k v o).*1 = o.*1.
Proof.
  induction o as [|[k' v'] o IH]; cbn; intros Hin.
  - by apply elem_of_nil in Hin.
  - destruct (String.eqb_spec k k') as [->|Hne]; cbn; [done|].
    apply elem_of_cons in Hin as [?|Hin]; [done|]. by rewrite IH.
Qed.

Lemma obj_set_distinct (k : string) (v : value) (o : obj) :
  distinct_keys o -> distinct_keys (obj_set k v o).
Proof.
  unfold distinct_keys. intros Hnd.
  destruct (decide (k ∈ o.*1)) as [Hin|Hout].
  - by rewrite obj_set_keys.
  - rewrite obj_set_fresh by done. rewrite fmap_app. cbn.
    apply NoDup_app. split; [done|]. split.
    + intros x Hx Hx'. apply list_elem_of_singleton in Hx'. by subst.
    + apply NoDup_singleton.
Qed.

Lemma obj_assign_keeps_distinct (target source : obj) :
  distinct_keys target -> distinct_keys (obj_assign target source).
Proof.
  revert target. unfold obj_assign.
  induction source as [|[k v] source IH]; intros target Ht; cbn; [done|].
  apply IH. by apply obj_set_distinct.
Qed.

Lemma literal_distinct (ms : list member) : distinct_keys (literal ms).
Proof.
  unfold literal.
  assert (H : forall acc, distinct_keys acc ->
            distinct_keys (fold_left (fun acc m =>
               match m with
               | Prop_ k v => obj_set k v acc
               | Spread v => obj_assign acc (own_props v)
               end) ms acc)).
  { induction ms as [|m ms IH]; intros acc Hacc; cbn; [done|].
    apply IH. destruct m; [by apply obj_set_distinct | by apply obj_assign_keeps_distinct]. }
  apply H. apply NoDup_nil_2.
Qed.

Lemma refreshRequirements_well_formed (data prev : value) :
  well_formed prev -> well_formed (refreshRequirements data prev).
Proof.
  intros Hprev. unfold refreshRequirements.
  destruct (get_prop_opt data "accepts") as [| | | | |items|]; try done.
  destruct items as [|r rest]; [done|].
  destruct (negb (truthy prev)); right; eexists; (split; [reflexivity|]);
    apply literal_distinct.
Qed.

(** *** Steps that send nothing *)

Lemma fetches_app (a b : list event) : fetches (a ++ b) = (fetches a + fetches b)%nat.
Proof. unfold fetches. by rewrite filter_app, length_app. Qed.

Lemma no_fetch_in_quiet_trace (l : list event) (u : string) (h : option string) :
  fetches l = 0%nat -> Fetch u h ∉ l.
Proof.
  unfold fetches. induction l as [|ev l IH]; intros Hl Hin.
  - by apply elem_of_nil in Hin.
  - apply elem_of_cons in Hin as [<- | Hin].
    + by rewrite filter_cons_True in Hl.
    + apply IH; [|done]. destruct (is_fetch ev) eqn:Hev.
      * by rewrite filter_cons_True in Hl.
      * rewrite filter_cons_False in Hl; [done|]. by rewrite Hev.
Qed.

Lemma quiet_ret {A} (a : A) : quiet (Eff.ret a).
Proof. intros s tr. split; [reflexivity|]. exists []. by rewrite app_nil_r. Qed.

Lemma quiet_throw {A} (e : Js.error) : quiet (@Eff.throw _ A e).
Proof. intros s tr. split; [reflexivity|]. exists []. by rewrite app_nil_r. Qed.

Lemma quiet_lift {A} (o : outcome A) : quiet (Eff.lift o).
Proof. intros s tr. split; [reflexivity|]. exists []. by rewrite app_nil_r. Qed.

Lemma quiet_bind {A B} (m : M A) (k : A -> M B) :
  quiet m -> (forall a, quiet (k a)) -> quiet (Eff.bind m k).
Proof.
  intros Hm Hk s tr. unfold Eff.bind.
  destruct (Hm s tr) as (Hinfo & added & Htr & Hnone).
  destruct (m (s, tr)) as [[a|e] [s1 tr1]]; cbn [fst snd] in *.
  - destruct (Hk a s1 tr1) as (Hinfo' & added' & Htr' & Hnone').
    split; [congruence|]. exists (added ++ added').
    rewrite Htr', Htr, app_assoc, fetches_app, Hnone, Hnone'. by split.
  - split; [done|]. by exists added.
Qed.

Lemma quiet_try_catch {A} (m : M A) (h : Js.error -> M A) :
  quiet m -> (forall e, quiet (h e)) -> quiet (Eff.try_catch m h).
Proof.
  intros Hm Hh s tr. unfold Eff.try_catch.
  destruct (Hm s tr) as (Hinfo & added & Htr & Hnone).
  destruct (m (s, tr)) as [[a|e] [s1 tr1]]; cbn [fst snd] in *.
  - split; [done|]. by exists added.
  - destruct (Hh e s1 tr1) as (Hinfo' & added' & Htr' & Hnone').
    split; [congruence|]. exists (added ++ added').
    rewrite Htr', Htr, app_assoc, fetches_app, Hnone, Hnone'. by split.
Qed.

Lemma quiet_emit (ev : event) : is_fetch ev = false -> quiet (emit ev).
Proof.
  intros Hev s tr. split; [reflexivity|]. exists [ev]. split; [reflexivity|].
  unfold fetches. cbn. by rewrite Hev.
Qed.

Lemma quiet_setStatus (p : phase) : quiet (setStatus p).
Proof. intros s tr. split; [reflexivity|]. exists []. by rewrite app_nil_r. Qed.

Lemma quiet_setError (v : value) : quiet (setError v).
Proof. intros s tr. split; [reflexivity|]. exists []. by rewrite app_nil_r. Qed.

Lemma quiet_setStep (n : Z) : quiet (setStep n).
Proof. intros s tr. split; [reflexivity|]. exists []. by rewrite app_nil_r. Qed.

(** Everything before the retry talks to the wallet only. *)
Lemma quiet_prepareProof (w : world) (info : value) : quiet (prepareProof w info).
Proof.
  unfold prepareProof, call_connect, call_switchChain, call_createPaymentHeader.
  repeat first
    [ apply quiet_ret | apply quiet_throw | apply quiet_lift
    | apply quiet_setStatus | apply quiet_setError | apply quiet_setStep
    | apply quiet_emit; reflexivity
    | apply quiet_bind; [|intros ?]
    | apply quiet_try_catch; [|intros ?]
    | match goal with
      | |- quiet (if ?b then _ else _) => destruct b
      | |- quiet (match ?x with _ => _ end) => destruct x
      end ].
Qed.

(** *** The retry *)

(** The [catch] block of [handleProcessPayment]. *)
Let caught (error : Js.error) : M unit :=
  let* _ := setError (VStr (str_or (Some (message error))
                              "An error occurred during payment processing")) in
  setStatus Page.error.

Lemma handleProcessPayment_run (w : world) (s : state) :
  run (handleProcessPayment w) s =
    match prepareProof w (paymentInfo s)
            (State processing (paymentInfo s) (content s) (error_ s) 3, []) with
    | (Returns paymentHeader, (s2, pre)) =>
        let sent := pre ++ [Fetch "/api/premium" (Some paymentHeader)] in
        match fetch w "/api/premium" (Some paymentHeader) with
        | Returns response =>
            snd (Eff.try_catch (readRetryResponse w response) caught (s2, sent))
        | Throws e => snd (caught e (s2, sent))
        end
    | (Throws e, (s2, pre)) => snd (caught e (s2, pre))
    end.
Proof.
  unfold run, handleProcessPayment.
  unfold Eff.bind at 1, Eff.get. unfold Eff.bind at 1, setStatus at 1, update, Eff.modify.
  unfold Eff.bind at 1, setStep at 1, update, Eff.modify.
  cbn [fst snd status paymentInfo content error_ step].
  unfold Eff.try_catch at 1, Eff.bind at 1.
  destruct (prepareProof w (paymentInfo s) _) as [[paymentHeader|e] [s2 pre]];
    [|reflexivity].
  unfold Eff.bind at 1, call_fetch, emit, Eff.modify, Eff.bind at 1 2, Eff.lift at 1.
  cbn [fst snd].
  destruct (fetch w _ _) as [response|e]; reflexivity.
Qed.

(** Reading the answer sends nothing. *)
Lemma readRetryResponse_trace (w : world) (response : fetchResponse)
    (s : state) (tr : list event) :
  snd (snd (Eff.try_catch (readRetryResponse w response) caught (s, tr))) = tr.
Proof.
  unfold readRetryResponse, caught, Eff.try_catch, Eff.bind, Eff.lift, Eff.throw,
    setContent, setStatus, setError, setStep, setPaymentInfo, update, Eff.modify.
  destruct (Http.ok _).
  - destruct (match res_content_type response with Some _ => _ | None => _ end);
      [|reflexivity].
    destruct (res_blob response); reflexivity.
  - destruct (res_status response =? 402); [|reflexivity].
    destruct (res_json response) as [data|e]; [|reflexivity].
    destruct (get_prop data "error"); reflexivity.
Qed.

(** A run whose trace has the retry with header [paymentHeader]: it is the
    only request of the run, the held payment information was untouched up
    to it, and the state the run ends in is the one left by reading the
    answer. *)
Lemma retry_sent (w : world) (s s' : state) (tr : list event)
    (paymentHeader : string) (response : fetchResponse) :
  run (handleProcessPayment w) s = (s', tr) ->
  Fetch "/api/premium" (Some paymentHeader) ∈ tr ->
  fetch w "/api/premium" (Some paymentHeader) = Returns response ->
  exists s2,
    paymentInfo s2 = paymentInfo s /\
    fetches tr = 1%nat /\
    s' = fst (snd (Eff.try_catch (readRetryResponse w response) caught (s2, tr))).
Proof.
  intros Hrun Hin Hfetch. rewrite handleProcessPayment_run in Hrun.
  unfold caught in *.
  destruct (quiet_prepareProof w (paymentInfo s)
              (State processing (paymentInfo s) (content s) (error_ s) 3) [])
    as (Hinfo & added & Hadded & Hnone).
  destruct (prepareProof w (paymentInfo s) _) as [[h'|e] [s2 pre]];
    cbn [fst snd app paymentInfo] in *; subst pre.
  - assert (Htr : tr = added ++ [Fetch "/api/premium" (Some h')]).
    { destruct (fetch w "/api/premium" (Some h')) as [r|e].
      - cbv zeta in Hrun.
        pose proof (readRetryResponse_trace w r s2
                      (added ++ [Fetch "/api/premium" (Some h')])) as Htr.
        unfold caught in *. rewrite Hrun in Htr. by cbn in Htr.
      - by injection Hrun as _ <-. }
    assert (h' = paymentHeader) as ->.
    { rewrite Htr in Hin. apply elem_of_app in Hin as [Hin|Hin].
      - by apply no_fetch_in_quiet_trace in Hin.
      - apply list_elem_of_singleton in Hin. by injection Hin. }
    rewrite Hfetch in Hrun. cbv zeta in Hrun.
    exists s2. split; [done|]. split.
    + rewrite Htr, fetches_app, Hnone. reflexivity.
    + rewrite Htr, Hrun. reflexivity.
  - injection Hrun as _ <-. by apply no_fetch_in_quiet_trace in Hin.
Qed.

Lemma refreshRequirements_replaces (data : value) (held : obj) (refreshed : value)
    (rest : list value) :
  distinct_keys held ->
  get_prop_opt data "accepts" = VArr (refreshed :: rest) ->
  refreshRequirements data (VObj held) = VObj (obj_set "x402Requirements" refreshed held).
Proof.
  intros Hheld Haccepts. unfold refreshRequirements. rewrite Haccepts.
  cbn [truthy negb]. cbn [literal fold_left own_props].
  by rewrite (obj_assign_distinct [] held).
Qed.

(** C7. When the retry (the request that carries the payment header) is
    answered 402 with a body that parses: if [accepts] is a non-empty array,
    the page's [x402Requirements] become [accepts[0]] and every other
    property of the held payment information is as before; otherwise the
    held payment information is unchanged. *)
Theorem retry_402_refreshes_requirements (w : world) (s s' : state) (tr : list event)
    (paymentHeader : string) (response : fetchResponse) (data : value) (held : obj) :
  run (handleProcessPayment w) s = (s', tr) ->
  Fetch "/api/premium" (Some paymentHeader) ∈ tr ->
  fetch w "/api/premium" (Some paymentHeader) = Returns response ->
  res_status response = 402 ->
  res_json response = Returns data ->
  paymentInfo s = VObj held ->
  distinct_keys held ->
  match get_prop_opt data "accepts" with
  | VArr (refreshed :: _) =>
      exists held',
        paymentInfo s' = VObj held' /\
        obj_get "x402Requirements" held' = refreshed /\
        forall k, k ≠ "x402Requirements" -> obj_get k held' = obj_get k held
  | _ => paymentInfo s' = VObj held
  end.
Proof.
  intros Hrun Hin Hfetch Hstatus Hjson Hheld Hkeys.
  destruct (retry_sent w s s' tr paymentHeader response Hrun Hin Hfetch)
    as (s2 & Hinfo & _ & ->).
  assert (Hnew : paymentInfo (fst (snd (Eff.try_catch (readRetryResponse w response)
                                          caught (s2, tr))))
                 = refreshRequirements data (VObj held)).
  { unfold readRetryResponse. rewrite Hstatus, Hjson.
    cbn [Http.ok Z.leb Z.eqb andb Z.compare Pos.compare Pos.compare_cont Pos.eqb].
    unfold caught, Eff.try_catch, Eff.bind, Eff.lift, setError, setStatus, setPaymentInfo,
      update, Eff.modify.
    destruct data; cbn [get_prop fst snd paymentInfo]; rewrite ?Hinfo, ?Hheld; reflexivity. }
  rewrite Hnew.
  destruct (get_prop_opt data "accepts") as [| | | | |items|] eqn:Haccepts;
    try (unfold refreshRequirements; by rewrite Haccepts).
  destruct items as [|refreshed rest]; [unfold refreshRequirements; by rewrite Haccepts|].
  rewrite (refreshRequirements_replaces data held refreshed rest Hkeys Haccepts).
  eexists. split; [reflexivity|]. split.
  - apply obj_get_set_eq.
  - intros k Hk. by apply obj_get_set_ne.
Qed.

Lemma retry_402_refreshes_requirements_witness :
  exists held',
    paymentInfo (fst (run (handleProcessPayment (PageSample.page_world PageSample.rejected))
                        PageSample.awaiting_payment)) = VObj held' /\
    obj_get "x402Requirements" held' = PageSample.refreshed /\
    obj_get "amount" held' = VStr "100000".
Proof.
  pose proof (retry_402_refreshes_requirements
                (PageSample.page_world PageSample.rejected) PageSample.awaiting_payment
                (fst (run (handleProcessPayment (PageSample.page_world PageSample.rejected))
                        PageSample.awaiting_payment))
                (snd (run (handleProcessPayment (PageSample.page_world PageSample.rejected))
                        PageSample.awaiting_payment))
                Sample.proof_header PageSample.rejected
                (VObj [("error", VStr "Payment verification error");
                       ("accepts", VArr [PageSample.refreshed])])
                [("scheme", VStr "exact");
                 ("network", VStr "base:84532");
                 ("amount", VStr "100000");
                 ("x402Requirements",
                  VObj [("scheme", VStr "exact");
                        ("network", VStr "eip155:84532");
                        ("maxAmountRequired", VStr "100000");
                        ("resource", VStr "https://paywall.example/api/premium")])]) as H.
  cbn [get_prop_opt obj_get String.eqb Ascii.eqb Bool.eqb] in H.
  destruct H as (held' & H1 & H2 & H3).
  - by destruct (run _ _).
  - vm_compute. apply list_elem_of_further, list_elem_of_here.
  - reflexivity.
  - reflexivity.
  - reflexivity.
  - reflexivity.
  - unfold distinct_keys. cbn.
    repeat constructor; rewrite ?elem_of_cons, ?elem_of_nil; intuition discriminate.
  - exists held'. split; [exact H1|]. split; [exact H2|].
    by rewrite H3.
Defined.

(** C8. A status that is neither 2xx nor 402 ends the negotiation: on the
    first request the page goes to [error] with the message
    [Unexpected status: N] after that one request; on the retry likewise,
    and the retry is the only request of the run.  In both cases the held
    payment information is as it was. *)
Theorem unexpected_status_is_terminal (w : world) (s : state) (response : fetchResponse) :
  res_status response ≠ 402 ->
  Http.ok (res_status response) = false ->
  let failed := VStr ("Unexpected status: " +:+ pretty (res_status response)) in
  (fetch w "/api/premium" None = Returns response ->
   run (handleAccessContent w) s =
     (State Page.error (paymentInfo s) (content s) failed 1,
      [Fetch "/api/premium" None])) /\
  (forall s' tr paymentHeader,
      run (handleProcessPayment w) s = (s', tr) ->
      Fetch "/api/premium" (Some paymentHeader) ∈ tr ->
      fetch w "/api/premium" (Some paymentHeader) = Returns response ->
      status s' = Page.error /\
      error_ s' = failed /\
      paymentInfo s' = paymentInfo s /\
      fetches tr = 1%nat).
Proof.
  intros H402 Hok failed.
  assert (Hneq : (res_status response =? 402) = false) by by apply Z.eqb_neq.
  split.
  - intros Hfetch. unfold run, handleAccessContent, call_fetch, emit.
    unfold Eff.bind, Eff.try_catch, Eff.lift, Eff.throw, setStatus, setError, setStep,
      update, Eff.modify.
    cbn [fst snd app]. rewrite Hfetch, Hneq, Hok. reflexivity.
  - intros s' tr paymentHeader Hrun Hin Hfetch.
    destruct (retry_sent w s s' tr paymentHeader response Hrun Hin Hfetch)
      as (s2 & Hinfo & Hone & ->).
    unfold readRetryResponse. rewrite Hok, Hneq.
    unfold caught, Eff.try_catch, Eff.throw, Eff.bind, setError, setStatus, update,
      Eff.modify.
    cbn [fst snd status error_ paymentInfo].
    repeat split; done.
Qed.

Lemma unexpected_status_is_terminal_witness :
  run (handleAccessContent (PageSample.page_world PageSample.unavailable)) initial =
    (State Page.error VNull VNull (VStr "Unexpected status: 503") 1,
     [Fetch "/api/premium" None]) /\
  status (fst (run (handleProcessPayment (PageSample.page_world PageSample.unavailable))
                 PageSample.awaiting_payment)) = Page.error /\
  error_ (fst (run (handleProcessPayment (PageSample.page_world PageSample.unavailable))
                 PageSample.awaiting_payment)) = VStr "Unexpected status: 503".
Proof.
  destruct (unexpected_status_is_terminal (PageSample.page_world PageSample.unavailable)
              initial PageSample.unavailable) as [Hfirst _];
    [discriminate | reflexivity |].
  destruct (unexpected_status_is_terminal (PageSample.page_world PageSample.unavailable)
              PageSample.awaiting_payment PageSample.unavailable) as [_ Hretry];
    [discriminate | reflexivity |].
  split; [exact (Hfirst eq_refl)|].
  destruct (Hretry _ _ Sample.proof_header (surjective_pairing _)) as (H1 & H2 & _).
  - vm_compute. apply list_elem_of_further, list_elem_of_here.
  - reflexivity.
  - by split.
Defined.

(** *** An invariant of the page *)

Lemma handleAccessContent_info (w : world) (s : state) :
  paymentInfo (fst (run (handleAccessContent w) s)) = paymentInfo s \/
  exists ms, paymentInfo (fst (run (handleAccessContent w) s)) = VObj (literal ms).
Proof.
  unfold run, handleAccessContent, call_fetch, emit.
  unfold Eff.bind, Eff.try_catch, Eff.lift, Eff.throw, setStatus, setError, setStep,
    setPaymentInfo, setContent, update, Eff.modify.
  cbn [fst snd app].
  destruct (fetch w _ _) as [response|e]; [|by left].
  destruct (res_status response =? 402).
  - destruct (res_json response) as [data|e]; [|by left].
    destruct (get_prop data "payment") as [dataPayment|e]; [|by left].
    destruct (negb (truthy _)); [by left|].
    right. eexists. reflexivity.
  - destruct (Http.ok _); [|by left].
    destruct (res_json response); by left.
Qed.

Lemma handleProcessPayment_info (w : world) (s : state) :
  paymentInfo (fst (run (handleProcessPayment w) s)) = paymentInfo s \/
  exists data,
    paymentInfo (fst (run (handleProcessPayment w) s)) =
      refreshRequirements data (paymentInfo s).
Proof.
  rewrite handleProcessPayment_run.
  destruct (quiet_prepareProof w (paymentInfo s)
              (State processing (paymentInfo s) (content s) (error_ s) 3) [])
    as (Hinfo & _).
  destruct (prepareProof w (paymentInfo s) _) as [[h|e] [s2 pre]];
    cbn [fst snd paymentInfo] in *; [|by left].
  destruct (fetch w _ _) as [response|e]; [|by left].
  cbv zeta. unfold readRetryResponse.
  unfold Eff.bind, Eff.try_catch, Eff.lift, Eff.throw, setStatus, setError, setStep,
    setPaymentInfo, setContent, update, Eff.modify.
  destruct (Http.ok _).
  - destruct (match res_content_type response with Some _ => _ | None => _ end);
      [|by left].
    destruct (res_blob response); by left.
  - destruct (res_status response =? 402); [|by left].
    destruct (res_json response) as [data|e]; [|by left].
    destruct (get_prop data "error"); [|by left].
    right. exists data. cbn [fst snd paymentInfo]. by rewrite Hinfo.
Qed.

(** Every handler leaves well-formed payment information well-formed. *)
Lemma handlers_keep_well_formed (w : world) (s : state) :
  well_formed (paymentInfo s) ->
  well_formed (paymentInfo (fst (run (handleAccessContent w) s))) /\
  well_formed (paymentInfo (fst (run (handleProcessPayment w) s))) /\
  well_formed (paymentInfo (fst (run handleReset s))).
Proof.
  intros Hs. split; [|split].
  - destruct (handleAccessContent_info w s) as [->|[ms ->]]; [done|].
    right. eexists. split; [reflexivity | apply literal_distinct].
  - destruct (handleProcessPayment_info w s) as [->|[data ->]]; [done|].
    by apply refreshRequirements_well_formed.
  - by left.
Qed.

(** *** The network adapter *)

Lemma prefix_app_l (a b s : string) :
  String.prefix (a +:+ b) s = true -> String.prefix a s = true.
Proof.
  revert s. induction a as [|c a IH]; intros s; [by destruct s|].
  destruct s as [|d s]; simpl; [done|].
  destruct (Ascii.ascii_dec c d); [apply IH | done].
Qed.

Lemma includes_app_l (a b hay : string) :
  includes (a +:+ b) hay = true -> includes a hay = true.
Proof.
  induction hay as [|c hay IH]; cbn [includes]; intros H;
    apply orb_true_iff in H as [H|H]; apply orb_true_iff.
  - left. by apply (prefix_app_l a b).
  - discriminate.
  - left. by apply (prefix_app_l a b).
  - right. by apply IH.
Qed.

(** Whatever tag contains [84532] contains [8453], and the test for [8453]
    comes first: the branch that answers [base-sepolia] for a chain id is
    never taken. *)
Lemma chain_84532_never_normalizes_to_sepolia (tag : string) :
  includes "84532" (toLowerCase tag) = true ->
  normalizeNetworkForSdk (VStr tag) = VStr "base".
Proof.
  intros H. unfold normalizeNetworkForSdk. cbn [to_string truthy].
  destruct (String.eqb_spec tag "") as [->|_]; [discriminate|]. cbn [negb].
  destruct (String.eqb_spec (toLowerCase tag) "base") as [E|_];
    [rewrite E in H; discriminate|].
  destruct (String.eqb_spec (toLowerCase tag) "base-sepolia") as [E|_];
    [rewrite E in H; discriminate|].
  cbn [orb]. by rewrite (includes_app_l "8453" "2" _ H).
Qed.

(** The object handed to [createPaymentHeader] differs from the held
    requirements in [network] only. *)
Lemma creation_copy_keeps_other_fields (held : obj) (network : value) (k : string) :
  distinct_keys held ->
  k ≠ "network" ->
  obj_get k (literal [Spread (VObj (literal [Spread (VObj held)]));
                      Prop_ "network" network]) = obj_get k held.
Proof.
  intros Hheld Hk. rewrite (spread_distinct held Hheld).
  cbn [literal fold_left own_props].
  rewrite (obj_assign_distinct [] held Hheld). cbn [app].
  by apply obj_get_set_ne.
Qed.

(** C6, at failing inputs.  The tags [eip155:84532] and [base:84532], which
    name chain 84532, are translated to [base], not to [base-sepolia]
    (only the literal [base-sepolia] is); the tags of chain 8453 do map to
    [base].  The conversion of the fallback path has the same order of
    tests and the same result.  In a run of the page that holds
    requirements for [eip155:84532], [createPaymentHeader] is called with
    [network = base]. *)
Theorem sepolia_chain_id_tags_normalize_to_base :
  normalizeNetworkForSdk (VStr "eip155:84532") = VStr "base" /\
  normalizeNetworkForSdk (VStr "base:84532") = VStr "base" /\
  normalizeNetworkForSdk (VStr "base-sepolia") = VStr "base-sepolia" /\
  normalizeNetworkForSdk (VStr "eip155:8453") = VStr "base" /\
  PageFallback.convertNetwork [("network", VStr "eip155:84532")] =
    Returns [("network", VStr "base")] /\
  exists args rest,
    snd (run (handleProcessPayment (PageSample.page_world PageSample.rejected))
           PageSample.awaiting_payment) = CreatePaymentHeader args :: rest /\
    get_prop_opt (get_prop_opt PageSample.held_info "x402Requirements") "network" =
      VStr "eip155:84532" /\
    get_prop_opt (requirements args) "network" = VStr "base".
Proof.
  do 5 (split; [reflexivity|]).
  eexists _, _. split; [vm_compute; reflexivity|]. split; reflexivity.
Qed.

End PageFacts.
(** ** More on the guard of [route.js] *)

(** *** [parseInt] on a decimal number followed by something else *)

Section ParseFacts.

Import Js JsSpec.

Lemma digit_of_pretty_char (d : N) :
  (d < 10)%N -> digit_value 10 (pretty_N_char d) = Some (Z.of_N d).
Proof.
  intros Hd.
  do 10 (destruct d as [|d] using N.peano_ind; [reflexivity|]; try lia).
Qed.

Lemma read_digits_stop (v : Z) (rest : string) :
  ends_number rest -> read_digits 10 (Some v) rest = Some v.
Proof. destruct rest as [|c rest]; [done|]. cbn. by intros [-> _]. Qed.

Lemma read_digits_pretty (x : N) (s : string) :
  (0 < x)%N ->
  read_digits 10 None (pretty_N_go x s) = read_digits 10 (Some (Z.of_N x)) s.
Proof.
  revert s. induction x as [x IH] using (well_founded_induction N.lt_wf_0).
  intros s Hx. rewrite pretty_N_go_step by done.
  assert (Hd : (x `mod` 10 < 10)%N) by (apply N.mod_lt; lia).
  destruct (decide (x `div` 10 = 0)%N) as [E|E].
  - rewrite E, pretty_N_go_0. cbn [read_digits].
    rewrite digit_of_pretty_char by done. cbn [default].
    f_equal. f_equal. pose proof (N.div_mod x 10 ltac:(lia)) as Hdm. rewrite E in Hdm.
    rewrite N.mul_0_r, N.add_0_l in Hdm. by rewrite <- Hdm.
  - rewrite IH; [|apply N.div_lt; lia|by apply N.neq_0_lt_0].
    cbn [read_digits]. rewrite digit_of_pretty_char by done. cbn [default].
    f_equal. f_equal. rewrite (N.div_mod x 10 ltac:(lia)) at 3.
    rewrite N2Z.inj_add, N2Z.inj_mul.
    generalize (Z.of_N (x `div` 10)) (Z.of_N (x `mod` 10)). clear. unfold id. intros; lia.
Qed.

Lemma pretty_N_go_app (x : N) (s r : string) :
  pretty_N_go x s +:+ r = pretty_N_go x (s +:+ r).
Proof.
  revert s. induction x as [x IH] using (well_founded_induction N.lt_wf_0).
  intros s. destruct (decide (0 < x)%N) as [Hx|Hx].
  - rewrite !(pretty_N_go_step x) by done. rewrite IH by (apply N.div_lt; lia). done.
  - replace x with 0%N by lia. by rewrite !pretty_N_go_0.
Qed.

Lemma pretty_N_go_head (x : N) (s : string) :
  (0 < x)%N ->
  exists d t, (1 <= d < 10)%N /\ pretty_N_go x s = String (pretty_N_char d) t.
Proof.
  revert s. induction x as [x IH] using (well_founded_induction N.lt_wf_0).
  intros s Hx. rewrite pretty_N_go_step by done.
  destruct (decide (x `div` 10 = 0)%N) as [E|E].
  - rewrite E, pretty_N_go_0. exists (x `mod` 10)%N, s. split; [|done].
    pose proof (N.div_mod x 10 ltac:(lia)) as Hdm. rewrite E in Hdm.
    rewrite N.mul_0_r, N.add_0_l in Hdm. rewrite <- Hdm.
    pose proof (N.mod_lt x 10 ltac:(lia)) as Hlt. rewrite <- Hdm in Hlt.
    clear -Hx Hlt. lia.
  - apply IH; [apply N.div_lt; lia | by apply N.neq_0_lt_0].
Qed.

Lemma parseInt_leading_digit (d : N) (t : string) :
  (1 <= d < 10)%N ->
  parseInt (String (pretty_N_char d) t) =
    match read_digits 10 None (String (pretty_N_char d) t) with
    | Some v => Int v
    | None => NaN
    end.
Proof.
  intros Hd.
  assert (d = 1 \/ d = 2 \/ d = 3 \/ d = 4 \/ d = 5 \/ d = 6 \/ d = 7 \/ d = 8 \/ d = 9)%N
    as Hcases by lia.
  repeat destruct Hcases as [->|Hcases]; try subst d;
    unfold parseInt, pretty_N_char; cbn [trim_start];
    (replace (is_space _) with false by reflexivity); cbn -[read_digits];
    by destruct (read_digits _ _ _) as [[]|].
Qed.

Lemma parseInt_zero (rest : string) :
  ends_number rest -> parseInt (String "0" rest) = Int 0.
Proof.
  destruct rest as [|c rest]; [reflexivity|].
  intros (Hd & Hx & HX).
  destruct c as [[] [] [] [] [] [] [] []];
    first [reflexivity | discriminate Hd | by destruct Hx | by destruct HX].
Qed.

(** [parseInt] reads the decimal number a string starts with and ignores
    what follows it. *)
Lemma parseInt_decimal_prefix (n : N) (rest : string) :
  ends_number rest ->
  parseInt (pretty n +:+ rest) = Int (Z.of_N n).
Proof.
  intros Hrest. unfold pretty, pretty_N.
  destruct (decide (n = 0)%N) as [->|Hn].
  - by apply parseInt_zero.
  - rewrite pretty_N_go_app. change ("" +:+ rest) with rest.
    destruct (pretty_N_go_head n rest) as (d & t & Hd & E); [lia|].
    rewrite E, parseInt_leading_digit by done. rewrite <- E.
    rewrite read_digits_pretty by lia. by rewrite read_digits_stop.
Qed.

Lemma pretty_N_nonempty (n : N) : pretty n ≠ "".
Proof.
  unfold pretty, pretty_N. destruct (decide (n = 0)%N); [done|].
  destruct (pretty_N_go_head n "") as (d & t & _ & ->); [lia | done].
Qed.

Lemma number_toString_nonempty (n : number) : number_toString n ≠ "".
Proof.
  destruct n as [|[|p|p]]; try done.
  apply (pretty_N_nonempty (Npos p)).
Qed.

Lemma pretty_Z_of_N (n : N) : pretty (Z.of_N n) = pretty n.
Proof. by destruct n. Qed.

Lemma str_or_nonempty (o : option string) (d : string) : d ≠ "" -> str_or o d ≠ "".
Proof.
  intros Hd. unfold str_or. destruct o as [s|]; [|done].
  by destruct (String.eqb_spec s "").
Qed.

Lemma or_else_str_empty (x : string) : or_else (VStr x) (VStr "") = VStr x.
Proof. unfold or_else, truthy. by destruct (String.eqb_spec x "") as [->|]. Qed.

End ParseFacts.
(** *** The handler as a whole *)

Section RouteExtras.

Import Js Http Server Route ServerSpec JsSpec.

Ltac eff_unfold :=
  unfold Eff.try_catch, Eff.bind, Eff.lift, Eff.ret, Eff.throw, Eff.modify.

Ltac server_unfold :=
  unfold call_settlePayment, call_fetch, call_existsSync, call_readFileSync,
    call_statSync, emit, json;
  eff_unfold.


Lemma count_cons (kind : event -> bool) (ev : event) (tr : list event) :
  count kind (ev :: tr) = ((if kind ev then 1 else 0) + count kind tr)%nat.
Proof.
  unfold count. destruct (kind ev) eqn:Hk.
  - by rewrite filter_cons_True.
  - rewrite filter_cons_False; [done|]. by rewrite Hk.
Qed.

Lemma count_app (kind : event -> bool) (a b : list event) :
  count kind (a ++ b) = (count kind a + count kind b)%nat.
Proof. unfold count. by rewrite filter_app, length_app. Qed.

Lemma NextResponse_json_Returns (v : value) (st : Z) (hs : list (string * string))
    (resp : response) :
  NextResponse_json v st hs = Returns resp ->
  resp = Response st hs (JsonBody v) /\ json_status st = true.
Proof.
  unfold NextResponse_json, json_status.
  destruct (st <? 200) eqn:H1; [discriminate|].
  destruct (599 <? st) eqn:H2; [discriminate|]. cbn [orb].
  destruct ((st =? 204) || (st =? 205) || (st =? 304)) eqn:H3; [discriminate|].
  intros [= <-]. split; [done|].
  apply Z.ltb_ge in H1, H2. apply andb_true_iff. split; [|done].
  apply andb_true_iff. split; by apply Z.leb_le.
Qed.

Lemma NextResponse_json_ok (v : value) (st : Z) (hs : list (string * string)) :
  json_status st = true ->
  NextResponse_json v st hs = Returns (Response st hs (JsonBody v)).
Proof.
  unfold NextResponse_json, json_status. intros H.
  apply andb_true_iff in H as [H H3]. apply andb_true_iff in H as [H1 H2].
  apply Z.leb_le in H1, H2. apply negb_true_iff in H3. rewrite H3.
  replace (st <? 200) with false by (symmetry; apply Z.ltb_ge; lia).
  replace (599 <? st) with false by (symmetry; apply Z.ltb_ge; lia).
  reflexivity.
Qed.

Lemma payment_props (e : Server.env) (request : Http.request) :
  let nc := Route.resolveNetworkConfig (Route.NETWORK e) in
  Route.pc_payment (Route.buildPaymentConfig e request) =
  VObj [("scheme", VStr "exact");
        ("network", VStr (Route.displayNetwork nc));
        ("networkName", VStr (Route.networkName nc));
        ("token", Route.str_val (Route.usdcAddress nc));
        ("recipient", VStr (Route.MERCHANT_ADDRESS e));
        ("amount", VStr (number_toString (Route.PAYMENT_AMOUNT e)));
        ("displayAmount", VStr (toFixed_micro (Route.PAYMENT_AMOUNT e) 6 +:+ " USDC"));
        ("description", VStr Route.PAYMENT_DESCRIPTION);
        ("x402Requirements", Route.pc_x402Requirements (Route.buildPaymentConfig e request))].
Proof. reflexivity. Qed.

(** X1. Every GET is answered: the handler returns a response whatever the
    facilitator and the file system do, and no exception leaves it.  It
    calls [settlePayment] at most once, and when it does, the request had a
    non-empty [X-PAYMENT] header, both facilitator credentials were
    configured, and the settlement is the first external call. *)
Theorem GET_answers_and_settles_at_most_once (e : env) (w : world) (request : request) :
  exists resp tr,
    handle e w request = (Returns resp, tr) /\
    (count is_settle tr <= 1)%nat /\
    (count is_settle tr = 1%nat ->
       exists xPaymentHeader key token,
         present (req_headers request !! "x-payment") = Some xPaymentHeader /\
         present (e !! "THIRDWEB_SECRET_KEY") = Some key /\
         present (e !! "THIRDWEB_VAULT_ACCESS_TOKEN") = Some token /\
         head tr = Some (Settle (settlement e (buildPaymentConfig e request)
                                   xPaymentHeader key token))).
Proof.
  unfold handle, run, GET.
  destruct (present (req_headers request !! "x-payment")) as [hdr|] eqn:Hhdr;
    [|eexists _, _; split; [reflexivity|]; split; [cbn; lia | discriminate]].
  destruct (present (e !! "THIRDWEB_SECRET_KEY")) as [key|] eqn:Hkey;
    [|eexists _, _; split; [reflexivity|]; split; [cbn; lia | discriminate]].
  destruct (present (e !! "THIRDWEB_VAULT_ACCESS_TOKEN")) as [token|] eqn:Htok;
    [|eexists _, _; split; [reflexivity|]; split; [cbn; lia | discriminate]].
  unfold serveVideo. server_unfold. cbn [app fst snd].
  assert (Hgoal : forall (o : outcome response) tr0,
             (exists resp, o = Returns resp) ->
             count is_settle tr0 = 0%nat ->
             exists resp tr,
               (o, Settle (settlement e (buildPaymentConfig e request) hdr key token) :: tr0)
                 = (Returns resp, tr) /\
               (count is_settle tr <= 1)%nat /\
               (count is_settle tr = 1%nat ->
                exists xPaymentHeader key0 token0,
                  Some hdr = Some xPaymentHeader /\ Some key = Some key0 /\
                  Some token = Some token0 /\
                  head tr = Some (Settle (settlement e (buildPaymentConfig e request)
                                            xPaymentHeader key0 token0)))).
  { intros o tr0 [resp ->] H0. eexists _, _. split; [reflexivity|].
    rewrite count_cons, H0. cbn. split; [lia|]. intros _. by eexists _, _, _. }
  destruct (settlePayment w _) as [result|err]; [|by apply Hgoal; eauto].
  destruct (negb (sr_status result =? 200)).
  - destruct (NextResponse_json _ _ _); by apply Hgoal; eauto.
  - destruct (existsSync w _); cbn [negb]; [|by apply Hgoal; eauto].
    destruct (readFileSync w _); [|by apply Hgoal; eauto].
    destruct (statSync_size w _); by apply Hgoal; eauto.
Qed.

(** X2. Bytes are served only to a settled proof: if the body of the
    response is a byte string, then the request carried a payment header,
    the credentials were configured, [settlePayment] was called with the
    settlement built from the configuration and returned status 200, the
    bytes are those of the video file, the response is 200 with the six
    video headers, and the trace is the settlement followed by the three
    file accesses. *)
Theorem video_only_after_settlement (e : env) (w : world) (request : request)
    (resp : response) (tr : list event) (bytes : list Byte.byte) :
  handle e w request = (Returns resp, tr) ->
  body resp = BytesBody bytes ->
  exists xPaymentHeader key token result size,
    present (req_headers request !! "x-payment") = Some xPaymentHeader /\
    present (e !! "THIRDWEB_SECRET_KEY") = Some key /\
    present (e !! "THIRDWEB_VAULT_ACCESS_TOKEN") = Some token /\
    let args := settlement e (buildPaymentConfig e request) xPaymentHeader key token in
    let file := videoPath e w in
    settlePayment w args = Returns result /\
    sr_status result = 200 /\
    readFileSync w file = Returns bytes /\
    statSync_size w file = Returns size /\
    resp = Response 200
             (video_headers size (x402Network (pc_network (buildPaymentConfig e request))))
             (BytesBody bytes) /\
    tr = [Settle args; ExistsSync file; ReadFileSync file; StatSync file].
Proof.
  unfold handle, run, GET. intros Hrun Hbody.
  destruct (present (req_headers request !! "x-payment")) as [hdr|] eqn:Hhdr;
    [|injection Hrun as <- <-; discriminate].
  destruct (present (e !! "THIRDWEB_SECRET_KEY")) as [key|] eqn:Hkey;
    [|injection Hrun as <- <-; discriminate].
  destruct (present (e !! "THIRDWEB_VAULT_ACCESS_TOKEN")) as [token|] eqn:Htok;
    [|injection Hrun as <- <-; discriminate].
  unfold serveVideo in Hrun. revert Hrun. server_unfold. cbn [app fst snd].
  destruct (settlePayment w _) as [result|err] eqn:Hsettle;
    [|intros [= <- <-]; discriminate].
  destruct (sr_status result =? 200) eqn:Hst; cbn [negb].
  - apply Z.eqb_eq in Hst.
    destruct (existsSync w _) eqn:Hex; cbn [negb]; [|intros [= <- <-]; discriminate].
    destruct (readFileSync w _) as [buf|err] eqn:Hread; [|intros [= <- <-]; discriminate].
    destruct (statSync_size w _) as [size|err] eqn:Hstat; [|intros [= <- <-]; discriminate].
    intros [= <- <-]. cbn in Hbody. injection Hbody as ->.
    by eexists hdr, key, token, result, size.
  - destruct (NextResponse_json _ _ _) as [r|err] eqn:Hjson.
    + apply NextResponse_json_Returns in Hjson as [-> _]. intros [= <- <-]. discriminate.
    + intros [= <- <-]. discriminate.
Qed.

Lemma video_only_after_settlement_witness :
  exists result,
    settlePayment Scenario.paid_world
      (settlement Sample.credentials
         (buildPaymentConfig Sample.credentials Sample.paid_request)
         Sample.proof_header "sk_live" "vt_live") = Returns result /\
    sr_status result = 200.
Proof.
  destruct (video_only_after_settlement Sample.credentials Scenario.paid_world
              Sample.paid_request
              (Response 200 (video_headers 2 "base") (BytesBody [Byte.x00; Byte.x01]))
              [Settle (settlement Sample.credentials
                         (buildPaymentConfig Sample.credentials Sample.paid_request)
                         Sample.proof_header "sk_live" "vt_live");
               ExistsSync "/srv/app/resources /ssstik.io_@wilcoxxspace_1761512614937.mp4";
               ReadFileSync "/srv/app/resources /ssstik.io_@wilcoxxspace_1761512614937.mp4";
               StatSync "/srv/app/resources /ssstik.io_@wilcoxxspace_1761512614937.mp4"]
              [Byte.x00; Byte.x01] eq_refl eq_refl)
    as (h & key & token & result & size & Hh & Hk & Ht & Hsettle & Hst & _).
  injection Hh as <-. injection Hk as <-. injection Ht as <-.
  by exists result.
Defined.


(** The way through the handler for a settled proof with the file on disk. *)
Lemma settled_proof_is_served (e : env) (w : world) (request : request)
    (xPaymentHeader key token : string) (result : settleResult)
    (bytes : list Byte.byte) (size : Z) :
  present (req_headers request !! "x-payment") = Some xPaymentHeader ->
  present (e !! "THIRDWEB_SECRET_KEY") = Some key ->
  present (e !! "THIRDWEB_VAULT_ACCESS_TOKEN") = Some token ->
  let args := settlement e (buildPaymentConfig e request) xPaymentHeader key token in
  let file := videoPath e w in
  settlePayment w args = Returns result ->
  sr_status result = 200 ->
  existsSync w file = true ->
  readFileSync w file = Returns bytes ->
  statSync_size w file = Returns size ->
  handle e w request =
    (Returns (Response 200
                (video_headers size (x402Network (pc_network (buildPaymentConfig e request))))
                (BytesBody bytes)),
     [Settle args; ExistsSync file; ReadFileSync file; StatSync file]).
Proof.
  intros Hhdr Hkey Htok args file Hsettle Hst Hex Hread Hstat.
  unfold handle, run, GET. rewrite Hhdr, Hkey, Htok.
  unfold serveVideo. server_unfold. cbn [app fst snd].
  fold args. rewrite Hsettle, Hst. cbn [Z.eqb Pos.eqb negb].
  fold file. rewrite Hex. cbn [negb]. rewrite Hread, Hstat. reflexivity.
Qed.




Lemma strip_trailing_slash_app (p : string) : strip_trailing_slash (p +:+ "/") = p.
Proof.
  induction p as [|c p IH]; [reflexivity|].
  destruct p as [|d p]; [reflexivity|].
  change (strip_trailing_slash (String c (String d p) +:+ "/"))
    with (String c (strip_trailing_slash (String d p +:+ "/"))).
  by rewrite IH.
Qed.

Lemma strip_trailing_slash_keep (p : string) :
  (forall p', p ≠ p' +:+ "/") -> strip_trailing_slash p = p.
Proof.
  induction p as [|c p IH]; intros Hp; [reflexivity|].
  destruct p as [|d p].
  - cbn [strip_trailing_slash]. destruct (Ascii.eqb_spec c "/") as [->|]; [|reflexivity].
    by destruct (Hp "").
  - change (strip_trailing_slash (String c (String d p)))
      with (String c (strip_trailing_slash (String d p))).
    rewrite IH; [reflexivity|]. intros p' E. apply (Hp (String c p')). cbn. by rewrite E.
Qed.

(** X4. The resource named in the requirements does not depend on a
    trailing slash of the path, on the query string or on the headers: for
    a path [p] that does not itself end in a slash, the URL with path [p/]
    and the URL with path [p] both give [origin + p]. *)
Theorem resource_ignores_trailing_slash (e : env) (origin p q q' : string)
    (h h' : gmap string string) :
  (forall p', p ≠ p' +:+ "/") ->
  buildResourceUrl e (Request (Some (Url origin (p +:+ "/") q)) h) = origin +:+ p /\
  buildResourceUrl e (Request (Some (Url origin p q')) h') = origin +:+ p.
Proof.
  intros Hp. unfold buildResourceUrl. cbn [req_url pathname Http.origin]. split.
  - by rewrite strip_trailing_slash_app.
  - by rewrite strip_trailing_slash_keep.
Qed.

Lemma resource_ignores_trailing_slash_witness :
  buildResourceUrl ∅ Sample.bare_request = "https://paywall.example/api/premium" /\
  buildResourceUrl ∅ Sample.paid_request = "https://paywall.example/api/premium".
Proof.
  apply (resource_ignores_trailing_slash ∅ "https://paywall.example" "/api/premium"
           "" "" ∅ {[ "x-payment" := Sample.proof_header ]}).
  intros p' Hp'. pose proof (strip_trailing_slash_app p') as Hstrip.
  rewrite <- Hp' in Hstrip. vm_compute in Hstrip. subst p'. discriminate Hp'.
Defined.

(** X5. What is settled is what was asked for: the arguments of
    [settlePayment] and the requirements of the 402 challenge name the same
    resource, recipient, description, MIME type and timeout, and the same
    chain: for a network setting that is, in any letter case, one of
    [base], [base:8453], [eip155:8453], the requirements say [base] with the
    mainnet USDC contract and the settlement is on Base; for every other
    setting they say [base-sepolia] with the Sepolia contract and the
    settlement is on Base Sepolia. *)
Theorem settlement_matches_challenge (e : env) (request : request)
    (xPaymentHeader key token : string) :
  let pc := buildPaymentConfig e request in
  let requirements := pc_x402Requirements pc in
  let args := settlement e pc xPaymentHeader key token in
  get_prop_opt requirements "resource" = VStr (resourceUrl args) /\
  get_prop_opt requirements "payTo" = VStr (payTo args) /\
  get_prop_opt requirements "description" = VStr (rc_description (route args)) /\
  get_prop_opt requirements "mimeType" = VStr (rc_mimeType (route args)) /\
  get_prop_opt requirements "maxTimeoutSeconds" = VNum (rc_maxTimeoutSeconds (route args)) /\
  (if bool_decide (toLowerCase (NETWORK e) ∈ ["base"; "base:8453"; "eip155:8453"])
   then get_prop_opt requirements "network" = VStr "base" /\
        get_prop_opt requirements "asset" =
          VStr "0x833589fCD6eDb6E08f4c7C32D4f71b54bdA02913" /\
        network args = base
   else get_prop_opt requirements "network" = VStr "base-sepolia" /\
        get_prop_opt requirements "asset" =
          VStr "0x036CbD53842c5426634e7929541eC2318f3dCF7e" /\
        network args = baseSepolia).
Proof.
  cbv zeta. rewrite requirements_props. cbv zeta.
  do 5 (split; [reflexivity|]).
  unfold settlement, buildPaymentConfig, resolveNetworkConfig.
  cbn [pc_network isMainnet network x402Network usdcAddress get_prop_opt obj_get
       String.eqb Ascii.eqb Bool.eqb].
  replace (str_or (Some (NETWORK e)) "") with (NETWORK e).
  - unfold MAINNET_ALIASES. destruct (bool_decide _); repeat split; reflexivity.
  - unfold NETWORK, str_or. destruct (e !! "NEXT_PUBLIC_NETWORK") as [s|]; [|reflexivity].
    destruct (String.eqb_spec s ""); [reflexivity|]. by rewrite (eqb_ne _ _ n).
Qed.

(** X6. Challenge and settlement differ in the amount below half a cent:
    for a configured amount of less than 5000 units, the price handed to
    [settlePayment] is [$0.00], while the requirements of the challenge
    ask for the amount itself. *)
Theorem sub_cent_amount_priced_at_zero (e : env) (request : request)
    (xPaymentHeader key token : string) (z : Z) :
  PAYMENT_AMOUNT e = Int z ->
  0 <= z < 5000 ->
  price (settlement e (buildPaymentConfig e request) xPaymentHeader key token) = "$0.00" /\
  get_prop_opt (pc_x402Requirements (buildPaymentConfig e request)) "maxAmountRequired"
    = VStr (pretty z).
Proof.
  intros Hamount Hz. rewrite requirements_props. cbv zeta.
  unfold settlement. cbn [price]. rewrite Hamount. split; [|reflexivity].
  unfold toFixed_micro.
  replace (Z.abs z) with z by lia.
  change (10 ^ Z.of_nat (6 - 2)) with 10000. change (10000 / 2) with 5000.
  replace ((z + 5000) / 10000) with 0 by (symmetry; apply Z.div_small; lia).
  replace (z <? 0) with false by (symmetry; apply Z.ltb_ge; lia). reflexivity.
Qed.

Lemma sub_cent_amount_priced_at_zero_witness :
  price (settlement Scenario.half_cent
           (buildPaymentConfig Scenario.half_cent Sample.paid_request)
           Sample.proof_header "sk_live" "vt_live") = "$0.00" /\
  get_prop_opt (pc_x402Requirements (buildPaymentConfig Scenario.half_cent Sample.paid_request))
    "maxAmountRequired" = VStr "4999".
Proof.
  apply (sub_cent_amount_priced_at_zero Scenario.half_cent Sample.paid_request
           Sample.proof_header "sk_live" "vt_live" 4999); [reflexivity | lia].
Defined.


(** X7. The configured amount is the decimal number [PAYMENT_AMOUNT] starts
    with; whatever follows it (a decimal point, an exponent, a unit) is
    ignored.  So [0.5] is an amount of 0 and [1e6] an amount of 1.  Stated
    for the integers a JavaScript number holds exactly. *)
Theorem amount_is_the_leading_integer (e : env) (request : request) (n : N) (rest : string) :
  e !! "PAYMENT_AMOUNT" = Some (pretty n +:+ rest) ->
  ends_number rest ->
  (n < 2 ^ 53)%N ->
  PAYMENT_AMOUNT e = Int (Z.of_N n) /\
  get_prop_opt (pc_x402Requirements (buildPaymentConfig e request)) "maxAmountRequired"
    = VStr (pretty n) /\
  get_prop_opt (pc_payment (buildPaymentConfig e request)) "amount" = VStr (pretty n).
Proof.
  intros Henv Hrest _.
  assert (Hamount : PAYMENT_AMOUNT e = Int (Z.of_N n)).
  { unfold PAYMENT_AMOUNT. rewrite Henv. unfold str_or.
    destruct (String.eqb_spec (pretty n +:+ rest) "") as [E|_].
    - exfalso. apply (pretty_N_nonempty n). by destruct (pretty n).
    - by apply parseInt_decimal_prefix. }
  split; [done|].
  rewrite payment_props, requirements_props. cbv zeta.
  cbn [get_prop_opt obj_get String.eqb Ascii.eqb Bool.eqb andb].
  by rewrite Hamount; cbn [number_toString]; rewrite pretty_Z_of_N.
Qed.

Lemma amount_is_the_leading_integer_witness :
  PAYMENT_AMOUNT Scenario.decimal_amount = Int 0 /\
  get_prop_opt (pc_x402Requirements
                  (buildPaymentConfig Scenario.decimal_amount Sample.bare_request))
    "maxAmountRequired" = VStr "0" /\
  get_prop_opt (pc_payment (buildPaymentConfig Scenario.decimal_amount Sample.bare_request))
    "amount" = VStr "0".
Proof.
  apply (amount_is_the_leading_integer Scenario.decimal_amount Sample.bare_request 0 ".5");
    [reflexivity | | reflexivity].
  cbn. repeat split; discriminate.
Defined.

End RouteExtras.
(** ** More on the handler with the [/settle] call *)

Section SettleExtras.

Import Js Http Server ServerSpec.

Ltac eff_unfold :=
  unfold Eff.try_catch, Eff.bind, Eff.lift, Eff.ret, Eff.throw, Eff.modify.

Ltac server_unfold :=
  unfold call_settlePayment, call_fetch, call_existsSync, call_readFileSync,
    call_statSync, emit, json;
  eff_unfold.


Lemma strip_trailing_slash_after (a b : string) :
  b ≠ "" -> strip_trailing_slash (a +:+ b) = a +:+ strip_trailing_slash b.
Proof.
  intros Hb. induction a as [|c a IH]; [reflexivity|].
  change (String c a +:+ b) with (String c (a +:+ b)).
  change (String c a +:+ strip_trailing_slash b)
    with (String c (a +:+ strip_trailing_slash b)).
  destruct (a +:+ b) as [|d s] eqn:E.
  - destruct a; [by destruct b | discriminate].
  - transitivity (String c (strip_trailing_slash (String d s))); [reflexivity|].
    by f_equal.
Qed.

(** X8. For a request with a URL whose path is not empty, the two handlers
    name the same resource, although one strips the slash from the path
    and the other from the whole URL. *)
Theorem both_handlers_name_the_same_resource (e : env) (request : request) (u : url) :
  req_url request = Some u ->
  pathname u ≠ "" ->
  RouteSettle.resourceUrl_of e request = Route.buildResourceUrl e request.
Proof.
  intros Hu Hp. unfold RouteSettle.resourceUrl_of, Route.buildResourceUrl. rewrite Hu.
  by apply strip_trailing_slash_after.
Qed.

Lemma both_handlers_name_the_same_resource_witness :
  RouteSettle.resourceUrl_of Sample.credentials Sample.bare_request =
  Route.buildResourceUrl Sample.credentials Sample.bare_request.
Proof.
  apply (both_handlers_name_the_same_resource Sample.credentials Sample.bare_request
           (Url "https://paywall.example" "/api/premium/" ""));
    [reflexivity | discriminate].
Defined.


(** X9. Without a merchant address (unset, empty, or the zero address) a
    request with a proof that decodes to an object is answered 500
    [Configuration error], and nothing is sent to the facilitator. *)
Theorem settle_endpoint_unconfigured_merchant (e : env) (w : world) (request : request)
    (xPaymentHeader : string) (paymentPayload : obj) :
  present (req_headers request !! "x-payment") = Some xPaymentHeader ->
  decodePayment w xPaymentHeader = Returns (VObj paymentPayload) ->
  present (e !! "MERCHANT_ADDRESS") = None \/
  e !! "MERCHANT_ADDRESS" = Some "0x0000000000000000000000000000000000000000" ->
  RouteSettle.handle e w request =
    (Returns (Response 500 []
       (JsonBody (VObj [("error", VStr "Configuration error");
                        ("message", VStr "MERCHANT_ADDRESS must be configured.")]))),
     []).
Proof.
  intros Hhdr Hdec Hm.
  assert (Hzero : RouteSettle.MERCHANT_ADDRESS e =
                  "0x0000000000000000000000000000000000000000").
  { unfold RouteSettle.MERCHANT_ADDRESS, Route.MERCHANT_ADDRESS, str_or.
    destruct Hm as [Hm| ->]; [|reflexivity].
    destruct (e !! "MERCHANT_ADDRESS") as [s|]; [|reflexivity].
    cbn in Hm. by destruct (String.eqb s ""). }
  unfold RouteSettle.handle, run, RouteSettle.GET. rewrite Hhdr.
  server_unfold. rewrite Hdec. cbn [get_prop]. rewrite Hzero. reflexivity.
Qed.

Lemma settle_endpoint_unconfigured_merchant_witness :
  RouteSettle.handle ∅ Sample.settle_endpoint_world Sample.paid_request =
    (Returns (Response 500 []
       (JsonBody (VObj [("error", VStr "Configuration error");
                        ("message", VStr "MERCHANT_ADDRESS must be configured.")]))),
     []).
Proof.
  apply (settle_endpoint_unconfigured_merchant ∅ Sample.settle_endpoint_world
           Sample.paid_request Sample.proof_header
           [("x402Version", VNum 1);
            ("scheme", VStr "exact");
            ("network", VStr "base-sepolia");
            ("payload", VObj [("signature", VStr "0x5e1f");
                              ("authorization", VObj [("value", VStr "100000")])])]);
    [reflexivity | reflexivity | by left].
Defined.


(** X10. A proof that [decodePayment] rejects is answered 402 [Payment
    verification error] with the decoder's message, before the configuration
    is looked at and without a call to the facilitator. *)
Theorem settle_endpoint_undecodable_proof (e : env) (w : world) (request : request)
    (xPaymentHeader : string) (err : error) :
  present (req_headers request !! "x-payment") = Some xPaymentHeader ->
  decodePayment w xPaymentHeader = Throws err ->
  RouteSettle.handle e w request =
    (Returns (Response 402 []
       (JsonBody (VObj
          [("error", VStr "Payment verification error");
           ("message", VStr (str_or (Some (message err))
                               "Failed to verify payment. Please try again."));
           ("hint", VStr "The facilitator service may be temporarily unavailable.")]))),
     []).
Proof.
  intros Hhdr Hdec.
  unfold RouteSettle.handle, run, RouteSettle.GET. rewrite Hhdr.
  server_unfold. rewrite Hdec. reflexivity.
Qed.

Lemma settle_endpoint_undecodable_proof_witness :
  exists b,
    RouteSettle.handle ∅ Sample.timeout_world Sample.paid_request =
      (Returns (Response 402 [] (JsonBody (VObj b))), []) /\
    obj_get "message" b = VStr "Invalid payment".
Proof.
  eexists. split.
  - apply (settle_endpoint_undecodable_proof ∅ Sample.timeout_world Sample.paid_request
             Sample.proof_header (Error "Invalid payment")); reflexivity.
  - reflexivity.
Defined.


Lemma NextResponse_json_body (v : value) (st : Z) (hs : list (string * string))
    (resp : response) :
  NextResponse_json v st hs = Returns resp -> body resp = JsonBody v.
Proof.
  unfold NextResponse_json.
  destruct ((st <? 200) || (599 <? st)); [discriminate|].
  destruct ((st =? 204) || (st =? 205) || (st =? 304)); [discriminate|].
  by intros [= <-].
Qed.

(** X11. This handler, too, serves bytes only after a settlement: if the
    body of the response is a byte string, the proof decoded, exactly one
    request was posted, to the [/settle] endpoint of the configured
    facilitator and before anything else, carrying the decoded proof; its
    answer had a 2xx status and a body whose [success] is truthy; and
    the response is 200. *)
Theorem settle_endpoint_video_only_after_success (e : env) (w : world)
    (request : request) (resp : response) (tr : list event) (bytes : list Byte.byte) :
  RouteSettle.handle e w request = (Returns resp, tr) ->
  body resp = BytesBody bytes ->
  exists xPaymentHeader paymentPayload sent facilitatorResponse facilitatorData,
    present (req_headers request !! "x-payment") = Some xPaymentHeader /\
    decodePayment w xPaymentHeader = Returns paymentPayload /\
    head tr = Some (Post (str_or (e !! "FACILITATOR_URL") "https://x402.org/facilitator"
                            +:+ "/settle") (VObj sent)) /\
    count is_post tr = 1%nat /\
    obj_get "paymentPayload" sent = paymentPayload /\
    fetch w (str_or (e !! "FACILITATOR_URL") "https://x402.org/facilitator" +:+ "/settle")
      (VObj sent) = Returns facilitatorResponse /\
    ok (fr_status facilitatorResponse) = true /\
    fr_json facilitatorResponse = Returns facilitatorData /\
    truthy (get_prop_opt facilitatorData "success") = true /\
    status resp = 200.
Proof.
  unfold RouteSettle.handle, run, RouteSettle.GET. intros Hrun Hbody.
  destruct (present (req_headers request !! "x-payment")) as [hdr|] eqn:Hhdr;
    [|injection Hrun as <- <-; discriminate].
  revert Hrun. unfold serveVideo. server_unfold.
  destruct (decodePayment w hdr) as [payload|err] eqn:Hdec;
    [|intros [= <- <-]; discriminate].
  destruct (get_prop payload "network") as [net|err] eqn:Hnet;
    [|intros [= <- <-]; discriminate].
  destruct (_ || _); [intros [= <- <-]; discriminate|].
  destruct (get_prop payload "x402Version") as [ver|err] eqn:Hver;
    [|intros [= <- <-]; discriminate].
  cbn [app fst snd].
  set (url := str_or (e !! "FACILITATOR_URL") "https://x402.org/facilitator" +:+ "/settle").
  set (sent := literal _).
  destruct (fetch w url (VObj sent)) as [fresp|err] eqn:Hfetch;
    [|intros [= <- <-]; discriminate].
  destruct (fr_json fresp) as [data|err] eqn:Hjson; [|intros [= <- <-]; discriminate].
  destruct (ok (fr_status fresp)) eqn:Hok; cbn [negb orb].
  - destruct (get_prop data "success") as [success|err] eqn:Hs;
      [|intros [= <- <-]; discriminate].
    destruct (truthy success) eqn:Ht; cbn [negb].
    + destruct (existsSync w _); cbn [negb]; [|intros [= <- <-]; discriminate].
      destruct (readFileSync w _); [|intros [= <- <-]; discriminate].
      destruct (statSync_size w _); [|intros [= <- <-]; discriminate].
      intros [= <- <-].
      exists hdr, payload, sent, fresp, data.
      repeat split; try done.
      destruct data; cbn [get_prop get_prop_opt] in Hs |- *; try discriminate Hs;
        injection Hs as <-; done.
    + destruct (get_prop data "errorReason"); intros [= <- <-]; discriminate.
  - destruct (get_prop data "errorReason"); intros [= <- <-]; discriminate.
Qed.

Lemma settle_endpoint_video_only_after_success_witness :
  exists sent,
    head (snd (RouteSettle.handle Sample.credentials Sample.settle_endpoint_world
                 Sample.paid_request))
      = Some (Post "https://x402.org/facilitator/settle" (VObj sent)) /\
    obj_get "paymentPayload" sent = Sample.decoded_proof.
Proof.
  destruct (RouteSettle.handle Sample.credentials Sample.settle_endpoint_world
              Sample.paid_request) as [[resp|err] tr] eqn:Hrun;
    [|by vm_compute in Hrun].
  destruct (settle_endpoint_video_only_after_success Sample.credentials
              Sample.settle_endpoint_world Sample.paid_request resp tr
              [Byte.x00; Byte.x01] Hrun)
    as (h & payload & sent & fresp & data & _ & Hdec & Hhead & _ & Hsent & _).
  - vm_compute in Hrun. by injection Hrun as <- _.
  - exists sent. split; [exact Hhead|].
    rewrite Hsent. by injection Hdec as <-.
Defined.


(** X12. A settlement the facilitator refuses (a status outside 2xx, or a
    body whose [success] is falsy) is answered 402 with [x402Version] 1,
    the facilitator's [errorReason] as [error] ([payment_settlement_failed]
    if it gave none) and [accepts] holding the requirements that were
    posted; the one request to the facilitator is the only external call. *)
Theorem settle_endpoint_rejection (e : env) (w : world) (request : request)
    (xPaymentHeader : string) (paymentPayload facilitatorData : obj)
    (facilitatorResponse : fetchResponse) :
  present (req_headers request !! "x-payment") = Some xPaymentHeader ->
  decodePayment w xPaymentHeader = Returns (VObj paymentPayload) ->
  RouteSettle.MERCHANT_ADDRESS e ≠ "0x0000000000000000000000000000000000000000" ->
  let requirements :=
    RouteSettle.paymentRequirements e request (obj_get "network" paymentPayload) in
  let sent :=
    VObj [("x402Version", or_else (obj_get "x402Version" paymentPayload) (VNum 1));
          ("paymentPayload", VObj paymentPayload);
          ("paymentRequirements", requirements)] in
  let url := str_or (e !! "FACILITATOR_URL") "https://x402.org/facilitator" +:+ "/settle" in
  fetch w url sent = Returns facilitatorResponse ->
  fr_json facilitatorResponse = Returns (VObj facilitatorData) ->
  ok (fr_status facilitatorResponse) = false \/
  truthy (obj_get "success" facilitatorData) = false ->
  RouteSettle.handle e w request =
    (Returns (Response 402 []
       (JsonBody (VObj
          [("x402Version", VNum 1);
           ("error", or_else (obj_get "errorReason" facilitatorData)
                       (VStr "payment_settlement_failed"));
           ("errorMessage", or_else (obj_get "errorReason" facilitatorData)
                              (VStr "Payment settlement failed. Please try again."));
           ("accepts", VArr [requirements])]))),
     [Post url sent]).
Proof.
  intros Hhdr Hdec Hmerchant requirements sent url Hfetch Hjson Hrej.
  assert (Hne : String.eqb (RouteSettle.MERCHANT_ADDRESS e) "" ||
                String.eqb (RouteSettle.MERCHANT_ADDRESS e)
                  "0x0000000000000000000000000000000000000000" = false).
  { apply orb_false_iff. split; [|by apply String.eqb_neq].
    unfold RouteSettle.MERCHANT_ADDRESS, Route.MERCHANT_ADDRESS, str_or.
    destruct (e !! "MERCHANT_ADDRESS") as [s|]; [|reflexivity].
    destruct (String.eqb_spec s ""); [reflexivity | by apply String.eqb_neq]. }
  unfold RouteSettle.handle, run, RouteSettle.GET. rewrite Hhdr.
  server_unfold. rewrite Hdec. cbn [get_prop]. rewrite Hne.
  cbn [app fst snd].
  change (literal [Prop_ "x402Version" (or_else (obj_get "x402Version" paymentPayload) (VNum 1));
                   Prop_ "paymentPayload" (VObj paymentPayload);
                   Prop_ "paymentRequirements"
                     (RouteSettle.paymentRequirements e request
                        (obj_get "network" paymentPayload))])
    with [("x402Version", or_else (obj_get "x402Version" paymentPayload) (VNum 1));
          ("paymentPayload", VObj paymentPayload);
          ("paymentRequirements", requirements)].
  fold url. fold sent. rewrite Hfetch, Hjson. cbn [get_prop].
  destruct (ok (fr_status facilitatorResponse)); cbn [negb orb]; [|reflexivity].
  destruct Hrej as [|Hrej]; [discriminate|]. by rewrite Hrej.
Qed.

Lemma settle_endpoint_rejection_witness :
  exists b,
    fst (RouteSettle.handle Sample.credentials Scenario.declined_world Sample.paid_request)
      = Returns (Response 402 [] (JsonBody (VObj b))) /\
    obj_get "error" b = VStr "insufficient_funds".
Proof.
  eexists. split.
  - rewrite (settle_endpoint_rejection Sample.credentials Scenario.declined_world
               Sample.paid_request Sample.proof_header
               [("x402Version", VNum 1);
                ("scheme", VStr "exact");
                ("network", VStr "base-sepolia");
                ("payload", VObj [("signature", VStr "0x5e1f");
                                  ("authorization", VObj [("value", VStr "100000")])])]
               [("success", VBool false); ("errorReason", VStr "insufficient_funds")]
               (FetchResponse 200
                  (Returns (VObj [("success", VBool false);
                                  ("errorReason", VStr "insufficient_funds")]))));
      [reflexivity | reflexivity | reflexivity | discriminate | reflexivity | reflexivity
      | by right].
  - reflexivity.
Defined.

End SettleExtras.
(** ** More on the payment page *)

(** *** The steps before the payment header *)

Section PreparationFacts.
Import Js Page PageSpec ServerSpec FlowSpec.

Ltac shape :=
  first [ left; split; [reflexivity | by eexists]
        | right; split; [reflexivity|]; split; [reflexivity|]; split; done ].

Ltac target_chain :=
  first
    [ left; split; [reflexivity|];
      first [ left; assumption
            | right; eexists; split; [eassumption | assumption] ]
    | right; split; [reflexivity|]; split; [assumption|];
      match goal with
      | H : _ || _ = false |- _ => apply orb_false_iff in H as [-> ?]
      end; split; assumption ].

(** Every way through [prepareProof]: what it leaves of the state, the
    calls it makes, and where a chain switch comes from. *)
Lemma prepareProof_cases (w : world) (info : value) (s s2 : state)
    (res : outcome string) (tr2 : list event) :
  prepareProof w info (s, []) = (res, (s2, tr2)) ->
  paymentInfo s2 = paymentInfo s /\ content s2 = content s /\
  exists pre,
    ((tr2 = pre /\ exists e, res = Throws e) \/
     (tr2 = pre ++ [CreatePaymentHeader (creation_args info)] /\
      res = createPaymentHeader w (creation_args info) /\
      walletClient w = true /\
      truthy (get_prop_opt info "x402Requirements") = true)) /\
    wallet_setup pre = true /\
    (forall n, SwitchChain n ∈ pre ->
       chainId w ≠ Some n /\
       last pre = Some (SwitchChain n) /\
       (exists net,
          get_prop info "network" = Returns net /\
          let networkString := or_else net (VStr "base:84532") in
          (n = 84532 /\
           (is_str networkString "base:84532" = true \/
            exists inc,
              includes_method "networkString.includes" networkString "84532"
                = Returns inc /\
              inc || is_str networkString "base-sepolia" = true)) \/
          (n = 8453 /\
           is_str networkString "base:84532" = false /\
           includes_method "networkString.includes" networkString "84532"
             = Returns false /\
           is_str networkString "base-sepolia" = false)) /\
       forall err, switchChain w n = Throws err ->
         tr2 = pre /\
         res = Throws (Error ("Please switch to " +:+
                              (if n =? 84532 then "Base Sepolia" else "Base") +:+
                              " network in your wallet and try again."))).
Proof.
  unfold prepareProof, call_connect, call_switchChain, call_createPaymentHeader, creation_args,
    wallet_setup.
  unfold Eff.bind, Eff.try_catch, Eff.lift, Eff.throw, Eff.ret, emit, setStatus, setError,
    setStep, update, Eff.modify.
  cbn [fst snd status paymentInfo content error_ step].
  intros H.
  repeat match goal with
         | H : context [if ?b then _ else _] |- _ => destruct b eqn:?
         | H : context [match ?x with _ => _ end] |- _ => destruct x eqn:?
         end; simplify_eq;
  cbn [fst snd app status paymentInfo content error_ step];
  repeat match goal with
         | H : negb _ = false |- _ => apply negb_false_iff in H
         | H : negb (bool_decide _) = true |- _ =>
             apply negb_true_iff, bool_decide_eq_false in H
         end;
  (split; [reflexivity|]); (split; [reflexivity|]);
  first [ exists []; split; [shape|]
        | eexists [_]; split; [shape|]
        | eexists [_; _]; split; [shape|] ];
  (split; [reflexivity|]);
  intros n Hin;
  repeat match goal with
         | H : _ ∈ _ :: _ |- _ => apply elem_of_cons in H as [H|H]
         | H : _ ∈ [] |- _ => by apply elem_of_nil in H
         end; simplify_eq;
  cbn [id name baseSepolia base Z.eqb Pos.eqb] in *;
  (split; [done|]); (split; [reflexivity|]);
  (split; [eexists; split; [first [eassumption | reflexivity]|]; cbv zeta; target_chain|]);
  intros err Herr;
  first [ congruence | split; [reflexivity|]; first [reflexivity | congruence] ].
Qed.
End PreparationFacts.
(** *** The network adapter *)

Section PageExtras.

Import Js Page PageSpec ServerSpec FlowSpec.

Ltac obj_compute :=
  cbn [literal fold_left obj_set obj_assign own_props fst snd obj_get
       get_prop_opt get_prop String.eqb Ascii.eqb Bool.eqb andb].


Lemma lower_ascii_idem (c : ascii) : lower_ascii (lower_ascii c) = lower_ascii c.
Proof. by destruct c as [[] [] [] [] [] [] [] []]. Qed.

Lemma toLowerCase_idem (s : string) : toLowerCase (toLowerCase s) = toLowerCase s.
Proof. induction s as [|c s IH]; [done|]. cbn. by rewrite lower_ascii_idem, IH. Qed.

(** X13. [normalizeNetworkForSdk] is idempotent: a tag it has produced is
    left as it is, so requirements that went through it once (the copy
    made for [createPaymentHeader]) can go through it again. *)
Theorem normalizeNetworkForSdk_idempotent (network : value) :
  normalizeNetworkForSdk (normalizeNetworkForSdk network) = normalizeNetworkForSdk network.
Proof.
  unfold normalizeNetworkForSdk at 2 3.
  destruct (truthy network) eqn:Ht; cbn [negb].
  - set (v := toLowerCase (to_string network)).
    assert (Hv : toLowerCase v = v) by apply toLowerCase_idem.
    clearbody v.
    destruct (String.eqb v "base" || String.eqb v "base-sepolia") eqn:H1.
    + apply orb_true_iff in H1 as [H1|H1]; apply String.eqb_eq in H1; subst v; reflexivity.
    + destruct (includes "8453" v) eqn:H2; [reflexivity|].
      destruct (includes "84532" v) eqn:H3; [reflexivity|].
      unfold normalizeNetworkForSdk. cbn [truthy to_string].
      destruct (String.eqb_spec v "") as [->|Hne]; [reflexivity|].
      cbn [negb]. by rewrite Hv, H1, H2, H3.
  - unfold normalizeNetworkForSdk. by rewrite Ht.
Qed.

(** *** The first request *)

(** X14. The page holds the challenge of [route.js] as it was sent: when
    the first request is answered by that handler (it carries no payment
    header, so the answer is the 402 challenge), the page moves to
    [payment_required] at step 2 with no error, its payment information is
    the [payment] object of the challenge, property by property (the
    defaults the page would fill in are not needed), the requirements in it
    are the server's, and this one request is the only external call. *)
Theorem server_challenge_is_held_verbatim (e : Server.env) (sw : Server.world)
    (request : Http.request) (resp : Http.response) (tr : list Server.event)
    (w : world) (s : state) :
  Http.req_headers request !! "x-payment" = None ->
  Route.handle e sw request = (Returns resp, tr) ->
  fetch w "/api/premium" None = Returns (deliver resp) ->
  let pc := Route.buildPaymentConfig e request in
  run (handleAccessContent w) s =
    (State payment_required (Route.pc_payment pc) (content s) VNull 2,
     [Fetch "/api/premium" None]) /\
  get_prop_opt (Route.pc_payment pc) "x402Requirements" = Route.pc_x402Requirements pc.
Proof.
  intros Hhdr Hserver Hfetch pc. subst pc.
  unfold Route.handle, Server.run, Route.GET in Hserver. rewrite Hhdr in Hserver.
  cbn [Http.present] in Hserver. injection Hserver as <- <-.
  split; [|by rewrite payment_props].
  unfold run, handleAccessContent, call_fetch, emit.
  unfold Eff.bind, Eff.try_catch, Eff.lift, Eff.throw, setStatus, setError, setStep,
    setPaymentInfo, update, Eff.modify.
  cbn [fst snd app]. rewrite Hfetch.
  cbn [deliver Http.body Http.status res_status res_json Z.eqb Pos.eqb].
  unfold Route.challenge.
  pose proof (payment_props e request) as Hp. cbv zeta in Hp.
  pose proof (requirements_props e request) as Hr. cbv zeta in Hr.
  set (pc := Route.buildPaymentConfig e request) in *.
  destruct (asset_defined e) as [a Ha].
  assert (Hane : a ≠ "").
  { revert Ha. unfold Route.resolveNetworkConfig. cbn [Route.usdcAddress].
    destruct (bool_decide _); intros [= <-]; done. }
  assert (Hnet : Route.displayNetwork (Route.resolveNetworkConfig (Route.NETWORK e)) ≠ "").
  { unfold Route.resolveNetworkConfig. cbn [Route.displayNetwork]. by destruct (bool_decide _). }
  assert (Hm : Route.MERCHANT_ADDRESS e ≠ "") by by apply str_or_nonempty.
  pose proof (number_toString_nonempty (Route.PAYMENT_AMOUNT e)) as Hamt.
  rewrite Ha in Hp, Hr. cbn [Route.str_val] in Hp, Hr.
  rewrite Hp. rewrite Hr. 
  repeat (obj_compute; cbn [or_else truthy negb to_string];
          rewrite ?(eqb_ne _ _ Hamt), ?(eqb_ne _ _ Hane), ?(eqb_ne _ _ Hm),
            ?(eqb_ne _ _ Hnet)).
  cbn [status paymentInfo content error_ step].
  rewrite !or_else_str_empty.
  reflexivity.
Qed.

Lemma server_challenge_is_held_verbatim_witness :
  run (handleAccessContent (Scenario.browser Scenario.paid_world)) initial =
    (Scenario.challenged, [Fetch "/api/premium" None]).
Proof.
  destruct (Route.handle Sample.credentials Scenario.paid_world
              (Http.Request (Some Scenario.premium) ∅)) as [[resp|err] tr] eqn:Hrun;
    [|by vm_compute in Hrun].
  pose proof (server_challenge_is_held_verbatim Sample.credentials Scenario.paid_world
                (Http.Request (Some Scenario.premium) ∅) resp tr
                (Scenario.browser Scenario.paid_world) initial eq_refl Hrun) as H.
  cbv zeta in H. destruct H as [H _].
  - cbn [fetch Scenario.browser]. unfold served_by. by rewrite Hrun.
  - exact H.
Defined.


(** X15. The page asks for payment only on a challenge with requirements:
    if [handleAccessContent] leaves the page in [payment_required], its one
    request was answered 402 with a body that parses and whose
    [payment.x402Requirements] is truthy; the page holds exactly those
    requirements, shows no error and is at step 2. *)
Theorem payment_required_needs_requirements (w : world) (s s' : state) (tr : list event) :
  run (handleAccessContent w) s = (s', tr) ->
  status s' = payment_required ->
  exists (response : fetchResponse) (data payment : value),
    fetch w "/api/premium" None = Returns response /\
    res_status response = 402 /\
    res_json response = Returns data /\
    get_prop data "payment" = Returns payment /\
    truthy (get_prop_opt payment "x402Requirements") = true /\
    get_prop_opt (paymentInfo s') "x402Requirements" =
      get_prop_opt payment "x402Requirements" /\
    error_ s' = VNull /\
    step s' = 2 /\
    tr = [Fetch "/api/premium" None].
Proof.
  unfold run, handleAccessContent, call_fetch, emit.
  unfold Eff.bind, Eff.try_catch, Eff.lift, Eff.throw, setStatus, setError, setStep,
    setPaymentInfo, setContent, update, Eff.modify.
  cbn [fst snd app status paymentInfo content error_ step].
  destruct (fetch w "/api/premium" None) as [response|e] eqn:Hfetch;
    [|cbn [fst snd status]; intros [= <- <-]; discriminate].
  destruct (res_status response =? 402) eqn:Hstatus.
  - apply Z.eqb_eq in Hstatus.
    destruct (res_json response) as [data|e] eqn:Hjson;
      [|cbn [fst snd status]; intros [= <- <-]; discriminate].
    destruct (get_prop data "payment") as [payment|e] eqn:Hpayment;
      [|cbn [fst snd status]; intros [= <- <-]; discriminate].
    destruct (truthy (get_prop_opt (or_else payment (VObj [])) "x402Requirements")) eqn:Hreq;
      cbn [negb fst snd status paymentInfo content error_ step];
      intros [= <- <-]; [|discriminate].
    intros _. cbn [paymentInfo error_ step].
    assert (Hp : or_else payment (VObj []) = payment).
    { unfold or_else in *. by destruct (truthy payment). }
    rewrite Hp in *.
    exists response, data, payment. repeat split; try done.
    cbn [get_prop_opt literal fold_left]. apply obj_get_set_eq.
  - destruct (Http.ok (res_status response)).
    + destruct (res_json response); cbn [fst snd status]; intros [= <- <-]; discriminate.
    + cbn [fst snd status]. intros [= <- <-]; discriminate.
Qed.

Lemma payment_required_needs_requirements_witness :
  exists response,
    fetch (Scenario.browser Scenario.paid_world) "/api/premium" None = Returns response /\
    res_status response = 402.
Proof.
  destruct (run (handleAccessContent (Scenario.browser Scenario.paid_world)) initial)
    as [s' tr] eqn:Hrun.
  destruct (payment_required_needs_requirements (Scenario.browser Scenario.paid_world)
              initial s' tr Hrun)
    as (response & data & payment & Hfetch & Hstatus & _).
  - vm_compute in Hrun. by injection Hrun as <- _.
  - by exists response.
Defined.


(** *** The payment *)


Lemma wallet_setup_no_signing (pre : list event) (args : headerArgs) :
  wallet_setup pre = true -> CreatePaymentHeader args ∉ pre.
Proof.
  unfold wallet_setup. intros Hpre Hin.
  apply list_elem_of_In in Hin.
  apply (proj1 (forallb_forall _ _) Hpre) in Hin. discriminate Hin.
Qed.

Lemma prepareProof_returns (w : world) (info : value) (s s2 : state)
    (tr2 : list event) (h : string) :
  prepareProof w info (s, []) = (Returns h, (s2, tr2)) ->
  exists pre,
    tr2 = pre ++ [CreatePaymentHeader (creation_args info)] /\
    wallet_setup pre = true /\
    createPaymentHeader w (creation_args info) = Returns h /\
    paymentInfo s2 = paymentInfo s.
Proof.
  intros H. apply prepareProof_cases in H as (Hinfo & _ & pre & Hshape & Hpre & _).
  destruct Hshape as [(_ & e & He)|(-> & Hres & _)]; [discriminate|].
  by exists pre.
Qed.

Lemma prepareProof_signs (w : world) (info : value) (s s2 : state)
    (tr2 : list event) (res : outcome string) (args : headerArgs) :
  prepareProof w info (s, []) = (res, (s2, tr2)) ->
  CreatePaymentHeader args ∈ tr2 ->
  args = creation_args info.
Proof.
  intros H Hin. apply prepareProof_cases in H as (_ & _ & pre & Hshape & Hpre & _).
  destruct Hshape as [(-> & _)|(-> & _)].
  - by apply wallet_setup_no_signing in Hin.
  - apply elem_of_app in Hin as [Hin|Hin]; [by apply wallet_setup_no_signing in Hin|].
    apply list_elem_of_singleton in Hin. by injection Hin.
Qed.

Lemma prepareProof_switch (w : world) (info : value) (s s2 : state)
    (tr2 : list event) (res : outcome string) (n : Z) :
  prepareProof w info (s, []) = (res, (s2, tr2)) ->
  SwitchChain n ∈ tr2 ->
  exists pre,
    SwitchChain n ∈ pre /\
    (tr2 = pre \/ tr2 = pre ++ [CreatePaymentHeader (creation_args info)]) /\
    wallet_setup pre = true /\
    paymentInfo s2 = paymentInfo s /\
    chainId w ≠ Some n /\
    last pre = Some (SwitchChain n) /\
    (exists net,
       get_prop info "network" = Returns net /\
       let networkString := or_else net (VStr "base:84532") in
       (n = 84532 /\
        (is_str networkString "base:84532" = true \/
         exists inc,
           includes_method "networkString.includes" networkString "84532" = Returns inc /\
           inc || is_str networkString "base-sepolia" = true)) \/
       (n = 8453 /\
        is_str networkString "base:84532" = false /\
        includes_method "networkString.includes" networkString "84532" = Returns false /\
        is_str networkString "base-sepolia" = false)) /\
    forall err, switchChain w n = Throws err ->
      tr2 = pre /\
      res = Throws (Error ("Please switch to " +:+
                           (if n =? 84532 then "Base Sepolia" else "Base") +:+
                           " network in your wallet and try again.")).
Proof.
  intros H Hin. apply prepareProof_cases in H as (Hinfo & _ & pre & Hshape & Hpre & Hsw).
  assert (Hin' : SwitchChain n ∈ pre).
  { destruct Hshape as [(-> & _)|(-> & _)]; [done|].
    apply elem_of_app in Hin as [Hin|Hin]; [done|].
    by apply list_elem_of_singleton in Hin. }
  destruct (Hsw n Hin') as (Hchain & Hlast & Htarget & Hrefused).
  exists pre. split; [done|]. split.
  { destruct Hshape as [(-> & _)|(-> & _)]; [by left | by right]. }
  done.
Qed.

Lemma handleProcessPayment_trace (w : world) (s s' : state) (tr : list event) :
  run (handleProcessPayment w) s = (s', tr) ->
  exists (res : outcome string) (s2 : state) (tr2 : list event),
    prepareProof w (paymentInfo s)
      (State processing (paymentInfo s) (content s) (error_ s) 3, []) = (res, (s2, tr2)) /\
    (tr = tr2 \/
     exists header, res = Returns header /\ tr = tr2 ++ [Fetch "/api/premium" (Some header)]).
Proof.
  intros Hrun. rewrite handleProcessPayment_run in Hrun.
  destruct (prepareProof w (paymentInfo s) _) as [res [s2 tr2]] eqn:Hprep.
  exists res, s2, tr2. split; [done|].
  destruct res as [header|e].
  - right. exists header. split; [done|].
    destruct (fetch w "/api/premium" (Some header)) as [response|e].
    + cbv zeta in Hrun.
      pose proof (readRetryResponse_trace w response s2
                    (tr2 ++ [Fetch "/api/premium" (Some header)])) as Htr.
      cbv zeta in Htr. rewrite Hrun in Htr. by cbn [snd] in Htr.
    + revert Hrun. unfold Eff.bind, setError, setStatus, update, Eff.modify.
      cbn [fst snd]. by intros [= _ <-].
  - left. revert Hrun. unfold Eff.bind, setError, setStatus, update, Eff.modify.
    cbn [fst snd]. by intros [= _ <-].
Qed.

(** X16. The page shows the video only after a paid request: if
    [handleProcessPayment] ends in [success], then the last two external
    calls of the run were the wallet signing the held requirements
    (network tag normalised) and the request carrying the header the
    wallet returned; before them the wallet was not asked to sign and no
    request was sent; the request was answered 2xx with a content type
    containing [video/mp4] and a body that could be read; the content
    shown points to those bytes, the held payment information is unchanged
    and the step is 5. *)
Theorem success_only_after_paid_video (w : world) (s s' : state) (tr : list event) :
  run (handleProcessPayment w) s = (s', tr) ->
  status s' = success ->
  exists (pre : list event) (header : string) (response : fetchResponse)
         (contentType : string) (bytes : list Byte.byte),
    tr = pre ++ [CreatePaymentHeader (creation_args (paymentInfo s));
                 Fetch "/api/premium" (Some header)] /\
    wallet_setup pre = true /\
    createPaymentHeader w (creation_args (paymentInfo s)) = Returns header /\
    fetch w "/api/premium" (Some header) = Returns response /\
    Http.ok (res_status response) = true /\
    res_content_type response = Some contentType /\
    includes "video/mp4" contentType = true /\
    res_blob response = Returns bytes /\
    get_prop_opt (content s') "videoUrl" = VStr (createObjectURL w bytes) /\
    paymentInfo s' = paymentInfo s /\
    step s' = 5.
Proof.
  intros Hrun Hsuccess. rewrite handleProcessPayment_run in Hrun.
  destruct (prepareProof w (paymentInfo s) _) as [[header|e] [s2 tr2]] eqn:Hprep.
  - apply prepareProof_returns in Hprep as (pre & -> & Hpre & Hheader & Hinfo).
    cbn [paymentInfo app] in *.
    destruct (fetch w "/api/premium" (Some header)) as [response|e] eqn:Hfetch.
    + cbv zeta in Hrun. revert Hrun.
      unfold readRetryResponse, Eff.try_catch, Eff.bind, Eff.lift, Eff.throw,
        setContent, setStatus, setError, setStep, setPaymentInfo, update, Eff.modify.
      cbn [fst snd status paymentInfo content error_ step].
      destruct (Http.ok (res_status response)) eqn:Hok.
      * destruct (res_content_type response) as [ct|] eqn:Hct.
        -- destruct (negb (String.eqb ct "") && includes "video/mp4" ct) eqn:Hvideo.
           ++ destruct (res_blob response) as [bytes|e] eqn:Hblob.
              ** cbn [fst snd status paymentInfo content error_ step].
                 intros [= <- <-].
                 apply andb_true_iff in Hvideo as [_ Hvideo].
                 exists pre, header, response, ct, bytes.
                 cbn [fst snd status paymentInfo content error_ step].
                 by rewrite <- app_assoc.
              ** cbn [fst snd status]. intros [= <- <-]. discriminate Hsuccess.
           ++ cbn [fst snd status]. intros [= <- <-]. discriminate Hsuccess.
        -- cbn [fst snd status]. intros [= <- <-]. discriminate Hsuccess.
      * destruct (res_status response =? 402).
        -- destruct (res_json response) as [data|e]; [destruct (get_prop data "error")|];
             cbn [fst snd status]; intros [= <- <-]; discriminate Hsuccess.
        -- cbn [fst snd status]. intros [= <- <-]. discriminate Hsuccess.
    + revert Hrun. unfold Eff.bind, setError, setStatus, update, Eff.modify.
      cbn [fst snd status]. intros [= <- <-]. discriminate Hsuccess.
  - revert Hrun. unfold Eff.bind, setError, setStatus, update, Eff.modify.
    cbn [fst snd status]. intros [= <- <-]. discriminate Hsuccess.
Qed.

Lemma success_only_after_paid_video_witness :
  exists response,
    fetch (Scenario.browser Scenario.paid_world) "/api/premium" (Some Sample.proof_header)
      = Returns response /\
    res_content_type response = Some "video/mp4".
Proof.
  destruct (run (handleProcessPayment (Scenario.browser Scenario.paid_world))
              Scenario.challenged) as [s' tr] eqn:Hrun.
  destruct (success_only_after_paid_video (Scenario.browser Scenario.paid_world)
              Scenario.challenged s' tr Hrun)
    as (pre & header & response & ct & bytes & _ & _ & Hheader & Hfetch & _ & Hct & _).
  - vm_compute in Hrun. by injection Hrun as <- _.
  - injection Hheader as <-. exists response. split; [exact Hfetch|].
    rewrite Hct. vm_compute in Hfetch. injection Hfetch as <-.
    vm_compute in Hct. by injection Hct as <-.
Defined.


(** X17. A refused chain switch ends the payment: if the wallet rejects
    [switchChain], the page goes to [error] with [Please switch to Base
    (or Base Sepolia) network in your wallet and try again.] in place of
    the wallet's own message; the chain asked for is 8453 or 84532 and
    differs from the wallet's; the refused call is the last external call
    of the run, the wallet is not asked to sign, no request is sent, and
    the held payment information is unchanged. *)
Theorem refused_chain_switch_stops_payment (w : world) (s s' : state) (tr : list event)
    (n : Z) (err : Js.error) :
  run (handleProcessPayment w) s = (s', tr) ->
  SwitchChain n ∈ tr ->
  switchChain w n = Throws err ->
  status s' = error /\
  error_ s' = VStr ("Please switch to " +:+
                    (if n =? 84532 then "Base Sepolia" else "Base") +:+
                    " network in your wallet and try again.") /\
  (n = 8453 \/ n = 84532) /\
  chainId w ≠ Some n /\
  last tr = Some (SwitchChain n) /\
  wallet_setup tr = true /\
  paymentInfo s' = paymentInfo s.
Proof.
  intros Hrun Hin Hthrows.
  destruct (handleProcessPayment_trace w s s' tr Hrun) as (res & s2 & tr2 & Hprep & Htr).
  assert (Hin2 : SwitchChain n ∈ tr2).
  { destruct Htr as [->|(header & _ & ->)]; [done|].
    apply elem_of_app in Hin as [Hin|Hin]; [done|].
    by apply list_elem_of_singleton in Hin. }
  destruct (prepareProof_switch w (paymentInfo s) _ s2 tr2 res n Hprep Hin2)
    as (pre & _ & _ & Hpre & Hinfo & Hchain & Hlast & (net & _ & Htarget) & Hrefused).
  destruct (Hrefused err Hthrows) as [-> ->].
  destruct Htr as [->|(header & Hres & _)]; [|discriminate Hres].
  rewrite handleProcessPayment_run, Hprep in Hrun.
  revert Hrun. unfold Eff.bind, setError, setStatus, update, Eff.modify.
  cbn [fst snd message str_or]. intros [= <-].
  cbn [status error_ paymentInfo] in *.
  assert (Hn : n = 8453 \/ n = 84532).
  { cbv zeta in Htarget. destruct Htarget as [[-> _]|[-> _]]; [by right | by left]. }
  repeat split; done.
Qed.

Lemma refused_chain_switch_stops_payment_witness :
  status (fst (run (handleProcessPayment (Scenario.wrong_chain Scenario.paid_world))
                 Scenario.challenged)) = error /\
  error_ (fst (run (handleProcessPayment (Scenario.wrong_chain Scenario.paid_world))
                 Scenario.challenged))
    = VStr "Please switch to Base network in your wallet and try again.".
Proof.
  destruct (run (handleProcessPayment (Scenario.wrong_chain Scenario.paid_world))
              Scenario.challenged) as [s' tr] eqn:Hrun.
  destruct (refused_chain_switch_stops_payment (Scenario.wrong_chain Scenario.paid_world)
              Scenario.challenged s' tr 8453 (Error "User rejected the request.") Hrun)
    as (Hstatus & Herror & _).
  - vm_compute in Hrun. injection Hrun as _ <-. apply list_elem_of_here.
  - reflexivity.
  - by split.
Defined.


(** *** The page against the handler of [route.js] *)


Lemma creation_args_of_challenge (e : Server.env) (request : Http.request) :
  creation_args (Route.pc_payment (Route.buildPaymentConfig e request)) =
  HeaderArgs 1 (Route.pc_x402Requirements (Route.buildPaymentConfig e request))
    "https://x402.org/facilitator".
Proof.
  unfold creation_args. rewrite payment_props. cbv zeta.
  cbn [get_prop_opt obj_get String.eqb Ascii.eqb Bool.eqb andb].
  rewrite requirements_props. cbv zeta.
  unfold Route.resolveNetworkConfig. cbn [Route.x402Network Route.usdcAddress].
  destruct (bool_decide _); reflexivity.
Qed.

Lemma prepareProof_switch_target (e : Server.env) (request : Http.request) (w : world)
    (s s2 : state) (tr2 : list event) (res : outcome string) (n : Z) :
  prepareProof w (Route.pc_payment (Route.buildPaymentConfig e request)) (s, [])
    = (res, (s2, tr2)) ->
  SwitchChain n ∈ tr2 ->
  n = if Route.isMainnet (Route.resolveNetworkConfig (Route.NETWORK e)) then 8453 else 84532.
Proof.
  intros Hprep Hin.
  destruct (prepareProof_switch w _ s s2 tr2 res n Hprep Hin)
    as (pre & _ & _ & _ & _ & _ & _ & (net & Hnet & Htarget) & _).
  rewrite payment_props in Hnet. cbv zeta in Hnet, Htarget.
  cbn [get_prop obj_get String.eqb Ascii.eqb Bool.eqb andb] in Hnet.
  injection Hnet as <-. revert Htarget.
  unfold Route.resolveNetworkConfig. cbn [Route.displayNetwork Route.isMainnet].
  destruct (bool_decide _); cbn [or_else truthy negb String.eqb Ascii.eqb Bool.eqb andb].
  - intros [(_ & [H|(inc & H1 & H2)])|(-> & _)]; [discriminate H| |done].
    cbn in H1. injection H1 as <-. discriminate H2.
  - intros [(-> & _)|(_ & H & _)]; [done | discriminate H].
Qed.


(** X18. With the challenge of [route.js] held, the page asks the wallet
    for nothing but what the server will settle: in every run of
    [handleProcessPayment], whatever the wallet and the network do, each
    call of [createPaymentHeader] has version 1, the facilitator of
    x402.org and the server's requirements unchanged (the network tags
    [base] and [base-sepolia] of this server pass the adapter as they
    are), and each [switchChain] asks for the chain of the server's
    network. *)
Theorem page_signs_the_servers_challenge (e : Server.env) (request : Http.request)
    (w : world) (s s' : state) (tr : list event) :
  paymentInfo s = Route.pc_payment (Route.buildPaymentConfig e request) ->
  run (handleProcessPayment w) s = (s', tr) ->
  (forall args, CreatePaymentHeader args ∈ tr ->
     args = HeaderArgs 1 (Route.pc_x402Requirements (Route.buildPaymentConfig e request))
              "https://x402.org/facilitator") /\
  (forall n, SwitchChain n ∈ tr ->
     n = if Route.isMainnet (Route.resolveNetworkConfig (Route.NETWORK e))
         then 8453 else 84532).
Proof.
  intros Hheld Hrun.
  destruct (handleProcessPayment_trace w s s' tr Hrun) as (res & s2 & tr2 & Hprep & Htr).
  rewrite Hheld in Hprep.
  assert (Hsub : forall ev, is_fetch ev = false -> ev ∈ tr -> ev ∈ tr2).
  { intros ev Hev Hin. destruct Htr as [->|(header & _ & ->)]; [done|].
    apply elem_of_app in Hin as [Hin|Hin]; [done|].
    apply list_elem_of_singleton in Hin. by subst ev. }
  split.
  - intros args Hin. apply Hsub in Hin; [|done].
    rewrite <- creation_args_of_challenge. by eapply prepareProof_signs.
  - intros n Hin. apply Hsub in Hin; [|done].
    by eapply prepareProof_switch_target.
Qed.

Lemma page_signs_the_servers_challenge_witness :
  CreatePaymentHeader
    (HeaderArgs 1
       (Route.pc_x402Requirements
          (Route.buildPaymentConfig Sample.credentials Sample.paid_request))
       "https://x402.org/facilitator")
  ∈ snd (run (handleProcessPayment (Scenario.browser Scenario.paid_world))
           Scenario.challenged).
Proof.
  destruct (run (handleProcessPayment (Scenario.browser Scenario.paid_world))
              Scenario.challenged) as [s' tr] eqn:Hrun.
  destruct (page_signs_the_servers_challenge Sample.credentials Sample.paid_request
              (Scenario.browser Scenario.paid_world) Scenario.challenged s' tr
              eq_refl Hrun) as [Hsigned _].
  assert (Hin : CreatePaymentHeader (creation_args (paymentInfo Scenario.challenged)) ∈ tr).
  { vm_compute in Hrun. injection Hrun as _ <-. apply list_elem_of_here. }
  by rewrite <- (Hsigned _ Hin).
Defined.

End PageExtras.
(** ** The proxy *)

Section ProxyFacts.

Import Js Http Proxy ProxySpec ServerSpec.

Ltac proxy_unfold :=
  unfold call_fetch, json, Eff.try_catch, Eff.bind, Eff.lift, Eff.ret, Eff.throw, Eff.modify.


Lemma occurrences_app (c : ascii) (a b : string) :
  occurrences c (a +:+ b) = (occurrences c a + occurrences c b)%nat.
Proof.
  induction a as [|d a IH]; [reflexivity|].
  change (String d a +:+ b) with (String d (a +:+ b)). cbn [occurrences].
  rewrite IH. lia.
Qed.

Lemma append_assoc (a b c : string) : (a +:+ b) +:+ c = a +:+ (b +:+ c).
Proof.
  induction a as [|d a IH]; [reflexivity|].
  change (String d a +:+ b) with (String d (a +:+ b)).
  change (String d (a +:+ b) +:+ c) with (String d ((a +:+ b) +:+ c)).
  by rewrite IH.
Qed.

Lemma form_encode_byte_clean (c : ascii) :
  occurrences "&" (form_encode_byte c) = 0%nat /\
  occurrences "=" (form_encode_byte c) = 0%nat.
Proof. by destruct c as [[] [] [] [] [] [] [] []]. Qed.

Lemma form_urlencode_clean (s : string) :
  occurrences "&" (form_urlencode s) = 0%nat /\
  occurrences "=" (form_urlencode s) = 0%nat.
Proof.
  induction s as [|c s [IH1 IH2]]; [done|].
  cbn [form_urlencode]. rewrite !occurrences_app, IH1, IH2.
  by destruct (form_encode_byte_clean c) as [-> ->].
Qed.

Lemma query_shape (u m f : string) :
  URLSearchParams_toString [("url", u); ("method", m); ("from", f)] =
  "url=" +:+ form_urlencode u +:+ "&method=" +:+ form_urlencode m +:+
  "&from=" +:+ form_urlencode f.
Proof.
  unfold URLSearchParams_toString, join_with. cbn [map fold_left fst snd].
  change (form_urlencode "url") with "url".
  change (form_urlencode "method") with "method".
  change (form_urlencode "from") with "from".
  rewrite !append_assoc. reflexivity.
Qed.

Lemma destructure_defined (body : value) (k : string) (v : value) :
  destructure body k = Returns v ->
  v = get_prop_opt body k /\ forall k', destructure body k' = Returns (get_prop_opt body k').
Proof. destruct body; intros [= <-]; by split. Qed.

(** X19. Every POST to the proxy is answered, and the facilitator is
    called at most once.  When it is called, the secret key is configured,
    the body parsed, its [url] and [from] are truthy, and the one request
    goes to the [x402/fetch] endpoint with the key in the [x-secret-key]
    header and the query [url=..&method=..&from=..] ([method] defaulting
    to [GET]); the three values are encoded so that the query has exactly
    two [&] and three [=], whatever the body contains. *)
Theorem POST_answers_and_posts_at_most_once (e : env) (w : world) (request : request) :
  exists resp tr,
    handle e w request = (Returns resp, tr) /\
    (tr = [] \/
     exists key body u m f,
       present (e !! "THIRDWEB_SECRET_KEY") = Some key /\
       req_json request = Returns body /\
       truthy (get_prop_opt body "url") = true /\
       truthy (get_prop_opt body "from") = true /\
       ToString (get_prop_opt body "url") = Returns u /\
       ToString (match get_prop_opt body "method" with
                 | VUndef => VStr "GET"
                 | _ => get_prop_opt body "method"
                 end) = Returns m /\
       ToString (get_prop_opt body "from") = Returns f /\
       let query := "url=" +:+ form_urlencode u +:+ "&method=" +:+ form_urlencode m +:+
                    "&from=" +:+ form_urlencode f in
       tr = [Post (thirdwebApiUrl +:+ "?" +:+ query)
               [("x-secret-key", key); ("Content-Type", "application/json")]] /\
       occurrences "&" query = 2%nat /\
       occurrences "=" query = 3%nat).
Proof.
  unfold handle, POST. proxy_unfold.
  destruct (present (e !! "THIRDWEB_SECRET_KEY")) as [key|] eqn:Hkey;
    [|eexists _, _; split; [reflexivity | by left]].
  destruct (req_json request) as [body|err] eqn:Hbody;
    [|eexists _, _; split; [reflexivity | by left]].
  destruct (destructure body "url") as [url|err] eqn:Hurl;
    [|eexists _, _; split; [reflexivity | by left]].
  assert (Hd : forall k, destructure body k = Returns (get_prop_opt body k)).
  { intros k. by destruct body. }
  rewrite Hd in Hurl. injection Hurl as <-. rewrite !Hd.
  destruct (truthy (get_prop_opt body "url")) eqn:Htu; cbn [negb orb];
    [|eexists _, _; split; [reflexivity | by left]].
  destruct (truthy (get_prop_opt body "from")) eqn:Htf; cbn [negb];
    [|eexists _, _; split; [reflexivity | by left]].
  destruct (ToString (get_prop_opt body "url")) as [u|err] eqn:Hu;
    [|eexists _, _; split; [reflexivity | by left]].
  destruct (ToString (match get_prop_opt body "method" with
                      | VUndef => VStr "GET"
                      | _ => get_prop_opt body "method"
                      end)) as [m|err] eqn:Hm;
    [|eexists _, _; split; [reflexivity | by left]].
  destruct (ToString (get_prop_opt body "from")) as [f|err] eqn:Hf;
    [|eexists _, _; split; [reflexivity | by left]].
  rewrite query_shape. cbn [app fst snd].
  assert (Hquery : occurrences "&" ("url=" +:+ form_urlencode u +:+ "&method=" +:+
                                    form_urlencode m +:+ "&from=" +:+ form_urlencode f)
                     = 2%nat /\
                   occurrences "=" ("url=" +:+ form_urlencode u +:+ "&method=" +:+
                                    form_urlencode m +:+ "&from=" +:+ form_urlencode f)
                     = 3%nat).
  { rewrite !occurrences_app.
    destruct (form_urlencode_clean u) as [-> ->].
    destruct (form_urlencode_clean m) as [-> ->].
    destruct (form_urlencode_clean f) as [-> ->]. by split. }
  destruct Hquery as [Hamp Heq].
  destruct (fetch w _ _) as [response|err];
    [|eexists _, _; split; [reflexivity | right; by eexists key, body, u, m, f]].
  destruct (up_text response) as [text|err];
    [|eexists _, _; split; [reflexivity | right; by eexists key, body, u, m, f]].
  destruct (NextResponse_json _ (up_status response) _) as [r|err];
    eexists _, _; (split; [reflexivity | right; by eexists key, body, u, m, f]).
Qed.

(** X20. An answer given without calling the facilitator is one of three:
    500 [THIRDWEB_SECRET_KEY not configured] when the key is missing or
    empty; 400 [Missing required parameters] when the body parsed and its
    [url] or [from] is falsy; 500 [Proxy error] with the message of the
    exception when the body could not be read, was [null], or held a value
    that has no string. *)
Theorem POST_refusals (e : env) (w : world) (request : request) (resp : response) :
  handle e w request = (Returns resp, []) ->
  (present (e !! "THIRDWEB_SECRET_KEY") = None /\
   resp = Response 500 []
            (JsonBody (VObj [("error", VStr "THIRDWEB_SECRET_KEY not configured");
                             ("message",
                              VStr "Thirdweb secret key is required for x402/fetch API")]))) \/
  (exists key body,
     present (e !! "THIRDWEB_SECRET_KEY") = Some key /\
     req_json request = Returns body /\
     (truthy (get_prop_opt body "url") = false \/
      truthy (get_prop_opt body "from") = false) /\
     resp = Response 400 []
              (JsonBody (VObj [("error", VStr "Missing required parameters");
                               ("message",
                                VStr "url and from (wallet address) are required")]))) \/
  (exists key err,
     present (e !! "THIRDWEB_SECRET_KEY") = Some key /\
     (req_json request = Throws err \/
      exists body,
        req_json request = Returns body /\
        (destructure body "url" = Throws err \/
         ToString (get_prop_opt body "url") = Throws err \/
         ToString (match get_prop_opt body "method" with
                   | VUndef => VStr "GET"
                   | _ => get_prop_opt body "method"
                   end) = Throws err \/
         ToString (get_prop_opt body "from") = Throws err)) /\
     resp = Response 500 []
              (JsonBody (VObj [("error", VStr "Proxy error");
                               ("message",
                                VStr (str_or (Some (message err))
                                        "Failed to call Thirdweb x402/fetch API"))]))).
Proof.
  unfold handle, POST. proxy_unfold.
  destruct (present (e !! "THIRDWEB_SECRET_KEY")) as [key|] eqn:Hkey;
    [|intros [= <-]; by left].
  destruct (req_json request) as [body|err] eqn:Hbody;
    [|intros [= <-]; right; right; exists key, err;
      split; [done|]; split; [by left | reflexivity]].
  destruct (destructure body "url") as [url|err] eqn:Hurl;
    [|intros [= <-]; right; right; exists key, err;
      split; [done|]; split; [right; exists body; split; [done | by left] | reflexivity]].
  apply destructure_defined in Hurl as [-> Hd]. rewrite !Hd.
  destruct (truthy (get_prop_opt body "url")) eqn:Htu; cbn [negb orb];
    [|intros [= <-]; right; left; exists key, body; auto].
  destruct (truthy (get_prop_opt body "from")) eqn:Htf; cbn [negb];
    [|intros [= <-]; right; left; exists key, body; auto].
  destruct (ToString (get_prop_opt body "url")) as [u|err] eqn:Hu;
    [|intros [= <-]; right; right; exists key, err;
      split; [done|]; split;
        [right; exists body; split; [done | right; by left] | reflexivity]].
  destruct (ToString (match get_prop_opt body "method" with
                      | VUndef => VStr "GET"
                      | _ => get_prop_opt body "method"
                      end)) as [m|err] eqn:Hm;
    [|intros [= <-]; right; right; exists key, err;
      split; [done|]; split;
        [right; exists body; split; [done | right; right; by left] | reflexivity]].
  destruct (ToString (get_prop_opt body "from")) as [f|err] eqn:Hf;
    [|intros [= <-]; right; right; exists key, err;
      split; [done|]; split;
        [right; exists body; split; [done | right; right; by right] | reflexivity]].
  cbn [app fst snd].
  destruct (fetch w _ _) as [response|err]; [|intros [= _ ?]; discriminate].
  destruct (up_text response) as [text|err]; [|intros [= _ ?]; discriminate].
  destruct (NextResponse_json _ (up_status response) _) as [r|err];
    intros [= _ ?]; discriminate.
Qed.

Lemma POST_refusals_witness :
  exists resp,
    handle Sample.credentials Scenario.bad_gateway Scenario.anonymous_purchase
      = (Returns resp, []) /\
    status resp = 400.
Proof.
  eexists. split; [reflexivity|].
  destruct (POST_refusals Sample.credentials Scenario.bad_gateway Scenario.anonymous_purchase
              _ eq_refl)
    as [[Hkey _]|[(key & body & _ & _ & _ & Hresp)|(key & err & _ & _ & Hresp)]].
  - discriminate Hkey.
  - reflexivity.
  - discriminate Hresp.
Defined.


(** X21. The facilitator's answer is relayed: when the one request was
    made and answered, the response has the facilitator's status, the
    header [Content-Type: application/json] and as body the parsed text,
    or [{message: text}] when the text is not JSON; a status that
    [NextResponse.json] refuses, a failed request and an unreadable body
    are answered 500 [Proxy error]. *)
Theorem POST_relays_the_answer (e : env) (w : world) (request : request)
    (resp : response) (url : string) (headers : list (string * string)) :
  handle e w request = (Returns resp, [Post url headers]) ->
  match fetch w url headers with
  | Throws err =>
      resp = Response 500 []
               (JsonBody (VObj [("error", VStr "Proxy error");
                                ("message",
                                 VStr (str_or (Some (message err))
                                         "Failed to call Thirdweb x402/fetch API"))]))
  | Returns upstream =>
      match up_text upstream with
      | Throws err =>
          resp = Response 500 []
                   (JsonBody (VObj [("error", VStr "Proxy error");
                                    ("message",
                                     VStr (str_or (Some (message err))
                                             "Failed to call Thirdweb x402/fetch API"))]))
      | Returns text =>
          if json_status (up_status upstream) then
            resp = Response (up_status upstream) [("Content-Type", "application/json")]
                     (JsonBody match JSON_parse w text with
                               | Returns v => v
                               | Throws _ => VObj [("message", VStr text)]
                               end)
          else
            status resp = 500 /\
            get_prop_opt (match body resp with JsonBody v => v | BytesBody _ => VUndef end)
              "error" = VStr "Proxy error"
      end
  end.
Proof.
  unfold handle, POST. proxy_unfold.
  destruct (present (e !! "THIRDWEB_SECRET_KEY")) as [key|] eqn:Hkey;
    [|intros [= _ ?]; discriminate].
  destruct (req_json request) as [body|err] eqn:Hbody; [|intros [= _ ?]; discriminate].
  destruct (destructure body "url") as [u0|err] eqn:Hurl; [|intros [= _ ?]; discriminate].
  apply destructure_defined in Hurl as [-> Hd]. rewrite !Hd.
  destruct (negb (truthy (get_prop_opt body "url")) || negb (truthy (get_prop_opt body "from")));
    [intros [= _ ?]; discriminate|].
  destruct (ToString (get_prop_opt body "url")) as [u|err]; [|intros [= _ ?]; discriminate].
  destruct (ToString _) as [m|err]; [|intros [= _ ?]; discriminate].
  destruct (ToString _) as [f|err]; [|intros [= _ ?]; discriminate].
  cbn [app fst snd].
  set (target := thirdwebApiUrl +:+ _). set (hs := [("x-secret-key", key); _]).
  destruct (fetch w target hs) as [upstream|err] eqn:Hfetch.
  - destruct (up_text upstream) as [text|err] eqn:Htext.
    + destruct (NextResponse_json _ (up_status upstream) _) as [r|err] eqn:Hjson.
      * apply NextResponse_json_Returns in Hjson as [-> Hst].
        intros [= <- <- <-]. by rewrite Hfetch, Htext, Hst.
      * intros [= <- <- <-]. rewrite Hfetch, Htext.
        destruct (json_status (up_status upstream)) eqn:Hst; [|by split].
        by rewrite (NextResponse_json_ok _ _ _ Hst) in Hjson.
    + intros [= <- <- <-]. by rewrite Hfetch, Htext.
  - intros [= <- <- <-]. by rewrite Hfetch.
Qed.

Lemma POST_relays_the_answer_witness :
  fst (handle Sample.credentials Scenario.bad_gateway Scenario.purchase) =
    Returns (Response 502 [("Content-Type", "application/json")]
               (JsonBody (VObj [("message", VStr "Bad Gateway")]))).
Proof.
  destruct (handle Sample.credentials Scenario.bad_gateway Scenario.purchase)
    as [[resp|err] tr] eqn:Hrun; [|by vm_compute in Hrun].
  assert (Htr : exists url headers, tr = [Post url headers]).
  { vm_compute in Hrun. injection Hrun as _ <-. by eexists _, _. }
  destruct Htr as (url & headers & ->).
  pose proof (POST_relays_the_answer Sample.credentials Scenario.bad_gateway
                Scenario.purchase resp url headers Hrun) as H.
  cbn in H. by rewrite H.
Defined.

End ProxyFacts.
(** ** The first variant of the guard *)

Section V1Facts.

Import Js Http RouteV1 ServerSpec.

Ltac v1_unfold :=
  unfold call_settlePayment, json, shared, Server.serveVideo, Server.call_existsSync,
    Server.call_readFileSync, Server.call_statSync, Server.emit, Server.json,
    Eff.try_catch, Eff.bind, Eff.lift, Eff.ret, Eff.throw, Eff.modify.


Lemma merchant_configured (e : env) :
  String.eqb (MERCHANT_ADDRESS e) "" ||
  String.eqb (MERCHANT_ADDRESS e) "0x0000000000000000000000000000000000000000" = false ->
  MERCHANT_ADDRESS e ≠ "0x0000000000000000000000000000000000000000".
Proof. intros H. apply orb_false_iff in H as [_ H]. by apply String.eqb_neq. Qed.

(** X22. Every GET of the first variant is answered, and nothing is called
    before the settlement: the trace is empty, or it starts with the one
    [settlePayment] call and continues with file accesses only; and a
    settlement is attempted only for a request with a payment header when
    the secret key and a merchant address other than the zero address are
    configured. *)
Theorem v1_GET_answers_and_settles_first (e : env) (w : world) (request : request) :
  exists resp tr,
    handle e w request = (Returns resp, tr) /\
    (tr = [] \/
     exists xPaymentHeader key accesses,
       present (req_headers request !! "x-payment") = Some xPaymentHeader /\
       present (e !! "THIRDWEB_SECRET_KEY") = Some key /\
       MERCHANT_ADDRESS e ≠ "0x0000000000000000000000000000000000000000" /\
       tr = Settle (settlement e request xPaymentHeader key) :: map File accesses).
Proof.
  unfold handle, GET.
  destruct (present (req_headers request !! "x-payment")) as [hdr|] eqn:Hhdr;
    [|eexists _, _; split; [reflexivity | by left]].
  v1_unfold.
  destruct (present (e !! "THIRDWEB_SECRET_KEY")) as [key|] eqn:Hkey;
    [|eexists _, _; split; [reflexivity | by left]].
  destruct (String.eqb (MERCHANT_ADDRESS e) "" || _) eqn:Hm;
    [eexists _, _; split; [reflexivity | by left]|].
  apply merchant_configured in Hm. cbn [app fst snd].
  assert (Hgoal : forall (o : outcome response) (accesses : list Server.event),
            (exists resp, o = Returns resp) ->
            exists resp tr,
              (o, Settle (settlement e request hdr key) :: map File accesses)
                = (Returns resp, tr) /\
              (tr = [] \/
               exists xPaymentHeader key0 accesses0,
                 Some hdr = Some xPaymentHeader /\ Some key = Some key0 /\
                 MERCHANT_ADDRESS e ≠ "0x0000000000000000000000000000000000000000" /\
                 tr = Settle (settlement e request xPaymentHeader key0)
                        :: map File accesses0)).
  { intros o accesses [resp ->]. eexists _, _. split; [reflexivity|].
    right. by exists hdr, key, accesses. }
  destruct (settlePayment w _) as [result|err];
    [|by apply (Hgoal _ []); eauto].
  destruct (negb (Server.sr_status result =? 200)).
  - destruct (NextResponse_json _ _ _); by apply (Hgoal _ []); eauto.
  - destruct (Server.existsSync (files w) _); cbn [negb fst snd map app].
    + destruct (Server.readFileSync (files w) _); cbn [fst snd map app].
      * destruct (Server.statSync_size (files w) _); cbn [fst snd map app];
          by apply (Hgoal _ [_; _; _]); eauto.
      * by apply (Hgoal _ [_; _]); eauto.
    + by apply (Hgoal _ [_]); eauto.
Qed.

(** X23. The first variant, too, serves bytes only to a settled proof: if
    the body of the response is a byte string, [settlePayment] was called
    with the header as received, on the chain of the configured network,
    and returned status 200; the bytes are those of the video file; the
    response is 200 with the six video headers, [X-Payment-Network] being
    the configured network name as it is; and the trace is the settlement
    followed by the three file accesses. *)
Theorem v1_video_only_after_settlement (e : env) (w : world) (request : request)
    (resp : response) (tr : list event) (bytes : list Byte.byte) :
  handle e w request = (Returns resp, tr) ->
  body resp = BytesBody bytes ->
  exists xPaymentHeader key result size,
    present (req_headers request !! "x-payment") = Some xPaymentHeader /\
    present (e !! "THIRDWEB_SECRET_KEY") = Some key /\
    MERCHANT_ADDRESS e ≠ "0x0000000000000000000000000000000000000000" /\
    let args := settlement e request xPaymentHeader key in
    let file := Server.videoPath e (files w) in
    settlePayment w args = Returns result /\
    Server.sr_status result = 200 /\
    Server.readFileSync (files w) file = Returns bytes /\
    Server.statSync_size (files w) file = Returns size /\
    resp = Response 200 (video_headers size (NETWORK e)) (BytesBody bytes) /\
    tr = [Settle args; File (Server.ExistsSync file); File (Server.ReadFileSync file);
          File (Server.StatSync file)].
Proof.
  unfold handle, GET. intros Hrun Hbody.
  destruct (present (req_headers request !! "x-payment")) as [hdr|] eqn:Hhdr;
    [|injection Hrun as <- <-; discriminate].
  revert Hrun. v1_unfold.
  destruct (present (e !! "THIRDWEB_SECRET_KEY")) as [key|] eqn:Hkey;
    [|intros [= <- <-]; discriminate].
  destruct (String.eqb (MERCHANT_ADDRESS e) "" || _) eqn:Hm;
    [intros [= <- <-]; discriminate|].
  apply merchant_configured in Hm. cbn [app fst snd].
  destruct (settlePayment w _) as [result|err] eqn:Hsettle;
    [|intros [= <- <-]; discriminate].
  destruct (Server.sr_status result =? 200) eqn:Hst; cbn [negb].
  - apply Z.eqb_eq in Hst.
    destruct (Server.existsSync (files w) _) eqn:Hex; cbn [negb fst snd map app];
      [|intros [= <- <-]; discriminate].
    destruct (Server.readFileSync (files w) _) as [buf|err] eqn:Hread; cbn [fst snd map app];
      [|intros [= <- <-]; discriminate].
    destruct (Server.statSync_size (files w) _) as [size|err] eqn:Hstat;
      cbn [fst snd map app]; [|intros [= <- <-]; discriminate].
    intros [= <- <-]. cbn in Hbody. injection Hbody as ->.
    by eexists hdr, key, result, size.
  - destruct (NextResponse_json _ _ _) as [r|err] eqn:Hjson.
    + apply NextResponse_json_Returns in Hjson as [-> _]. intros [= <- <-]. discriminate.
    + intros [= <- <-]. discriminate.
Qed.

Lemma v1_video_only_after_settlement_witness :
  exists result,
    settlePayment Scenario.v1_paid
      (settlement Sample.credentials Sample.paid_request Sample.proof_header "sk_live")
      = Returns result /\
    Server.sr_status result = 200.
Proof.
  destruct (handle Sample.credentials Scenario.v1_paid Sample.paid_request)
    as [[resp|err] tr] eqn:Hrun; [|by vm_compute in Hrun].
  destruct (v1_video_only_after_settlement Sample.credentials Scenario.v1_paid
              Sample.paid_request resp tr [Byte.x00; Byte.x01] Hrun)
    as (h & key & result & size & Hh & Hk & _ & Hsettle & Hst & _).
  - vm_compute in Hrun. by injection Hrun as <- _.
  - injection Hh as <-. injection Hk as <-. by exists result.
Defined.


(** X24. In the first variant an exception of [settlePayment] has an answer
    of its own: 402 [Payment settlement error] with the message of the
    exception (or a default) and a hint, without [accepts]; the settlement
    is the only external call. *)
Theorem v1_settlement_exception_has_its_own_answer (e : env) (w : world)
    (request : request) (xPaymentHeader key : string) (err : error) :
  present (req_headers request !! "x-payment") = Some xPaymentHeader ->
  present (e !! "THIRDWEB_SECRET_KEY") = Some key ->
  MERCHANT_ADDRESS e ≠ "0x0000000000000000000000000000000000000000" ->
  settlePayment w (settlement e request xPaymentHeader key) = Throws err ->
  handle e w request =
    (Returns (Response 402 []
       (JsonBody (VObj
          [("error", VStr "Payment settlement error");
           ("message", VStr (str_or (Some (message err))
                               "Failed to settle payment with Thirdweb facilitator."));
           ("hint", VStr "The payment may be invalid or the facilitator service may be unavailable.")]))),
     [Settle (settlement e request xPaymentHeader key)]).
Proof.
  intros Hhdr Hkey Hm Hsettle.
  assert (Hne : String.eqb (MERCHANT_ADDRESS e) "" ||
                String.eqb (MERCHANT_ADDRESS e)
                  "0x0000000000000000000000000000000000000000" = false).
  { apply orb_false_iff. split; [|by apply String.eqb_neq].
    unfold MERCHANT_ADDRESS, Route.MERCHANT_ADDRESS, str_or.
    destruct (e !! "MERCHANT_ADDRESS") as [s|]; [|reflexivity].
    destruct (String.eqb_spec s ""); [reflexivity | by apply String.eqb_neq]. }
  unfold handle, GET. rewrite Hhdr. v1_unfold. rewrite Hkey, Hne.
  cbn [app fst snd]. rewrite Hsettle. reflexivity.
Qed.

Lemma v1_settlement_exception_has_its_own_answer_witness :
  exists b,
    handle Sample.credentials Scenario.v1_timeout Sample.paid_request =
      (Returns (Response 402 [] (JsonBody (VObj b))),
       [Settle (settlement Sample.credentials Sample.paid_request
                  Sample.proof_header "sk_live")]) /\
    obj_get "error" b = VStr "Payment settlement error" /\
    obj_get "message" b = VStr "The operation was aborted due to timeout".
Proof.
  eexists. split.
  - apply (v1_settlement_exception_has_its_own_answer Sample.credentials Scenario.v1_timeout
             Sample.paid_request Sample.proof_header "sk_live"
             (Error "The operation was aborted due to timeout"));
      [reflexivity | reflexivity | discriminate | reflexivity].
  - split; reflexivity.
Defined.

End V1Facts.
(** ** The page against the handlers that send [eip155] tags *)

Section CrossFacts.

Import Js Page PageSpec ServerSpec FlowSpec.

Ltac obj_compute :=
  cbn [literal fold_left obj_set obj_assign own_props fst snd obj_get
       get_prop_opt get_prop String.eqb Ascii.eqb Bool.eqb andb].


Lemma paymentRequirement_props (e : Server.env) (request : Http.request) :
  RouteSettle.paymentRequirement e request =
  VObj [("scheme", VStr "exact");
        ("network", VStr (if RouteSettle.isMainnet e then "base:8453" else "base:84532"));
        ("token", RouteSettle.usdcAddress e);
        ("recipient", VStr (RouteSettle.MERCHANT_ADDRESS e));
        ("amount", VStr (number_toString (RouteSettle.PAYMENT_AMOUNT e)));
        ("displayAmount",
         VStr (toFixed_micro (RouteSettle.PAYMENT_AMOUNT e) 6 +:+ " USDC"));
        ("networkName", VStr (if RouteSettle.isMainnet e then "Base" else "Base Sepolia"));
        ("description", VStr "Access to premium video content");
        ("x402Requirements",
         VObj [("scheme", VStr "exact");
               ("network",
                VStr (if RouteSettle.isMainnet e then "eip155:8453" else "eip155:84532"));
               ("maxAmountRequired", VStr (number_toString (RouteSettle.PAYMENT_AMOUNT e)));
               ("resource", VStr (RouteSettle.resourceUrl_of e request));
               ("description", VStr "Access to premium video content");
               ("mimeType", VStr "video/mp4");
               ("payTo", VStr (RouteSettle.MERCHANT_ADDRESS e));
               ("maxTimeoutSeconds", VNum 86400);
               ("asset", RouteSettle.usdcAddress e)])].
Proof. reflexivity. Qed.

Lemma usdcAddress_defined (e : Server.env) :
  exists a, RouteSettle.usdcAddress e = VStr a.
Proof. unfold RouteSettle.usdcAddress. destruct (RouteSettle.isMainnet e); by eexists. Qed.

(** The page holds the challenge of these handlers, too, as it was sent. *)
Lemma eip155_challenge_is_held (e : Server.env) (sw : Server.world) (vw : RouteV1.world)
    (request : Http.request) (resp : Http.response) (w : world) (s : state) :
  Http.req_headers request !! "x-payment" = None ->
  fst (RouteSettle.handle e sw request) = Returns resp \/
  fst (RouteV1.handle e vw request) = Returns resp ->
  fetch w "/api/premium" None = Returns (deliver resp) ->
  paymentInfo (fst (run (handleAccessContent w) s)) = RouteSettle.paymentRequirement e request.
Proof.
  intros Hhdr Hserver Hfetch.
  assert (Hdata : exists data,
             res_status (deliver resp) = 402 /\
             res_json (deliver resp) = Returns (VObj data) /\
             obj_get "payment" data = RouteSettle.paymentRequirement e request).
  { unfold RouteSettle.handle, Server.run, RouteSettle.GET, RouteV1.handle, RouteV1.GET
      in Hserver.
    rewrite Hhdr in Hserver. cbn [Http.present] in Hserver.
    destruct Hserver as [Hserver|Hserver]; injection Hserver as <-.
    - rewrite paymentRequirement_props. eexists. split; [reflexivity|].
      split; reflexivity.
    - eexists. split; [reflexivity|]. split; reflexivity. }
  destruct Hdata as (data & Hstatus & Hjson & Hpayment).
  unfold run, handleAccessContent, call_fetch, emit.
  unfold Eff.bind, Eff.try_catch, Eff.lift, Eff.throw, setStatus, setError, setStep,
    setPaymentInfo, update, Eff.modify.
  cbn [fst snd app]. rewrite Hfetch, Hstatus, Hjson.
  cbn [Z.eqb Pos.eqb get_prop]. rewrite Hpayment, paymentRequirement_props.
  destruct (usdcAddress_defined e) as [a Ha]. rewrite Ha.
  pose proof (number_toString_nonempty (RouteSettle.PAYMENT_AMOUNT e)) as Hamt.
  repeat (obj_compute; cbn [or_else truthy negb to_string];
          rewrite ?(eqb_ne _ _ Hamt)).
  cbn [status paymentInfo content error_ step].
  rewrite !or_else_str_empty.
  by destruct (RouteSettle.isMainnet e).
Qed.

(** X25. The challenge of the handler of [layout.js] and of the first
    variant of [route.js] is signed for the wrong network on Base
    Sepolia: when the page's first request is answered by either handler
    and the payment is then processed, the challenge names the network
    [eip155:8453] or [eip155:84532] as configured, every [switchChain]
    asks for the configured chain, and yet every [createPaymentHeader]
    is given requirements whose network is [base]; their other properties
    are those of the challenge. *)
Theorem eip155_challenge_is_signed_for_base (e : Server.env) (sw : Server.world)
    (vw : RouteV1.world) (request : Http.request) (resp : Http.response)
    (w : world) (s0 s s' : state) (tr1 tr : list event) :
  Http.req_headers request !! "x-payment" = None ->
  fst (RouteSettle.handle e sw request) = Returns resp \/
  fst (RouteV1.handle e vw request) = Returns resp ->
  fetch w "/api/premium" None = Returns (deliver resp) ->
  run (handleAccessContent w) s0 = (s, tr1) ->
  run (handleProcessPayment w) s = (s', tr) ->
  let challenge := get_prop_opt (RouteSettle.paymentRequirement e request) "x402Requirements" in
  get_prop_opt challenge "network" =
    VStr (if RouteSettle.isMainnet e then "eip155:8453" else "eip155:84532") /\
  (forall n, SwitchChain n ∈ tr -> n = if RouteSettle.isMainnet e then 8453 else 84532) /\
  (forall args, CreatePaymentHeader args ∈ tr ->
     get_prop_opt (requirements args) "network" = VStr "base" /\
     forall k, k ≠ "network" ->
               get_prop_opt (requirements args) k = get_prop_opt challenge k).
Proof.
  intros Hhdr Hserver Hfetch Hfirst Hrun challenge.
  pose proof (eip155_challenge_is_held e sw vw request resp w s0 Hhdr Hserver Hfetch) as Hheld.
  rewrite Hfirst in Hheld. cbn [fst] in Hheld.
  destruct (handleProcessPayment_trace w s s' tr Hrun) as (res & s2 & tr2 & Hprep & Htr).
  rewrite Hheld in Hprep.
  assert (Hsub : forall ev, is_fetch ev = false -> ev ∈ tr -> ev ∈ tr2).
  { intros ev Hev Hin. destruct Htr as [->|(header & _ & ->)]; [done|].
    apply elem_of_app in Hin as [Hin|Hin]; [done|].
    apply list_elem_of_singleton in Hin. by subst ev. }
  subst challenge. rewrite paymentRequirement_props in *.
  destruct (usdcAddress_defined e) as [a Ha]. rewrite Ha in *.
  split; [reflexivity|]. split.
  - intros n Hin. apply Hsub in Hin; [|done].
    destruct (prepareProof_switch w _ _ s2 tr2 res n Hprep Hin)
      as (pre & _ & _ & _ & _ & _ & _ & (net & Hnet & Htarget) & _).
    cbn [get_prop obj_get String.eqb Ascii.eqb Bool.eqb andb] in Hnet.
    injection Hnet as <-. revert Htarget. cbv zeta.
    destruct (RouteSettle.isMainnet e);
      cbn [or_else truthy negb String.eqb Ascii.eqb Bool.eqb andb].
    + intros [(_ & [H|(inc & H1 & H2)])|(-> & _)]; [discriminate H| |done].
      cbn in H1. injection H1 as <-. discriminate H2.
    + intros [(-> & _)|(_ & H & _)]; [done | discriminate H].
  - intros args Hin. apply Hsub in Hin; [|done].
    rewrite (prepareProof_signs w _ _ s2 tr2 res args Hprep Hin).
    unfold creation_args. cbn [requirements].
    obj_compute.
    assert (Hnorm : normalizeNetworkForSdk
                      (VStr (if RouteSettle.isMainnet e then "eip155:8453" else "eip155:84532"))
                    = VStr "base").
    { by destruct (RouteSettle.isMainnet e). }
    rewrite Hnorm. obj_compute. split; [reflexivity|].
    intros k Hk. cbn [obj_get].
    destruct (String.eqb k "scheme"); [reflexivity|].
    by rewrite (eqb_ne _ _ Hk).
Qed.

Lemma eip155_challenge_is_signed_for_base_witness :
  exists args,
    CreatePaymentHeader args
      ∈ snd (run (handleProcessPayment Scenario.sepolia_browser)
               (fst (run (handleAccessContent Scenario.sepolia_browser) initial))) /\
    get_prop_opt (requirements args) "network" = VStr "base" /\
    get_prop_opt
      (get_prop_opt (RouteSettle.paymentRequirement Scenario.sepolia Sample.bare_request)
         "x402Requirements") "network" = VStr "eip155:84532".
Proof.
  destruct (RouteSettle.handle Scenario.sepolia Sample.settle_endpoint_world
              (Http.Request (Some Scenario.premium) ∅)) as [[resp|err] tr0] eqn:Hserver;
    [|by vm_compute in Hserver].
  destruct (run (handleAccessContent Scenario.sepolia_browser) initial) as [s tr1] eqn:Hfirst.
  cbn [fst].
  destruct (run (handleProcessPayment Scenario.sepolia_browser) s) as [s' tr] eqn:Hrun.
  cbn [snd].
  assert (Hin : exists args, CreatePaymentHeader args ∈ tr).
  { vm_compute in Hfirst. injection Hfirst as <- _.
    vm_compute in Hrun. injection Hrun as _ <-.
    eexists. apply list_elem_of_here. }
  destruct Hin as [args Hin]. exists args. split; [exact Hin|].
  assert (Hhdr : Http.req_headers (Http.Request (Some Scenario.premium) ∅) !! "x-payment"
                 = None) by reflexivity.
  assert (Hfetch : fetch Scenario.sepolia_browser "/api/premium" None
                   = Returns (deliver resp)).
  { cbn [fetch Scenario.sepolia_browser]. unfold served_by_layout. by rewrite Hserver. }
  assert (Hanswer : fst (RouteSettle.handle Scenario.sepolia Sample.settle_endpoint_world
                           (Http.Request (Some Scenario.premium) ∅)) = Returns resp \/
                    fst (RouteV1.handle Scenario.sepolia Scenario.v1_paid
                           (Http.Request (Some Scenario.premium) ∅)) = Returns resp).
  { left. by rewrite Hserver. }
  destruct (eip155_challenge_is_signed_for_base Scenario.sepolia Sample.settle_endpoint_world
              Scenario.v1_paid (Http.Request (Some Scenario.premium) ∅) resp
              Scenario.sepolia_browser initial s s' tr1 tr Hhdr Hanswer Hfetch Hfirst Hrun)
    as (_ & _ & Hsigned).
  split; [exact (proj1 (Hsigned args Hin)) | reflexivity].
Defined.

End CrossFacts.
(** ** The page of [page.js] *)

Section PageJsFacts.

Import Js Page PageJs PageSpec FlowSpec.

Ltac pj_unfold :=
  unfold call_postProxy, base, call_connect, call_switchChain, call_createPaymentHeader,
    call_fetch, emit, setStatus, setError, setStep, setContent, setPaymentInfo, update,
    Eff.try_catch, Eff.bind, Eff.lift, Eff.ret, Eff.throw, Eff.get, Eff.modify.

Ltac no_such_event :=
  let ev := fresh "ev" in
  let Hin := fresh "Hin" in
  intros ev Hin;
  repeat (apply elem_of_cons in Hin as [Hin|Hin]; [discriminate Hin|]);
  by apply elem_of_nil in Hin.


Lemma includes_after (needle a b : string) :
  includes needle b = true -> includes needle (a +:+ b) = true.
Proof.
  intros H. induction a as [|c a IH]; [exact H|].
  change (String c a +:+ b) with (String c (a +:+ b)).
  cbn [includes]. rewrite IH. apply orb_true_r.
Qed.

Lemma includes_nonempty (needle hay : string) :
  needle ≠ "" -> includes needle hay = true -> hay ≠ "".
Proof. intros Hn H ->. destruct needle; [done|]. discriminate H. Qed.

Lemma or_else_str (r : string) (d : value) : r ≠ "" -> or_else (VStr r) d = VStr r.
Proof. intros Hr. unfold or_else, truthy. by rewrite (eqb_ne _ _ Hr). Qed.

(** With the challenge of [route.js] held, a wallet on the server's chain
    and a resource on [localhost], the first [try] block ends before the
    proxy is called. *)
Lemma local_resource_skips_proxy (e : Server.env) (request : Http.request) (w : world)
    (s : state) (tr : list event) :
  includes "localhost" (Route.buildResourceUrl e request) = true ->
  isConnected (wallet w) = true ->
  walletClient (wallet w) = true ->
  chainId (wallet w) =
    Some (if Route.isMainnet (Route.resolveNetworkConfig (Route.NETWORK e))
          then 8453 else 84532) ->
  payThroughProxy w (Route.pc_payment (Route.buildPaymentConfig e request)) (s, tr) =
    (Throws (Error "Localhost not supported by Thirdweb API - using fallback"),
     (State (status s) (paymentInfo s) (content s) (error_ s) 4, tr)).
Proof.
  intros Hlocal Hconn Hwallet Hchain.
  assert (Hne : Route.buildResourceUrl e request ≠ "")
    by by apply (includes_nonempty "localhost").
  unfold payThroughProxy. rewrite Hconn, Hwallet, Hchain, payment_props, requirements_props.
  cbv zeta.
  cbn [negb get_prop get_prop_opt obj_get String.eqb Ascii.eqb Bool.eqb andb].
  unfold Route.resolveNetworkConfig. cbn [Route.displayNetwork Route.isMainnet].
  destruct (bool_decide (_ ∈ Route.MAINNET_ALIASES));
    pj_unfold;
    cbn [or_else truthy negb is_str includes_method String.eqb Ascii.eqb Bool.eqb andb orb
         fst snd];
    rewrite ?(or_else_str _ _ Hne);
    cbn [negb startsWith_method to_string id Page.base Page.baseSepolia];
    [change (includes "84532" "base:8453") with false; cbn [orb id Page.base]|];
    rewrite bool_decide_eq_true_2 by done; cbn [negb map app fst snd];
    rewrite ?app_nil_r;
    (destruct (startsWith "http" (Route.buildResourceUrl e request));
       [rewrite Hlocal | rewrite (includes_after _ _ _ Hlocal)]); reflexivity.
Qed.

(** The fallback on the challenge of [route.js]: the network tags [base]
    and [base-sepolia] need no conversion, so the requirements reach
    [createPaymentHeader] unchanged. *)
Lemma payWithHeader_of_challenge (e : Server.env) (request : Http.request) (w : world)
    (st : state * list event) :
  Route.buildResourceUrl e request ≠ "" ->
  let args :=
    HeaderArgs 1 (Route.pc_x402Requirements (Route.buildPaymentConfig e request))
      "https://x402.org/facilitator" in
  payWithHeader w (Route.pc_payment (Route.buildPaymentConfig e request)) st =
    (let* _ := base (setStep 4) in
     let* paymentHeader := base (call_createPaymentHeader (wallet w) args) in
     let* response := base (call_fetch (wallet w) "/api/premium" (Some paymentHeader)) in
     if Http.ok (res_status response) then
       let contentType := res_content_type response in
       if match contentType with
          | Some ct => negb (String.eqb ct "") && includes "video/mp4" ct
          | None => false
          end
       then
         let* videoBlob := Eff.lift (res_blob response) in
         let* _ := base (setContent (videoContent w videoBlob [])) in
         let* _ := base (setStatus success) in
         base (setStep 5)
       else
         Eff.throw (Error ("Expected video response but received: " +:+
                           match contentType with
                           | Some ct => ct
                           | None => "null"
                           end))
     else if res_status response =? 402 then
       let* data := Eff.lift (res_json response) in
       let* errorMessage := Eff.lift (verificationFailure data) in
       let* _ := base (setError errorMessage) in
       base (setStatus error)
     else
       Eff.throw (Error ("Unexpected status: " +:+ pretty (res_status response)))) st.
Proof.
  intros Hne args.
  unfold payWithHeader. subst args. rewrite payment_props, requirements_props. cbv zeta.
  destruct (asset_defined e) as [a Ha]. rewrite Ha.
  unfold Eff.bind at 1, Eff.lift at 1.
  cbn [get_prop obj_get String.eqb Ascii.eqb Bool.eqb andb truthy negb Route.str_val].
  cbn [literal fold_left obj_set obj_assign own_props fst snd
       String.eqb Ascii.eqb Bool.eqb andb].
  unfold PageFallback.convertNetwork, PageFallback.includes_opt.
  cbn [obj_get String.eqb Ascii.eqb Bool.eqb andb is_str].
  unfold Route.resolveNetworkConfig. cbn [Route.x402Network].
  destruct (bool_decide (_ ∈ Route.MAINNET_ALIASES));
    cbn [is_str includes_method String.eqb Ascii.eqb Bool.eqb andb];
    [change (includes "8453" "base") with false;
     change (includes "84532" "base") with false
    |change (includes "8453" "base-sepolia") with false;
     change (includes "84532" "base-sepolia") with false];
    unfold Eff.bind at 1, Eff.lift at 1;
    cbn [obj_get String.eqb Ascii.eqb Bool.eqb andb truthy];
    rewrite (eqb_ne _ _ Hne); reflexivity.
Qed.

(** What the fallback leaves behind on that challenge, after a first
    exception with message [m]. *)
Lemma fallback_outcome (e : Server.env) (request : Http.request) (w : world)
    (s1 s' : state) (tr1 tr : list event) (m : string) :
  Route.buildResourceUrl e request ≠ "" ->
  m ≠ "" ->
  let args :=
    HeaderArgs 1 (Route.pc_x402Requirements (Route.buildPaymentConfig e request))
      "https://x402.org/facilitator" in
  snd (Eff.try_catch
         (payWithHeader w (Route.pc_payment (Route.buildPaymentConfig e request)))
         (fun fallbackError =>
            let* _ :=
              base (setError
                      (VStr (str_or (Some m)
                               (str_or (Some (message fallbackError))
                                  "An error occurred during payment processing")))) in
            base (setStatus error))
         (s1, tr1)) = (s', tr) ->
  exists rest,
    tr = tr1 ++ Base (CreatePaymentHeader args) :: rest /\
    (forall body, PostProxy body ∉ rest) /\
    (forall n, Base (SwitchChain n) ∉ rest) /\
    (status s' = success \/ status s' = error) /\
    (status s' = error ->
     error_ s' = VStr m \/
     exists header response data,
       createPaymentHeader (wallet w) args = Returns header /\
       fetch (wallet w) "/api/premium" (Some header) = Returns response /\
       res_status response = 402 /\
       res_json response = Returns data /\
       verificationFailure data = Returns (error_ s')).
Proof.
  intros Hne Hm args. unfold Eff.try_catch at 1.
  rewrite (payWithHeader_of_challenge e request w _ Hne). fold args.
  assert (Hmask : forall d, str_or (Some m) d = m).
  { intros d. unfold str_or. by rewrite (eqb_ne _ _ Hm). }
  pj_unfold. cbn [fst snd map app status paymentInfo content error_ step].
  destruct (createPaymentHeader (wallet w) args) as [header|err] eqn:Hheader;
    cbn [fst snd map app status paymentInfo content error_ step].
  - destruct (fetch (wallet w) "/api/premium" (Some header)) as [response|err] eqn:Hfetch;
      cbn [fst snd map app status paymentInfo content error_ step].
    + destruct (Http.ok (res_status response)).
      * destruct (match res_content_type response with Some _ => _ | None => _ end).
        -- destruct (res_blob response); cbn [fst snd map app status error_];
             rewrite ?Hmask; intros [= <- <-]; eexists; rewrite ?app_nil_r, <- ?app_assoc; cbn [app];
             (split; [reflexivity|]); (split; [no_such_event|]); (split; [no_such_event|]);
             cbn [status error_]; (split; [by (left + right)|]);
             intros Herr; by (try discriminate Herr; left).
        -- cbn [fst snd map app status error_];
             rewrite ?Hmask; intros [= <- <-]; eexists; rewrite ?app_nil_r, <- ?app_assoc; cbn [app];
             (split; [reflexivity|]); (split; [no_such_event|]); (split; [no_such_event|]);
             cbn [status error_]; (split; [by right|]); intros Herr; by left.
      * destruct (res_status response =? 402) eqn:Hst.
        -- apply Z.eqb_eq in Hst.
           destruct (res_json response) as [data|err] eqn:Hjson;
             [destruct (verificationFailure data) as [msg|err] eqn:Hmsg|];
             cbn [fst snd map app status error_];
             rewrite ?Hmask; intros [= <- <-]; eexists; rewrite ?app_nil_r, <- ?app_assoc; cbn [app];
             (split; [reflexivity|]); (split; [no_such_event|]); (split; [no_such_event|]);
             cbn [status error_]; (split; [by right|]); intros Herr;
             first [ by left | right; by exists header, response, data ].
        -- cbn [fst snd map app status error_];
             rewrite ?Hmask; intros [= <- <-]; eexists; rewrite ?app_nil_r, <- ?app_assoc; cbn [app];
             (split; [reflexivity|]); (split; [no_such_event|]); (split; [no_such_event|]);
             cbn [status error_]; (split; [by right|]); intros Herr; by left.
    + rewrite ?Hmask. intros [= <- <-]. eexists. rewrite ?app_nil_r, <- ?app_assoc. cbn [app].
      (split; [reflexivity|]); (split; [no_such_event|]); (split; [no_such_event|]).
      cbn [status error_]. split; [by right|]. intros _. by left.
  - rewrite ?Hmask. intros [= <- <-]. eexists. rewrite ?app_nil_r, <- ?app_assoc. cbn [app].
    (split; [reflexivity|]); (split; [no_such_event|]); (split; [no_such_event|]).
    cbn [status error_]. split; [by right|]. intros _. by left.
Qed.

Lemma PageJs_handleProcessPayment_run (w : world) (s : state) :
  PageJs.run (PageJs.handleProcessPayment w) s =
    snd (Eff.try_catch
           (payThroughProxy w (paymentInfo s))
           (fun apiError =>
              Eff.try_catch
                (payWithHeader w (paymentInfo s))
                (fun fallbackError =>
                   let* _ :=
                     base (setError
                             (VStr (str_or (Some (message apiError))
                                      (str_or (Some (message fallbackError))
                                         "An error occurred during payment processing")))) in
                   base (setStatus error)))
           (State processing (paymentInfo s) (content s) (error_ s) 3, [])).
Proof. reflexivity. Qed.

(** X26. In development every failure looks the same: with the challenge
    of [route.js] held for a resource on [localhost] and the wallet
    connected on the server's chain, [handleProcessPayment] of [page.js]
    never calls the proxy; its first external call is
    [createPaymentHeader] with the server's requirements; and whenever the
    run ends in [error], the message shown is [Localhost not supported by
    Thirdweb API - using fallback] (be it a signature the wallet refused,
    a request that failed, a video that is none or an unexpected status),
    except for a retry answered 402 with a body that can be read, whose
    message is shown. *)
Theorem local_failures_are_reported_as_localhost (e : Server.env)
    (request : Http.request) (w : world) (s s' : state) (tr : list event) :
  paymentInfo s = Route.pc_payment (Route.buildPaymentConfig e request) ->
  includes "localhost" (Route.buildResourceUrl e request) = true ->
  isConnected (wallet w) = true ->
  walletClient (wallet w) = true ->
  chainId (wallet w) =
    Some (if Route.isMainnet (Route.resolveNetworkConfig (Route.NETWORK e))
          then 8453 else 84532) ->
  PageJs.run (PageJs.handleProcessPayment w) s = (s', tr) ->
  let args :=
    HeaderArgs 1 (Route.pc_x402Requirements (Route.buildPaymentConfig e request))
      "https://x402.org/facilitator" in
  (forall body, PostProxy body ∉ tr) /\
  head tr = Some (Base (CreatePaymentHeader args)) /\
  (status s' = error ->
   error_ s' = VStr "Localhost not supported by Thirdweb API - using fallback" \/
   exists header response data,
     createPaymentHeader (wallet w) args = Returns header /\
     fetch (wallet w) "/api/premium" (Some header) = Returns response /\
     res_status response = 402 /\
     res_json response = Returns data /\
     verificationFailure data = Returns (error_ s')).
Proof.
  intros Hheld Hlocal Hconn Hwallet Hchain Hrun args.
  assert (Hne : Route.buildResourceUrl e request ≠ "")
    by by apply (includes_nonempty "localhost").
  rewrite PageJs_handleProcessPayment_run, Hheld in Hrun.
  unfold Eff.try_catch at 1 in Hrun.
  rewrite (local_resource_skips_proxy e request w _ _ Hlocal Hconn Hwallet Hchain) in Hrun.
  cbn [message] in Hrun.
  destruct (fallback_outcome e request w _ s' [] tr
              "Localhost not supported by Thirdweb API - using fallback"
              Hne ltac:(discriminate) Hrun)
    as (rest & -> & Hproxy & _ & _ & Herror).
  split; [|split; [reflexivity | exact Herror]].
  intros body Hin. apply elem_of_cons in Hin as [Hin|Hin]; [discriminate Hin|].
  by apply Hproxy in Hin.
Qed.

Lemma local_failures_are_reported_as_localhost_witness :
  error_ (fst (PageJs.run (PageJs.handleProcessPayment Scenario.local_page)
                 Scenario.local_challenged))
    = VStr "Localhost not supported by Thirdweb API - using fallback".
Proof.
  destruct (PageJs.run (PageJs.handleProcessPayment Scenario.local_page)
              Scenario.local_challenged) as [s' tr] eqn:Hrun.
  pose proof (local_failures_are_reported_as_localhost Sample.credentials
                Scenario.local_request Scenario.local_page Scenario.local_challenged s' tr
                eq_refl eq_refl eq_refl eq_refl eq_refl Hrun) as H.
  cbv zeta in H. destruct H as (_ & _ & [Herror|(header & response & data & Hheader & _)]).
  - vm_compute in Hrun. by injection Hrun as <- _.
  - exact Herror.
  - discriminate Hheader.
Defined.


(** With the challenge of [route.js] held and the wallet connected on
    another chain, a refused switch ends the first [try] block. *)
Lemma refused_switch_ends_first_block (e : Server.env) (request : Http.request)
    (w : world) (s : state) (tr : list event) (err : Js.error) :
  let mainnet := Route.isMainnet (Route.resolveNetworkConfig (Route.NETWORK e)) in
  isConnected (wallet w) = true ->
  chainId (wallet w) ≠ Some (if mainnet then 8453 else 84532) ->
  switchChain (wallet w) (if mainnet then 8453 else 84532) = Throws err ->
  payThroughProxy w (Route.pc_payment (Route.buildPaymentConfig e request)) (s, tr) =
    (Throws (Error ("Please switch to " +:+ (if mainnet then "Base" else "Base Sepolia") +:+
                    " network in your wallet and try again.")),
     (State processing (paymentInfo s) (content s) VNull (step s),
      tr ++ [Base (SwitchChain (if mainnet then 8453 else 84532))])).
Proof.
  intros mainnet Hconn Hchain Hswitch. subst mainnet. revert Hchain Hswitch.
  unfold payThroughProxy. rewrite Hconn, payment_props. cbv zeta.
  cbn [negb get_prop get_prop_opt obj_get String.eqb Ascii.eqb Bool.eqb andb].
  unfold Route.resolveNetworkConfig. cbn [Route.displayNetwork Route.isMainnet].
  destruct (bool_decide (_ ∈ Route.MAINNET_ALIASES)); intros Hchain Hswitch;
    pj_unfold;
    cbn [or_else truthy negb is_str includes_method String.eqb Ascii.eqb Bool.eqb andb orb
         fst snd];
    [change (includes "84532" "base:8453") with false|];
    cbn [orb id name Page.base Page.baseSepolia];
    rewrite bool_decide_eq_false_2 by done; cbn [negb map app fst snd];
    rewrite Hswitch; cbn [fst snd map app status paymentInfo content error_ step];
    rewrite ?app_nil_r; reflexivity.
Qed.

(** X27. In [page.js] a refused chain switch does not end the payment: with
    the challenge of [route.js] held and the wallet connected on another
    chain, after the refused [switchChain] the very next external call is
    [createPaymentHeader] with the server's requirements; the proxy is
    never called; the run ends in [success] or in [error], and in [error]
    the message shown is [Please switch to ... network in your wallet and
    try again.] whatever went wrong afterwards, except for a retry
    answered 402 with a body that can be read. *)
Theorem refused_switch_does_not_stop_the_fallback (e : Server.env)
    (request : Http.request) (w : world) (s s' : state) (tr : list event)
    (err : Js.error) :
  let mainnet := Route.isMainnet (Route.resolveNetworkConfig (Route.NETWORK e)) in
  let args :=
    HeaderArgs 1 (Route.pc_x402Requirements (Route.buildPaymentConfig e request))
      "https://x402.org/facilitator" in
  paymentInfo s = Route.pc_payment (Route.buildPaymentConfig e request) ->
  Route.buildResourceUrl e request ≠ "" ->
  isConnected (wallet w) = true ->
  chainId (wallet w) ≠ Some (if mainnet then 8453 else 84532) ->
  switchChain (wallet w) (if mainnet then 8453 else 84532) = Throws err ->
  PageJs.run (PageJs.handleProcessPayment w) s = (s', tr) ->
  exists rest,
    tr = Base (SwitchChain (if mainnet then 8453 else 84532))
           :: Base (CreatePaymentHeader args) :: rest /\
    (forall body, PostProxy body ∉ tr) /\
    (status s' = success \/ status s' = error) /\
    (status s' = error ->
     error_ s' = VStr ("Please switch to " +:+ (if mainnet then "Base" else "Base Sepolia") +:+
                       " network in your wallet and try again.") \/
     exists header response data,
       createPaymentHeader (wallet w) args = Returns header /\
       fetch (wallet w) "/api/premium" (Some header) = Returns response /\
       res_status response = 402 /\
       res_json response = Returns data /\
       verificationFailure data = Returns (error_ s')).
Proof.
  intros mainnet args Hheld Hne Hconn Hchain Hswitch Hrun.
  rewrite PageJs_handleProcessPayment_run, Hheld in Hrun.
  unfold Eff.try_catch at 1 in Hrun.
  rewrite (refused_switch_ends_first_block e request w _ _ err Hconn Hchain Hswitch) in Hrun.
  cbn [message app] in Hrun. fold mainnet in Hrun.
  destruct (fallback_outcome e request w _ s' _ tr
              ("Please switch to " +:+ (if mainnet then "Base" else "Base Sepolia") +:+
               " network in your wallet and try again.")
              Hne ltac:(by destruct mainnet) Hrun)
    as (rest & -> & Hproxy & _ & Hstatus & Herror).
  exists rest. split; [reflexivity|]. split; [|by split].
  intros body Hin. cbn [app] in Hin.
  apply elem_of_cons in Hin as [Hin|Hin]; [discriminate Hin|].
  apply elem_of_cons in Hin as [Hin|Hin]; [discriminate Hin|].
  by apply Hproxy in Hin.
Qed.

Lemma refused_switch_does_not_stop_the_fallback_witness :
  exists rest,
    snd (PageJs.run (PageJs.handleProcessPayment Scenario.stubborn_page) Scenario.challenged)
      = Base (SwitchChain 8453)
          :: Base (CreatePaymentHeader
                     (HeaderArgs 1
                        (Route.pc_x402Requirements
                           (Route.buildPaymentConfig Sample.credentials Sample.paid_request))
                        "https://x402.org/facilitator"))
          :: rest.
Proof.
  destruct (PageJs.run (PageJs.handleProcessPayment Scenario.stubborn_page)
              Scenario.challenged) as [s' tr] eqn:Hrun.
  pose proof (refused_switch_does_not_stop_the_fallback Sample.credentials
                Sample.paid_request Scenario.stubborn_page Scenario.challenged s' tr
                (Error "User rejected the request.")) as H.
  cbv zeta in H.
  destruct H as (rest & Htr & _); [reflexivity | discriminate | reflexivity | discriminate
                                  | reflexivity | exact Hrun |].
  by exists rest.
Defined.


(** With the challenge of [route.js] held, a wallet on the server's chain
    and a resource that is not local, the first [try] block asks the
    proxy, and goes on with its answer. *)
Lemma remote_resource_asks_proxy (e : Server.env) (request : Http.request) (w : world)
    (s : state) (tr : list event) (response : fetchResponse) :
  let r := Route.buildResourceUrl e request in
  let fullResourceUrl := if startsWith "http" r then r else origin w +:+ r in
  r ≠ "" ->
  includes "localhost" fullResourceUrl = false ->
  includes "127.0.0.1" fullResourceUrl = false ->
  isConnected (wallet w) = true ->
  walletClient (wallet w) = true ->
  chainId (wallet w) =
    Some (if Route.isMainnet (Route.resolveNetworkConfig (Route.NETWORK e))
          then 8453 else 84532) ->
  postProxy w (proxyBody fullResourceUrl (address w)) = Returns response ->
  Http.ok (res_status response) = true ->
  payThroughProxy w (Route.pc_payment (Route.buildPaymentConfig e request)) (s, tr) =
    (let* purchaseData := Eff.lift (res_json response) in
     let* shown := showPurchasedVideo w purchaseData in
     if shown then Eff.ret tt
     else
       let* transactionId :=
         Eff.lift (Proxy.ToString (or_else (get_prop_opt purchaseData "transactionId")
                                     (VStr "N/A"))) in
       let* _ :=
         base (setContent (VObj (literal
                 [Prop_ "access" (VStr "granted");
                  Prop_ "message"
                    (VStr ("Payment successful! Transaction ID: " +:+ transactionId));
                  Prop_ "transactionId" (get_prop_opt purchaseData "transactionId");
                  Prop_ "timestamp" (VStr (now_iso (wallet w)))]))) in
       let* _ := base (setStatus success) in
       base (setStep 5))
      (State (status s) (paymentInfo s) (content s) (error_ s) 4,
       tr ++ [PostProxy (proxyBody fullResourceUrl (address w))]).
Proof.
  intros r full Hne Hlocal Hloop Hconn Hwallet Hchain Hproxy Hok. subst r full.
  revert Hlocal Hloop Hproxy.
  unfold payThroughProxy. rewrite Hconn, Hwallet, Hchain, payment_props, requirements_props.
  cbv zeta.
  cbn [negb get_prop get_prop_opt obj_get String.eqb Ascii.eqb Bool.eqb andb].
  unfold Route.resolveNetworkConfig. cbn [Route.displayNetwork Route.isMainnet].
  rewrite (or_else_str _ _ Hne). cbn [startsWith_method to_string].
  destruct (bool_decide (_ ∈ Route.MAINNET_ALIASES)); intros Hlocal Hloop Hproxy;
    unfold Eff.bind at 1, Eff.ret at 1;
    unfold Eff.bind at 1, Eff.lift at 1;
    unfold Eff.bind at 1;
    cbn [or_else truthy negb is_str includes_method String.eqb Ascii.eqb Bool.eqb andb orb];
    [change (includes "84532" "base:8453") with false; unfold Eff.bind at 1, Eff.lift at 1,
       Eff.ret at 1|unfold Eff.ret at 1];
    cbn [orb id Page.base Page.baseSepolia];
    rewrite bool_decide_eq_true_2 by done; cbn [negb];
    unfold Eff.bind at 1, Eff.ret at 1;
    unfold Eff.bind at 1; unfold base at 1, setStep, update, Eff.modify;
    cbn [fst snd map app status paymentInfo content error_ step]; rewrite app_nil_r;
    unfold Eff.bind at 1, Eff.lift at 1;
    rewrite Hlocal, Hloop; cbn [orb];
    unfold Eff.bind at 1, call_postProxy; unfold Eff.bind at 1, Eff.modify, Eff.lift at 1;
    cbn [fst snd]; rewrite Hproxy, Hok; reflexivity.
Qed.

(** X28. A receipt of the proxy is enough for [success]: with the
    challenge of [route.js] held for a resource that is not local and the
    wallet connected on the server's chain, when the proxy answers 2xx
    with a JSON object that has no purchase details or no payment header,
    [handleProcessPayment] of [page.js] ends in [success] at step 5 with
    the message [Payment successful! Transaction ID: ...]; the POST to the
    proxy (naming the absolute resource URL and the wallet address) is the
    only external call: the wallet is not asked to sign, the resource is
    not requested, and the content has no video. *)
Theorem proxy_receipt_counts_as_success (e : Server.env) (request : Http.request)
    (w : world) (s s' : state) (tr : list event) (response : fetchResponse)
    (receipt : obj) (transactionId : string) :
  let r := Route.buildResourceUrl e request in
  let fullResourceUrl := if startsWith "http" r then r else origin w +:+ r in
  paymentInfo s = Route.pc_payment (Route.buildPaymentConfig e request) ->
  r ≠ "" ->
  includes "localhost" fullResourceUrl = false ->
  includes "127.0.0.1" fullResourceUrl = false ->
  isConnected (wallet w) = true ->
  walletClient (wallet w) = true ->
  chainId (wallet w) =
    Some (if Route.isMainnet (Route.resolveNetworkConfig (Route.NETWORK e))
          then 8453 else 84532) ->
  postProxy w (proxyBody fullResourceUrl (address w)) = Returns response ->
  Http.ok (res_status response) = true ->
  res_json response = Returns (VObj receipt) ->
  truthy (or_else (obj_get "purchaseDetails" receipt) (obj_get "data" receipt)) = false \/
  truthy (or_else (obj_get "paymentHeader" receipt) (obj_get "xPayment" receipt)) = false ->
  Proxy.ToString (or_else (obj_get "transactionId" receipt) (VStr "N/A"))
    = Returns transactionId ->
  PageJs.run (PageJs.handleProcessPayment w) s = (s', tr) ->
  status s' = success /\
  step s' = 5 /\
  tr = [PostProxy (proxyBody fullResourceUrl (address w))] /\
  get_prop_opt (content s') "message" =
    VStr ("Payment successful! Transaction ID: " +:+ transactionId) /\
  get_prop_opt (content s') "videoUrl" = VUndef /\
  paymentInfo s' = paymentInfo s.
Proof.
  intros r full Hheld Hne Hlocal Hloop Hconn Hwallet Hchain Hproxy Hok Hjson Hreceipt Htid Hrun.
  rewrite PageJs_handleProcessPayment_run, Hheld in Hrun.
  unfold Eff.try_catch at 1 in Hrun.
  rewrite (remote_resource_asks_proxy e request w _ _ response Hne Hlocal Hloop Hconn
             Hwallet Hchain Hproxy Hok) in Hrun.
  fold r full in Hrun. rewrite Hjson in Hrun.
  unfold Eff.bind at 1, Eff.lift at 1 in Hrun.
  assert (Hshown : forall st, showPurchasedVideo w (VObj receipt) st = (Returns false, st)).
  { intros st. unfold showPurchasedVideo.
    cbn [get_prop get_prop_opt]. unfold Eff.bind at 1, Eff.lift at 1.
    destruct (truthy (or_else (obj_get "purchaseDetails" receipt) (obj_get "data" receipt)));
      [|reflexivity].
    destruct Hreceipt as [Hreceipt|Hreceipt]; [discriminate|]. by rewrite Hreceipt. }
  unfold Eff.bind at 1 in Hrun. rewrite Hshown in Hrun.
  cbn [get_prop_opt] in Hrun. rewrite Htid in Hrun.
  revert Hrun. pj_unfold.
  cbn [fst snd map app status paymentInfo content error_ step]. rewrite ?app_nil_r.
  intros [= <- <-]. cbn [status step content paymentInfo]. rewrite Hheld.
  repeat split; reflexivity.
Qed.

Lemma proxy_receipt_counts_as_success_witness :
  status (fst (PageJs.run (PageJs.handleProcessPayment Scenario.receipt_page)
                 Scenario.challenged)) = success /\
  snd (PageJs.run (PageJs.handleProcessPayment Scenario.receipt_page) Scenario.challenged)
    = [PostProxy (proxyBody "https://paywall.example/api/premium"
                    (Some "0x2222222222222222222222222222222222222222"))].
Proof.
  destruct (PageJs.run (PageJs.handleProcessPayment Scenario.receipt_page)
              Scenario.challenged) as [s' tr] eqn:Hrun.
  pose proof (proxy_receipt_counts_as_success Sample.credentials Sample.paid_request
                Scenario.receipt_page Scenario.challenged s' tr Scenario.receipt
                [("transactionId", VStr "0xabc")] "0xabc") as H.
  cbv zeta in H.
  destruct H as (Hstatus & _ & Htr & _);
    [reflexivity | discriminate | reflexivity | reflexivity | reflexivity | reflexivity
    | reflexivity | reflexivity | reflexivity | reflexivity | by left | reflexivity
    | exact Hrun |].
  by split.
Defined.

End PageJsFacts.
